(** * AutoScope: a shallow embedding of [autoscope.py]

    The program drives a fixed pipeline of external reconnaissance tools and
    then concatenates their text outputs into one report.  Everything it does
    is an effect: it prints, starts subprocesses, tests for files and writes
    files.  The embedding therefore threads an explicit [World] (the file
    system below the output directory, the lines printed so far, the
    subprocesses started so far) through an error monad, and takes what the
    program cannot decide by itself (which tools are installed, what a
    subprocess does) from a [Host] record.

    Scope of the model.
    - Text is a [string] of bytes; Python's [str.isspace] and the regular
      expression class [\w] are modelled on the ASCII range.
    - A file's content is the text Python's text mode reads from it.
    - The file system faults only structurally (a directory where a file is
      expected, a missing parent, ...); permissions, encodings and full disks
      are not modelled.
    - Paths are the strings the program builds; POSIX separators.
      [joinpath] is pathlib's join of a directory, written without a trailing
      separator, with a relative name; the output directory of [main] is
      this join when the output base and the target are single path
      components.
    - A subprocess always ends: it exits, runs into its timeout or cannot be
      started.
    - The text of an exception is modelled where the program prints it; the
      exceptions of [makedirs] are caught nowhere. *)

From Stdlib Require Import ZArith Ascii String List Lia.
From stdpp Require Import gmap strings list fin_maps pretty.

Local Open Scope Z_scope.

(** ** Text helpers (the Python string methods the program calls) *)

Module Text.

Definition nl : string := String "010"%char EmptyString.

Definition in_range (lo hi : nat) (c : ascii) : bool :=
  let n := nat_of_ascii c in (Nat.leb lo n && Nat.leb n hi)%bool.

(** [str.isspace] on one character of ASCII text. *)
Definition isspace (c : ascii) : bool :=
  (in_range 9 13 c || in_range 28 32 c)%bool.

Fixpoint lstrip (s : string) : string :=
  match s with
  | EmptyString => EmptyString
  | String c r => if isspace c then lstrip r else s
  end.

Fixpoint rstrip (s : string) : string :=
  match s with
  | EmptyString => EmptyString
  | String c r =>
      match rstrip r with
      | EmptyString => if isspace c then EmptyString else String c EmptyString
      | r' => String c r'
      end
  end.

(** [s.strip()] *)
Definition strip (s : string) : string := rstrip (lstrip s).

(** [s.endswith(suffix)] *)
Fixpoint endswith (s suffix : string) : bool :=
  (String.eqb s suffix ||
   match s with
   | EmptyString => false
   | String _ r => endswith r suffix
   end)%bool.

(** [s.startswith(prefix)] *)
Fixpoint startswith (s prefix : string) {struct prefix} : bool :=
  match prefix, s with
  | EmptyString, _ => true
  | String a p, String b r => (Ascii.eqb a b && startswith r p)%bool
  | String _ _, EmptyString => false
  end.

Definition snoc (s : string) (c : ascii) : string := s +:+ String c EmptyString.

(** [s.split()]: the maximal runs of non-space characters. *)
Fixpoint split_from (tok : option string) (s : string) : list string :=
  match s with
  | EmptyString => match tok with Some t => [t] | None => [] end
  | String c r =>
      if isspace c
      then match tok with Some t => t :: split_from None r | None => split_from None r end
      else split_from (Some (snoc (default EmptyString tok) c)) r
  end.

Definition split (s : string) : list string := split_from None s.

(** Iterating over an open text file: the lines, each with its newline. *)
Fixpoint lines_from (cur : string) (s : string) : list string :=
  match s with
  | EmptyString => match cur with EmptyString => [] | _ => [cur] end
  | String c r =>
      if Ascii.eqb c "010" then snoc cur c :: lines_from EmptyString r
      else lines_from (snoc cur c) r
  end.

Definition lines (s : string) : list string := lines_from EmptyString s.

(** [sep.join(l)] *)
Definition join (sep : string) (l : list string) : string := String.concat sep l.

(** [s.replace(a, b)] for single characters. *)
Fixpoint replace (a b : ascii) (s : string) : string :=
  match s with
  | EmptyString => EmptyString
  | String c r => String (if Ascii.eqb c a then b else c) (replace a b r)
  end.

(** The longest prefix whose characters satisfy [p], and the rest. *)
Fixpoint span (p : ascii -> bool) (s : string) : string * string :=
  match s with
  | EmptyString => (EmptyString, EmptyString)
  | String c r =>
      if p c then let '(a, b) := span p r in (String c a, b)
      else (EmptyString, s)
  end.

(** [\w] on ASCII text *)
Definition is_word (c : ascii) : bool :=
  (in_range 48 57 c || in_range 65 90 c || in_range 97 122 c || Ascii.eqb c "_")%bool.

(** [[/\w-]] *)
Definition is_pathch (c : ascii) : bool :=
  (is_word c || Ascii.eqb c "/" || Ascii.eqb c "-")%bool.

(** One match of [[/\w-]+\?\w+=] anchored at the head of [s]: the matched
    text and what follows it.  Both repetitions are greedy, and giving
    characters back never helps: the character after a shortened run is
    still in the class, hence neither [?] nor [=]. *)
Definition match_here (s : string) : option (string * string) :=
  let '(a, r1) := span is_pathch s in
  match a, r1 with
  | String _ _, String "?" r2 =>
      let '(k, r3) := span is_word r2 in
      match k, r3 with
      | String _ _, String "=" r4 => Some (a +:+ "?" +:+ k +:+ "=", r4)
      | _, _ => None
      end
  | _, _ => None
  end.

(** [re.findall(r'[/\w-]+\?\w+=', s)]: leftmost matches, not overlapping. *)
Fixpoint findall_fuel (n : nat) (s : string) : list string :=
  match n with
  | O => []
  | S n' =>
      match s with
      | EmptyString => []
      | String _ r =>
          match match_here s with
          | Some (m, rest) => m :: findall_fuel n' rest
          | None => findall_fuel n' r
          end
      end
  end.

Definition findall (s : string) : list string := findall_fuel (String.length s) s.

(** The path before and after its last [/], when it has one. *)
Fixpoint rsplit_slash (p : string) : option string * string :=
  match p with
  | EmptyString => (None, EmptyString)
  | String c r =>
      match rsplit_slash r with
      | (Some d, b) => (Some (String c d), b)
      | (None, b) => if Ascii.eqb c "/" then (Some EmptyString, b) else (None, String c b)
      end
  end.

(** [os.path.dirname] *)
Definition dirname (p : string) : string := default EmptyString (fst (rsplit_slash p)).
(** [os.path.basename], [Path.name] *)
Definition basename (p : string) : string := snd (rsplit_slash p).

Fixpoint has_slash (s : string) : bool :=
  match s with
  | EmptyString => false
  | String c r => (Ascii.eqb c "/" || has_slash r)%bool
  end.

(** The position of the last ["."] of [s], counted from the left. *)
Fixpoint rfind_dot (s : string) : option nat :=
  match s with
  | EmptyString => None
  | String c r =>
      match rfind_dot r with
      | Some i => Some (S i)
      | None => if Ascii.eqb c "." then Some O else None
      end
  end.

(** [PurePath.stem]: the name without its last suffix; a leading or a
    trailing dot starts no suffix. *)
Definition stem (name : string) : string :=
  match rfind_dot name with
  | Some (S i) =>
      if Nat.ltb (S i) (String.length name - 1)%nat
      then String.substring 0 (S i) name else name
  | _ => name
  end.

End Text.

(** ** The world the program acts on *)

(** An entry of the file system: a regular file with its text, or a
    directory. *)
Inductive node := File (content : string) | Dir.

(** Python exceptions the program can meet: [subprocess.TimeoutExpired] has a
    handler of its own in [run_cmd]; every other exception only matters
    through [str(e)]. *)
Inductive exn := TimeoutExpired | PyError (msg : string).

(** [str(e)] *)
Definition str_exn (e : exn) : string :=
  match e with
  | TimeoutExpired => "Command timed out"
  | PyError msg => msg
  end.

(** What [subprocess.run(..., capture_output=True, text=True)] returns. *)
Record Completed := mkCompleted { returncode : Z; stdout : string; stderr : string }.

(** How a subprocess ends: it exits, it exceeds its timeout, or starting it
    or decoding its output raises. *)
Inductive outcome := Exited (c : Completed) | TimedOut | Faulted (msg : string).

(** What the program takes from its environment.  [spawn n cmd timeout fs] is
    the [n]-th subprocess the program starts: how it ends, and the file
    system it leaves (the tools write their own [-o] files).  [elapsed n] is
    the text of [time.time() - start] formatted with [:.2f] for that
    subprocess. *)
Record Host := mkHost {
  which : string -> bool;
  spawn : nat -> string -> option Z -> gmap string node -> outcome * gmap string node;
  elapsed : nat -> string;
  host_exists : string -> bool;
  dir_size : nat
}.

(** What the program has done to its surroundings so far: the file system,
    the lines printed, and the subprocesses started with their timeouts. *)
Record World := mkWorld {
  fs : gmap string node;
  out : list string;
  procs : list (string * option Z)
}.

(** A Python computation returns a value or raises; either way it has
    acted on the world. *)
Inductive result (A : Type) := Ok (a : A) | Raise (e : exn).
Arguments Ok {A} a.
Arguments Raise {A} e.

Definition M (A : Type) : Type := World -> result A * World.

Definition ret {A} (a : A) : M A := fun w => (Ok a, w).

Definition bind {A B} (c : M A) (k : A -> M B) : M B :=
  fun w => match c w with
           | (Ok a, w') => k a w'
           | (Raise e, w') => (Raise e, w')
           end.

Definition raise {A} (e : exn) : M A := fun w => (Raise e, w).

(** [try: c  except ...: handler]; the effects of [c] up to the exception
    stay. *)
Definition try_except {A} (c : M A) (handler : exn -> M A) : M A :=
  fun w => match c w with
           | (Ok a, w') => (Ok a, w')
           | (Raise e, w') => handler e w'
           end.

Notation "'let*' x ':=' c 'in' k" := (bind c (fun x => k))
  (at level 10, x pattern, c at level 100, k at level 200).
Notation "c ';;' k" := (bind c (fun _ => k))
  (at level 100, k at level 200, right associativity).

(** [for x in l: body x] *)
Fixpoint for_each {A} (l : list A) (body : A -> M unit) : M unit :=
  match l with
  | [] => ret tt
  | x :: l' => body x ;; for_each l' body
  end.

Definition print (line : string) : M unit :=
  fun w => (Ok tt, mkWorld (fs w) (out w ++ [line]) (procs w)).

(** *** File system operations *)

Definition set_fs (f : gmap string node) (w : World) : World :=
  mkWorld f (out w) (procs w).

(** [os.path.exists(p)] *)
Definition path_exists (p : string) : M bool :=
  fun w => (Ok (bool_decide (is_Some (fs w !! p))), w).

(** [open(p, 'r')] followed by reading the file. *)
Definition open_read (p : string) : M string :=
  fun w => match fs w !! p with
           | Some (File c) => (Ok c, w)
           | Some Dir => (Raise (PyError ("[Errno 21] Is a directory: '" +:+ p +:+ "'")), w)
           | None => (Raise (PyError ("[Errno 2] No such file or directory: '" +:+ p +:+ "'")), w)
           end.

(** [open(p, 'w')]: creates or truncates the file; its directory must
    exist. *)
Definition open_write (p : string) : M unit :=
  fun w => match fs w !! p with
           | Some Dir => (Raise (PyError ("[Errno 21] Is a directory: '" +:+ p +:+ "'")), w)
           | _ =>
               match fs w !! Text.dirname p with
               | Some Dir => (Ok tt, set_fs (<[p := File EmptyString]> (fs w)) w)
               | Some (File _) => (Raise (PyError ("[Errno 20] Not a directory: '" +:+ p +:+ "'")), w)
               | None => (Raise (PyError ("[Errno 2] No such file or directory: '" +:+ p +:+ "'")), w)
               end
           end.

(** [f.write(s)] on the handle [open_write p] gave. *)
Definition write (p s : string) : M unit :=
  fun w => match fs w !! p with
           | Some (File c) => (Ok tt, set_fs (<[p := File (c +:+ s)]> (fs w)) w)
           | _ => (Ok tt, w)
           end.

(** The proper ancestors of a path, outermost first: the text before each of
    its separators. *)
Fixpoint ancestors_from (pre : string) (p : string) : list string :=
  match p with
  | EmptyString => []
  | String c r =>
      if Ascii.eqb c "/"
      then match pre with
           | EmptyString => ancestors_from (Text.snoc pre c) r
           | _ => pre :: ancestors_from (Text.snoc pre c) r
           end
      else ancestors_from (Text.snoc pre c) r
  end.

Definition ancestors (p : string) : list string := ancestors_from EmptyString p.

(** One level of [mkdir] that accepts an existing directory. *)
Definition mkdir_exist_ok (p : string) : M unit :=
  fun w => match fs w !! p with
           | Some Dir => (Ok tt, w)
           | Some (File _) => (Raise (PyError ("[Errno 17] File exists: '" +:+ p +:+ "'")), w)
           | None => (Ok tt, set_fs (<[p := Dir]> (fs w)) w)
           end.

(** [os.makedirs(p, exist_ok=True)], [Path(p).mkdir(parents=True, exist_ok=True)] *)
Definition makedirs (p : string) : M unit :=
  for_each (ancestors p ++ [p]) mkdir_exist_ok.

(** [Path(d).glob('*.txt')]: the entries directly in [d] whose name ends in
    [.txt], in the order the directory scan yields them. *)
Definition glob_match (d p : string) : bool :=
  match Text.rsplit_slash p with
  | (Some d', b) => (String.eqb d' d && Text.endswith b ".txt")%bool
  | (None, _) => false
  end.

Definition glob_txt (d : string) : M (list string) :=
  fun w => (Ok (filter (fun p => glob_match d p = true) (map fst (map_to_list (fs w)))), w).

Section Program.

Variable h : Host.

(** [os.path.getsize(p)] *)
Definition getsize (p : string) : M nat :=
  fun w => match fs w !! p with
           | Some (File c) => (Ok (String.length c), w)
           | Some Dir => (Ok (dir_size h), w)
           | None => (Raise (PyError ("[Errno 2] No such file or directory: '" +:+ p +:+ "'")), w)
           end.

(** [subprocess.run(cmd, shell=True, capture_output=True, text=True,
    timeout=timeout)] *)
Definition subprocess_run (cmd : string) (timeout : option Z) : M Completed :=
  fun w =>
    let '(o, f) := spawn h (length (procs w)) cmd timeout (fs w) in
    let w' := mkWorld f (out w) (procs w ++ [(cmd, timeout)]) in
    match o with
    | Exited c => (Ok c, w')
    | TimedOut => (Raise TimeoutExpired, w')
    | Faulted msg => (Raise (PyError msg), w')
    end.

(** The formatted seconds since the subprocess that was started last. *)
Definition elapsed_text : M string :=
  fun w => (Ok (elapsed h (length (procs w) - 1)%nat), w).

(** ** The modules *)

Inductive Kind :=
  | SubdomainModule | PortsModule | HttpProbeModule | JsDiscoveryModule
  | DirBruteforceModule | ParamDiscoveryModule | ScreenshotModule.

#[global] Instance Kind_eq_dec : EqDecision Kind.
Proof. solve_decision. Defined.

(** A module instance: its class, and the fields [BaseModule.__init__] sets.
    [config] is the dictionary main builds; Python's [True] and [False] are
    the integers 1 and 0. *)
Record Module := mkModule {
  kind : Kind;
  target : string;
  output_dir : string;
  config : gmap string Z
}.

Definition name (k : Kind) : string :=
  match k with
  | SubdomainModule => "subdomain"
  | PortsModule => "ports"
  | HttpProbeModule => "http_probe"
  | JsDiscoveryModule => "js_discovery"
  | DirBruteforceModule => "dir_bruteforce"
  | ParamDiscoveryModule => "param_discovery"
  | ScreenshotModule => "screenshot"
  end.

Definition output_file (k : Kind) : string :=
  match k with
  | SubdomainModule => "subs.txt"
  | PortsModule => "ports.txt"
  | HttpProbeModule => "httpx.txt"
  | JsDiscoveryModule => "endpoints.txt"
  | DirBruteforceModule => "dirs.txt"
  | ParamDiscoveryModule => "params.txt"
  | ScreenshotModule => "screenshots/"
  end.

(** [str(d / f)] for a directory [d] as pathlib writes it and a relative
    name [f]; pathlib drops a trailing separator of [f]. *)
Definition trim_sep (f : string) : string :=
  if Text.endswith f "/" then String.substring 0 (String.length f - 1) f else f.

Definition joinpath (d f : string) : string := d +:+ "/" +:+ trim_sep f.

(** The truth value of [config.get(key)]. *)
Definition config_flag (cfg : gmap string Z) (key : string) : bool :=
  match cfg !! key with
  | Some z => negb (Z.eqb z 0)
  | None => false
  end.

(** [config.get('timeout', 300)] *)
Definition config_timeout (cfg : gmap string Z) : Z := default 300 (cfg !! "timeout").

(** [BaseModule.__init__] *)
Definition new_module (k : Kind) (tgt odir : string) (cfg : gmap string Z) : M Module :=
  makedirs odir ;;
  ret (mkModule k tgt odir cfg).

(** [BaseModule.check_tool] *)
Definition check_tool (tool : string) : M bool :=
  if which h tool then ret true
  else
    print ("[ERROR] " +:+ tool +:+ " not found. Please install it and add to PATH.") ;;
    ret false.

(** [BaseModule.run_cmd] *)
Definition run_cmd (self : Module) (cmd outfile_path : string) : M bool :=
  try_except
    (let* result := subprocess_run cmd (Some (config_timeout (config self))) in
     if negb (Z.eqb (returncode result) 0) then
       print ("[ERROR] in " +:+ name (kind self) +:+ ": " +:+ Text.strip (stderr result)) ;;
       ret false
     else
       open_write outfile_path ;;
       write outfile_path (stdout result) ;;
       let* secs := elapsed_text in
       print ("[SUCCESS] Completed " +:+ name (kind self) +:+ " in " +:+ secs
              +:+ "s. Output: " +:+ outfile_path) ;;
       ret true)
    (fun e =>
       match e with
       | TimeoutExpired =>
           print ("[ERROR] Timeout in " +:+ name (kind self)) ;;
           ret false
       | PyError msg =>
           print ("[ERROR] Failure in " +:+ name (kind self) +:+ ": " +:+ msg) ;;
           ret false
       end).

(** [SubdomainModule.execute] *)
Definition execute_subdomain (self : Module) : M bool :=
  let* ok := check_tool "subfinder" in
  if negb ok then
    print "[ERROR] Install subfinder via: go install github.com/projectdiscovery/subfinder/v2/cmd/subfinder@latest" ;;
    ret false
  else
    let outfile := joinpath (output_dir self) (output_file (kind self)) in
    let cmd := "subfinder -d " +:+ target self +:+ " -silent -o " +:+ outfile in
    let cmd := if config_flag (config self) "deep" then cmd +:+ " -all" else cmd in
    run_cmd self cmd outfile.

(** The port range [PortsModule.execute] scans. *)
Definition port_range (cfg : gmap string Z) : string :=
  if config_flag cfg "fast" then "1-1000" else "1-65535".

Definition ports_cmd (self : Module) (outfile : string) : string :=
  "naabu -host " +:+ target self +:+ " -p " +:+ port_range (config self)
  +:+ " -silent -o " +:+ outfile.

(** [PortsModule.execute] *)
Definition execute_ports (self : Module) : M bool :=
  let* ok := check_tool "naabu" in
  if negb ok then
    print "[ERROR] Install naabu via: go install github.com/projectdiscovery/naabu/v2/cmd/naabu@latest" ;;
    ret false
  else
    let outfile := joinpath (output_dir self) (output_file (kind self)) in
    run_cmd self (ports_cmd self outfile) outfile.

(** The text the tech extraction writes for one line of [httpx.txt]. *)
Definition tech_of_line (line : string) : string :=
  match Text.split line with
  | _ :: tech :: _ => tech +:+ Text.nl
  | _ => EmptyString
  end.

(** The post-processing pass of [HttpProbeModule.execute]: both files are
    opened first, then every line is handled. *)
Definition tech_extraction (outfile tech_file : string) : M unit :=
  let* text := open_read outfile in
  open_write tech_file ;;
  for_each (Text.lines text) (fun line => write tech_file (tech_of_line line)).

(** [HttpProbeModule.execute] *)
Definition execute_http_probe (self : Module) : M bool :=
  let* ok := check_tool "httpx" in
  if negb ok then
    print "[ERROR] Install httpx via: go install github.com/projectdiscovery/httpx/cmd/httpx@latest" ;;
    ret false
  else
    let outfile := joinpath (output_dir self) (output_file (kind self)) in
    let subs_file := joinpath (output_dir self) "subs.txt" in
    let* present := path_exists subs_file in
    if negb present then
      print "[INFO] Skipping HTTP probe: subs.txt not found" ;;
      ret false
    else
      let cmd := "httpx -l " +:+ subs_file +:+ " -silent -o " +:+ outfile +:+ " -tech-detect" in
      let* done := run_cmd self cmd outfile in
      if negb done then ret false
      else
        let tech_file := joinpath (output_dir self) "tech.txt" in
        try_except
          (tech_extraction outfile tech_file ;;
           print ("[SUCCESS] Tech detection saved to " +:+ tech_file) ;;
           ret true)
          (fun e =>
             print ("[ERROR] Tech extraction failed: " +:+ str_exn e) ;;
             ret false).

(** The loop of [JsDiscoveryModule.execute] that fetches every URL and
    collects what the regular expression finds; an exception while fetching
    is swallowed.  The fetch has no timeout argument. *)
Fixpoint fetch_endpoints (urls : list string) (endpoints : list string) : M (list string) :=
  match urls with
  | [] => ret endpoints
  | url :: rest =>
      let* endpoints' :=
        try_except
          (let* response := subprocess_run ("curl -s " +:+ url) None in
           ret (endpoints ++ Text.findall (stdout response)))
          (fun _ => ret endpoints) in
      fetch_endpoints rest endpoints'
  end.

(** The URLs [JsDiscoveryModule.execute] keeps from the text of [httpx.txt]. *)
Definition js_urls (text : string) : list string :=
  map Text.strip
    (filter (fun line => Text.endswith (Text.strip line) ".js" = true) (Text.lines text)).

(** [JsDiscoveryModule.execute] *)
Definition execute_js_discovery (self : Module) : M bool :=
  let* ok := check_tool "curl" in
  if negb ok then
    print "[ERROR] curl not found. Install curl for Windows or use native requests." ;;
    ret false
  else
    let outfile := joinpath (output_dir self) (output_file (kind self)) in
    let httpx_file := joinpath (output_dir self) "httpx.txt" in
    let* present := path_exists httpx_file in
    if negb present then
      print "[INFO] Skipping JS discovery: httpx.txt not found" ;;
      ret false
    else
      let* text := open_read httpx_file in
      let* endpoints := fetch_endpoints (js_urls text) [] in
      open_write outfile ;;
      write outfile (Text.join Text.nl (elements (list_to_set endpoints : gset string))) ;;
      print ("[SUCCESS] Found " +:+ pretty (length endpoints) +:+ " potential endpoints") ;;
      ret (negb (bool_decide (endpoints = []))).

Definition wordlist : string := "C:\Users\aayus\Downloads\common.txt".

(** [DirBruteforceModule.execute]; the word list lies outside the output
    directory, so the host answers whether it exists. *)
Definition execute_dir_bruteforce (self : Module) : M bool :=
  let* ok := check_tool "ffuf" in
  if negb ok then
    print "[ERROR] Install ffuf via: go install github.com/ffuf/ffuf/v2@latest" ;;
    ret false
  else
    let outfile := joinpath (output_dir self) (output_file (kind self)) in
    if negb (host_exists h wordlist) then
      print ("[ERROR] Wordlist not found at " +:+ wordlist
             +:+ ". Download one and update the path.") ;;
      ret false
    else
      let cmd := "ffuf -u https://" +:+ target self +:+ "/FUZZ -w " +:+ wordlist
                 +:+ " -mc 200,301 -o " +:+ outfile +:+ " -of csv" in
      run_cmd self cmd outfile.

(** [ParamDiscoveryModule.execute] *)
Definition execute_param_discovery (self : Module) : M bool :=
  let* ok := check_tool "arjun" in
  if negb ok then
    print "[ERROR] Install arjun via: pip install arjun" ;;
    ret false
  else
    let outfile := joinpath (output_dir self) (output_file (kind self)) in
    let cmd := "arjun -u https://" +:+ target self +:+ " --stable -oT " +:+ outfile in
    run_cmd self cmd outfile.

(** [ScreenshotModule.execute] *)
Definition execute_screenshot (self : Module) : M bool :=
  let* ok := check_tool "gowitness" in
  if negb ok then
    print "[ERROR] Install gowitness via: go install github.com/sensepost/gowitness@latest" ;;
    ret false
  else
    let out_dir := joinpath (output_dir self) (output_file (kind self)) in
    makedirs out_dir ;;
    let httpx_file := joinpath (output_dir self) "httpx.txt" in
    let* present := path_exists httpx_file in
    if negb present then
      print "[INFO] Skipping screenshots: httpx.txt not found" ;;
      ret false
    else
      let cmd := "gowitness file -f " +:+ httpx_file +:+ " -P " +:+ out_dir +:+ " --headless" in
      run_cmd self cmd (out_dir +:+ "/report.html").

(** [module.execute()], dispatched on the class of the instance. *)
Definition execute (self : Module) : M bool :=
  match kind self with
  | SubdomainModule => execute_subdomain self
  | PortsModule => execute_ports self
  | HttpProbeModule => execute_http_probe self
  | JsDiscoveryModule => execute_js_discovery self
  | DirBruteforceModule => execute_dir_bruteforce self
  | ParamDiscoveryModule => execute_param_discovery self
  | ScreenshotModule => execute_screenshot self
  end.

(** ** The report *)

(** The values [--report] accepts. *)
Inductive ReportFormat := md | json | csv.

Definition format_str (f : ReportFormat) : string :=
  match f with md => "md" | json => "json" | csv => "csv" end.

Definition report_path (odir : string) (f : ReportFormat) : string :=
  joinpath odir ("report." +:+ format_str f).

Definition empty_marker : string := "Empty - Module Failed or Skipped" +:+ Text.nl +:+ Text.nl.

(** The body of the loop of [generate_report] for one file. *)
Definition report_section (report_file file : string) : M unit :=
  write report_file ("## " +:+ Text.stem (Text.basename file) +:+ Text.nl) ;;
  let* size := getsize file in
  if Nat.eqb size 0 then write report_file empty_marker
  else
    let* content := open_read file in
    write report_file (content +:+ Text.nl +:+ Text.nl).

(** [generate_report] *)
Definition generate_report (odir : string) (f : ReportFormat) : M unit :=
  let report_file := report_path odir f in
  open_write report_file ;;
  write report_file ("# AutoScope Report" +:+ Text.nl +:+ Text.nl) ;;
  let* files := glob_txt odir in
  for_each files (report_section report_file) ;;
  print ("[INFO] Report generated: " +:+ report_file).

(** ** The pipeline *)

(** The parsed command line. *)
Record Args := mkArgs {
  arg_target : string;
  arg_fast : bool;
  arg_deep : bool;
  arg_resume : bool;
  arg_only_subdomains : bool;
  arg_no_dirs : bool;
  arg_no_screenshots : bool;
  arg_report : ReportFormat;
  arg_output : string
}.

(** The dictionary main passes to every module. *)
Definition make_config (args : Args) : gmap string Z :=
  <["fast" := Z.b2z (arg_fast args)]>
    (<["deep" := Z.b2z (arg_deep args)]>
       (<["timeout" := if arg_fast args then 60 else 300]> ∅)).

Definition all_kinds : list Kind :=
  [SubdomainModule; PortsModule; HttpProbeModule; JsDiscoveryModule;
   DirBruteforceModule; ParamDiscoveryModule; ScreenshotModule].

(** The three list comprehensions that drop modules. *)
Definition select {A} (kind_of : A -> Kind) (args : Args) (modules : list A) : list A :=
  let modules :=
    if arg_only_subdomains args
    then filter (fun m => kind_of m = SubdomainModule) modules else modules in
  let modules :=
    if arg_no_dirs args
    then filter (fun m => kind_of m <> DirBruteforceModule) modules else modules in
  if arg_no_screenshots args
  then filter (fun m => kind_of m <> ScreenshotModule) modules else modules.

(** Building a list of instances, one constructor call after the other. *)
Fixpoint construct (kinds : list Kind) (tgt odir : string) (cfg : gmap string Z)
  : M (list Module) :=
  match kinds with
  | [] => ret []
  | k :: rest =>
      let* m := new_module k tgt odir cfg in
      let* ms := construct rest tgt odir cfg in
      ret (m :: ms)
  end.

Definition notice (m : Module) : string :=
  "[INFO] Executing module: " +:+ name (kind m).

Definition banner : string := "[SUCCESS] AutoScope scan completed!".

(** The loop of main over the selected modules; the value [execute] returns
    is dropped. *)
Definition run_modules (modules : list Module) : M unit :=
  for_each modules (fun module => print (notice module) ;; let* _ := execute module in ret tt).

(** [main], from the parsed arguments on. *)
Definition main (args : Args) : M unit :=
  if (arg_fast args && arg_deep args)%bool then
    print "[ERROR] Cannot use --fast and --deep together"
  else
    let cfg := make_config args in
    let odir := joinpath (arg_output args) (Text.replace "." "_" (arg_target args)) in
    let* modules := construct all_kinds (arg_target args) odir cfg in
    let modules := select kind args modules in
    run_modules modules ;;
    generate_report odir (arg_report args) ;;
    print banner.

End Program.

(** ** Notions the statements use *)

(** The file of an earlier module that a module requires, by the hard-coded
    names in the three [execute] methods that test for one. *)
Definition upstream (k : Kind) : option string :=
  match k with
  | HttpProbeModule => Some "subs.txt"
  | JsDiscoveryModule | ScreenshotModule => Some "httpx.txt"
  | _ => None
  end.

(** [w'] has the entries of [w] and possibly more directories, all at
    paths of [l]; nothing was printed and no subprocess was started in
    between. *)
Definition grows (l : list string) (w w' : World) : Prop :=
  procs w' = procs w /\ out w' = out w /\
  forall p, fs w' !! p = fs w !! p
            \/ (p ∈ l /\ fs w !! p = None /\ fs w' !! p = Some Dir).

(** A relation [R] between the world before and after holds across the
    computation [c], however it ends. *)
Definition keeps (R : World -> World -> Prop) {A} (c : M A) : Prop :=
  forall w r w', c w = (r, w') -> R w w'.

(** The paths [makedirs p] visits: the ancestors of [p], then [p]. *)
Definition chain (p : string) : list string := ancestors p ++ [p].

(** A file system in which the pipeline meets no structural fault below
    [odir]: no regular file stands where the screenshots directory or one of
    its ancestors has to be, and no directory carries the name of a text
    output or of the report. *)
Definition ready (odir : string) (f : ReportFormat) (fsys : gmap string node) : Prop :=
  Forall (fun q => forall c, fsys !! q <> Some (File c)) (chain (joinpath odir "screenshots/"))
  /\ forall p, fsys !! p = Some Dir -> glob_match odir p = false /\ p <> report_path odir f.

(** The same once the output directory exists. *)
Definition tidy (odir : string) (f : ReportFormat) (fsys : gmap string node) : Prop :=
  fsys !! odir = Some Dir /\ ready odir f fsys.

(** A host whose tools keep the file system tidy. *)
Definition tidy_host (h : Host) (odir : string) (f : ReportFormat) : Prop :=
  forall n cmd t fsys, tidy odir f fsys -> tidy odir f (spawn h n cmd t fsys).2.

Definition stays_tidy (odir : string) (f : ReportFormat) (w w' : World) : Prop :=
  tidy odir f (fs w) -> tidy odir f (fs w').

(** Between [w] and [w'] subprocesses were started, each either with the
    timeout [t] or as a [curl] fetch without any. *)
Definition started_within (t : Z) (w w' : World) : Prop :=
  exists l,
    procs w' = procs w ++ l
    /\ Forall (fun p => p.2 = Some t
                       \/ (p.2 = None /\ Text.startswith p.1 "curl -s " = true)) l.

(** A start notice of the pipeline. *)
Definition is_notice (line : string) : bool :=
  Text.startswith line "[INFO] Executing module: ".

(** Between [w] and [w'] lines were printed, none of them a start notice. *)
Definition quiet (w w' : World) : Prop :=
  exists lines, out w' = out w ++ lines /\ Forall (fun s => is_notice s = false) lines.


(** What the report has to hold for one file, in the words of the
    specification: a header with the file's stem, then the marker for a file
    of size zero, the content otherwise. *)
Definition section_text (file content : string) : string :=
  "## " +:+ Text.stem (Text.basename file) +:+ Text.nl
  +:+ (if Nat.eqb (String.length content) 0 then empty_marker
       else content +:+ Text.nl +:+ Text.nl).

Definition section_of (f : gmap string node) (file : string) : string :=
  match f !! file with
  | Some (File content) => section_text file content
  | _ => EmptyString
  end.

Definition report_text (f : gmap string node) (files : list string) : string :=
  ("# AutoScope Report" +:+ Text.nl +:+ Text.nl)
  +:+ foldr String.append EmptyString (map (section_of f) files).

(** Every character of [s] satisfies [p]. *)
Fixpoint all_chars (p : ascii -> bool) (s : string) : bool :=
  match s with
  | EmptyString => true
  | String c r => (p c && all_chars p r)%bool
  end.

(** The characters the regular expression of JavaScript discovery can
    match. *)
Definition is_endpoint_char (c : ascii) : bool :=
  (Text.is_pathch c || Ascii.eqb c "?" || Ascii.eqb c "=")%bool.

Definition not_newline (c : ascii) : bool := negb (Ascii.eqb c "010").

(** A line without the newline that ends it. *)
Fixpoint chomp (line : string) : string :=
  match line with
  | EmptyString => EmptyString
  | String c r =>
      match r with
      | EmptyString => if Ascii.eqb c "010" then EmptyString else line
      | _ => String c (chomp r)
      end
  end.

(** The lines a reader of the file gets, without their newlines. *)
Definition file_lines (text : string) : list string := map chomp (Text.lines text).

(** The bodies the fetches of JavaScript discovery bring back, in the words
    of the specification: one [curl] per URL, in order, the [n]-th subprocess
    first; a fetch that raises brings nothing. *)
Fixpoint fetched_bodies (h : Host) (n : nat) (fsys : gmap string node) (urls : list string)
  : list string :=
  match urls with
  | [] => []
  | url :: rest =>
      let '(o, fsys') := spawn h n ("curl -s " +:+ url) None fsys in
      match o with
      | Exited c => stdout c :: fetched_bodies h (S n) fsys' rest
      | _ => fetched_bodies h (S n) fsys' rest
      end
  end.

(** The endpoint substrings extracted across all fetched URLs: the matches
    of the regular expression in the bodies fetched for the URLs of
    [httpx.txt]; none when curl is missing or [httpx.txt] cannot be read. *)
Definition extracted (h : Host) (self : Module) (w : World) : list string :=
  if which h "curl" then
    match fs w !! joinpath (output_dir self) "httpx.txt" with
    | Some (File text) =>
        concat (map Text.findall
                  (fetched_bodies h (length (procs w)) (fs w) (js_urls text)))
    | _ => []
    end
  else [].

(** ** Further notions *)

(** The tool each [execute] asks [check_tool] for. *)
Definition tool_of (k : Kind) : string :=
  match k with
  | SubdomainModule => "subfinder"
  | PortsModule => "naabu"
  | HttpProbeModule => "httpx"
  | JsDiscoveryModule => "curl"
  | DirBruteforceModule => "ffuf"
  | ParamDiscoveryModule => "arjun"
  | ScreenshotModule => "gowitness"
  end.

(** The second whitespace-separated field of a line, when it has one. *)
Definition second_field (line : string) : option string :=
  match Text.split line with
  | _ :: field :: _ => Some field
  | _ => None
  end.

(** The second fields of the lines of a text that have one, in order. *)
Definition second_fields (text : string) : list string :=
  omap second_field (Text.lines text).

Definition not_space (c : ascii) : bool := negb (Text.isspace c).

(** Between [w] and [w'] no subprocess was started, nothing was printed,
    and the file system changed at most at the path [q]. *)
Definition only_at (q : string) (w w' : World) : Prop :=
  procs w' = procs w /\ out w' = out w /\ forall p, p <> q -> fs w' !! p = fs w !! p.

(** Every entry of [f] is still there in [f'], a directory as a directory
    and a regular file as a regular file. *)
Definition entries_kept (f f' : gmap string node) : Prop :=
  forall p,
    (f !! p = Some Dir -> f' !! p = Some Dir)
    /\ (forall c, f !! p = Some (File c) -> exists c', f' !! p = Some (File c')).

(** The path [p] lies below the directory [d]. *)
Definition under (d p : string) : bool := Text.startswith p (d +:+ "/").

(** [f'] differs from [f] at most below [d] and at [d] and its ancestors. *)
Definition touched_within (d : string) (f f' : gmap string node) : Prop :=
  forall p, f' !! p = f !! p \/ p ∈ chain d \/ under d p = true.

(** A relation between file systems, read between two worlds. *)
Definition on_fs (P : gmap string node -> gmap string node -> Prop) (w w' : World) : Prop :=
  P (fs w) (fs w').

(** ** The pipeline and the report in the words of the specification *)

(** A single component of a path: not empty, without a separator, and not
    the name of the current directory.  With such an output base and such a
    target, pathlib's join of the two is the concatenation [joinpath]
    writes. *)
Definition plain_name (s : string) : bool :=
  (negb (String.eqb s EmptyString) && negb (Text.has_slash s)
   && negb (String.eqb s "."))%bool.


(** The line that ends a run. *)
Definition is_banner (line : string) : bool :=
  String.eqb line "[SUCCESS] AutoScope scan completed!".

(** Between [w] and [w'] lines were printed, none of them a start notice
    and none the line that ends a run. *)
Definition modest (w w' : World) : Prop :=
  exists lines,
    out w' = out w ++ lines
    /\ Forall (fun s => is_notice s = false /\ is_banner s = false) lines.

(** The path of the file [s.txt] directly in the directory [d], and the
    path of the report. *)
Definition txt_path (d s : string) : string := d +:+ "/" +:+ s +:+ ".txt".

Definition report_name (f : ReportFormat) : string :=
  match f with md => "report.md" | json => "report.json" | csv => "report.csv" end.

(** The section of the report for the file [s.txt] with the content [c]:
    a header with the stem of the name, which for the name [.txt] is the
    whole name, then the marker for an empty file and the content
    otherwise. *)
Definition section_words (entry : string * string) : string :=
  "## " +:+ match entry.1 with EmptyString => ".txt" | s => s end +:+ Text.nl
  +:+ match entry.2 with
      | EmptyString => "Empty - Module Failed or Skipped" +:+ Text.nl +:+ Text.nl
      | c => c +:+ Text.nl +:+ Text.nl
      end.

(** The report for the files [entries], each given by the stem of its name
    and its content. *)
Definition report_words (entries : list (string * string)) : string :=
  "# AutoScope Report" +:+ Text.nl +:+ Text.nl
  +:+ foldr String.append EmptyString (map section_words entries).

(** ** Concrete hosts and worlds *)

Module Scenario.

(** A host with every tool installed, on which every subprocess exits with
    status [rc] and prints [text]; the tools write no files themselves. *)
Definition host (rc : Z) (text : string) : Host :=
  mkHost (fun _ => true)
         (fun _ _ _ f => (Exited (mkCompleted rc text "  failed  "), f))
         (fun _ => "0.01") (fun _ => true) 4096.

(** A host with no tool installed. *)
Definition bare_host : Host :=
  mkHost (fun _ => false)
         (fun _ _ _ f => (Exited (mkCompleted 127 "" "not found"), f))
         (fun _ => "0.00") (fun _ => false) 4096.

Definition odir : string := "output/example_com".

Definition instance (k : Kind) : Module :=
  mkModule k "example.com" odir (<["timeout" := 300]> ∅).

(** The output directory exists and is empty. *)
Definition fresh : World :=
  mkWorld (<["output" := Dir]> (<[odir := Dir]> ∅)) [] [].

(** [subs.txt] is there, and a directory stands where [tech.txt] goes. *)
Definition tech_blocked : World :=
  mkWorld (<[joinpath odir "subs.txt" := File "a.example.com"]>
             (<[joinpath odir "tech.txt" := Dir]> (fs fresh))) [] [].

(** [httpx.txt] lists one script. *)
Definition one_script : World :=
  mkWorld (<[joinpath odir "httpx.txt" := File ("http://a/app.js" +:+ Text.nl)]> (fs fresh))
          [] [].

(** [subs.txt] has one line, [ports.txt] is empty. *)
Definition two_outputs : World :=
  mkWorld (<[joinpath odir "subs.txt" := File ("a.example.com" +:+ Text.nl)]>
             (<[joinpath odir "ports.txt" := File EmptyString]> (fs fresh))) [] [].

(** [-t example.com] and nothing else; with [--fast --deep]. *)
Definition plain_args : Args :=
  mkArgs "example.com" false false false false false false md "output".

Definition both_profiles : Args :=
  mkArgs "example.com" true true false false false false md "output".

(** The body of a script that names the same endpoint twice. *)
Definition script : string := "fetch('/api?id='+x); get('/v2/items?page='+n); /api?id=1".

End Scenario.

(** ** Further hosts and worlds *)

Module Cases.

(** Hosts with every tool installed on which each subprocess exceeds its
    timeout, or cannot be started. *)
Definition slow_host : Host :=
  mkHost (fun _ => true) (fun _ _ _ f => (TimedOut, f))
         (fun _ => "0.00") (fun _ => true) 4096.

Definition broken_host : Host :=
  mkHost (fun _ => true) (fun _ _ _ f => (Faulted "[Errno 12] Cannot allocate memory", f))
         (fun _ => "0.00") (fun _ => true) 4096.

(** Every tool is installed, the word list is not there. *)
Definition no_wordlist_host : Host :=
  mkHost (fun _ => true)
         (fun _ _ _ f => (Exited (mkCompleted 0 "/admin" EmptyString), f))
         (fun _ => "0.01") (fun _ => false) 4096.

(** A module built without a configuration. *)
Definition unconfigured : Module :=
  mkModule PortsModule "example.com" Scenario.odir ∅.

(** What httpx printed: a line with a technology and a line without. *)
Definition probed : string :=
  "http://a.example.com [nginx]" +:+ Text.nl +:+ "http://b.example.com" +:+ Text.nl.

(** [subs.txt] is there. *)
Definition with_subs : World :=
  mkWorld (<[joinpath Scenario.odir "subs.txt" := File ("a.example.com" +:+ Text.nl)]>
             (fs Scenario.fresh)) [] [].

(** [httpx.txt] is there and lists no script. *)
Definition no_script : World :=
  mkWorld (<[joinpath Scenario.odir "httpx.txt" := File probed]> (fs Scenario.fresh)) [] [].

(** A directory stands where [httpx.txt] is looked for. *)
Definition httpx_is_directory : World :=
  mkWorld (<[joinpath Scenario.odir "httpx.txt" := Dir]> (fs Scenario.fresh)) [] [].

(** The output directory holds a directory named [old.txt]. *)
Definition txt_directory : World :=
  mkWorld (<[joinpath Scenario.odir "old.txt" := Dir]> (fs Scenario.fresh)) [] [].

(** [-t example.com --deep --only-subdomains --no-dirs] *)
Definition only_subdomains : Args :=
  mkArgs "example.com" false true false true true false md "output".

(** Two outputs and a directory named [old.txt] beside them. *)
Definition mixed_outputs : World :=
  mkWorld (<[joinpath Scenario.odir "old.txt" := Dir]> (fs Scenario.two_outputs)) [] [].


End Cases.

(** * Properties *)

(** ** The text helpers on sample inputs *)

Example strip_sample : Text.strip (" a b " +:+ Text.nl) = "a b".
Proof. reflexivity. Qed.

Example split_sample :
  Text.split ("  http://a  [nginx] x" +:+ Text.nl) = ["http://a"; "[nginx]"; "x"].
Proof. reflexivity. Qed.

Example lines_sample :
  Text.lines ("a" +:+ Text.nl +:+ Text.nl +:+ "b") = ["a" +:+ Text.nl; Text.nl; "b"].
Proof. reflexivity. Qed.

Example findall_sample :
  Text.findall "x=1; fetch('/api/v1/user?id='+i); a?b?c=; ?q=; /p?=;"
  = ["/api/v1/user?id="; "b?c="].
Proof. reflexivity. Qed.

Example stem_sample :
  map Text.stem ["subs.txt"; "a.b.txt"; ".txt"; "a..txt"] = ["subs"; "a.b"; ".txt"; "a."].
Proof. reflexivity. Qed.

Example joinpath_sample :
  map (joinpath "output/example_com") ["subs.txt"; "screenshots/"]
  = ["output/example_com/subs.txt"; "output/example_com/screenshots"].
Proof. reflexivity. Qed.

Example js_urls_sample :
  js_urls ("http://a/x.js [nginx]" +:+ Text.nl +:+ " http://a/app.js " +:+ Text.nl)
  = ["http://a/app.js"].
Proof. reflexivity. Qed.

Example tech_of_line_sample :
  map tech_of_line ["http://a [nginx] [200]" +:+ Text.nl; "http://b" +:+ Text.nl; Text.nl]
  = ["[nginx]" +:+ Text.nl; ""; ""].
Proof. reflexivity. Qed.

(** The fuel [findall] takes is enough: more changes nothing. *)
Lemma span_length p s : forall a b,
  Text.span p s = (a, b) -> (String.length b <= String.length s)%nat.
Proof.
  induction s as [|c s IH]; simpl; intros a b.
  - intros [= <- <-]. simpl. lia.
  - destruct (p c).
    + destruct (Text.span p s) as [a' b'] eqn:E. intros [= <- <-].
      specialize (IH a' b' eq_refl). lia.
    + intros [= <- <-]. simpl. lia.
Qed.

Lemma match_here_length s m rest :
  Text.match_here s = Some (m, rest) -> (String.length rest < String.length s)%nat.
Proof.
  unfold Text.match_here.
  destruct (Text.span Text.is_pathch s) as [a r1] eqn:E1.
  destruct a as [|x a]; [done|]. destruct r1 as [|q r2]; [done|].
  destruct (Ascii.eqb_spec q "?") as [->|Hq].
  2:{ destruct q as [[] [] [] [] [] [] [] []]; try done. }
  destruct (Text.span Text.is_word r2) as [k r3] eqn:E2.
  destruct k as [|y k]; [done|]. destruct r3 as [|e r4]; [done|].
  destruct (Ascii.eqb_spec e "=") as [->|He].
  2:{ destruct e as [[] [] [] [] [] [] [] []]; try done. }
  intros [= <- <-].
  apply span_length in E1. apply span_length in E2. simpl in *. lia.
Qed.

Lemma findall_fuel_enough n : forall s,
  (String.length s <= n)%nat -> Text.findall_fuel n s = Text.findall s.
Proof.
  unfold Text.findall.
  induction n as [n IH] using lt_wf_ind. intros s Hn.
  destruct s as [|c s]; [by destruct n|].
  destruct n as [|n]; [simpl in Hn; lia|].
  cbn [Text.findall_fuel String.length]. simpl in Hn.
  destruct (Text.match_here (String c s)) as [[m rest]|] eqn:E.
  - apply match_here_length in E. simpl in E. f_equal.
    rewrite (IH n) by lia. rewrite (IH (String.length s)) by lia. done.
  - rewrite (IH n) by lia. done.
Qed.

(** ** Paths *)

Lemma rsplit_slash_no_slash b :
  Text.has_slash b = false -> Text.rsplit_slash b = (None, b).
Proof.
  induction b as [|c b IH]; simpl; [done|].
  destruct (Ascii.eqb c "/"); simpl; [done|].
  intros Hb. by rewrite (IH Hb).
Qed.

Lemma rsplit_slash_join d b :
  Text.has_slash b = false -> Text.rsplit_slash (d +:+ String "/" b) = (Some d, b).
Proof.
  intros Hb. induction d as [|c d IH]; simpl.
  - by rewrite (rsplit_slash_no_slash b Hb).
  - by rewrite IH.
Qed.

Lemma rsplit_slash_joinpath d f :
  Text.has_slash (trim_sep f) = false ->
  Text.rsplit_slash (joinpath d f) = (Some d, trim_sep f).
Proof. intros Hf. by apply rsplit_slash_join. Qed.

Lemma dirname_joinpath d f :
  Text.has_slash (trim_sep f) = false -> Text.dirname (joinpath d f) = d.
Proof. intros Hf. unfold Text.dirname. by rewrite rsplit_slash_joinpath. Qed.

Lemma append_inj_l (d a b : string) : d +:+ a = d +:+ b -> a = b.
Proof. induction d as [|c d IH]; simpl; [done|]. intros [= H]. auto. Qed.

Lemma append_ne_l (d a b : string) : a <> b -> d +:+ a <> d +:+ b.
Proof. intros Hne Heq. by apply Hne, (append_inj_l d). Qed.

Lemma append_length (a b : string) :
  String.length (a +:+ b) = (String.length a + String.length b)%nat.
Proof. induction a as [|c a IH]; simpl; [done|]. by rewrite IH. Qed.

Lemma append_ne_self (d : string) c b : d +:+ String c b <> d.
Proof.
  intros Heq. apply (f_equal String.length) in Heq.
  rewrite append_length in Heq. simpl in Heq. lia.
Qed.

(** The report's name is no match of [*.txt], whatever the format. *)
Lemma report_not_globbed odir f : glob_match odir (report_path odir f) = false.
Proof.
  unfold glob_match, report_path.
  destruct f; rewrite rsplit_slash_joinpath by reflexivity;
    destruct (String.eqb odir odir); reflexivity.
Qed.

Lemma glob_txt_spec d w files w' :
  glob_txt d w = (Ok files, w') ->
  w' = w /\ NoDup files /\
  (forall p, p ∈ files <-> is_Some (fs w !! p) /\ glob_match d p = true).
Proof.
  unfold glob_txt. intros [= <- <-]. split; [done|]. split.
  - apply NoDup_filter, NoDup_fst_map_to_list.
  - intros p. rewrite list_elem_of_filter, list_elem_of_fmap. split.
    + intros [Hm [[k v] [-> Hin]]]. apply elem_of_map_to_list in Hin. eauto.
    + intros [[v Hv] Hm]. split; [done|]. exists (p, v). split; [done|].
      by apply elem_of_map_to_list.
Qed.

(** ** Configuration *)

Lemma make_config_fast args : config_flag (make_config args) "fast" = arg_fast args.
Proof.
  unfold config_flag, make_config. rewrite lookup_insert_eq.
  by destruct (arg_fast args).
Qed.

Lemma make_config_deep args : config_flag (make_config args) "deep" = arg_deep args.
Proof.
  unfold config_flag, make_config.
  rewrite lookup_insert_ne by done. rewrite lookup_insert_eq.
  by destruct (arg_deep args).
Qed.

Lemma make_config_timeout args :
  config_timeout (make_config args) = if arg_fast args then 60 else 300.
Proof.
  unfold config_timeout, make_config.
  do 2 (rewrite lookup_insert_ne by done). by rewrite lookup_insert_eq.
Qed.

(** ** [run_cmd] *)

Ltac unfold_monad :=
  unfold try_except, bind, ret, raise, print, path_exists, open_read, open_write,
    write, getsize, subprocess_run, elapsed_text, set_fs in *; simpl in *.

(** [run_cmd] starts exactly one subprocess, with the configured timeout. *)
Lemma run_cmd_procs h self cmd p w :
  procs (snd (run_cmd h self cmd p w))
  = procs w ++ [(cmd, Some (config_timeout (config self)))].
Proof.
  unfold run_cmd. unfold_monad.
  destruct (spawn h _ _ _ _) as [[c| |msg] f]; simpl; try done.
  destruct (negb _); simpl; [done|].
  destruct (f !! p) as [[?|]|]; simpl; try done;
    destruct (f !! Text.dirname p) as [[?|]|]; simpl; try done;
    rewrite lookup_insert_eq; done.
Qed.

(** [run_cmd] converts every failure into [False]: it never raises. *)
Lemma run_cmd_returns h self cmd p w : exists b, fst (run_cmd h self cmd p w) = Ok b.
Proof.
  unfold run_cmd. unfold_monad.
  destruct (spawn h _ _ _ _) as [[c| |msg] f]; simpl; eauto.
  destruct (negb _); simpl; eauto.
  destruct (f !! p) as [[?|]|]; simpl; eauto;
    destruct (f !! Text.dirname p) as [[?|]|]; simpl; eauto;
    rewrite lookup_insert_eq; eauto.
Qed.

(** C2. When the subprocess of [run_cmd] exits with a non-zero status,
    [run_cmd] returns [False], prints one error line made of the module's
    name and the stripped standard error, and writes nothing: the file
    system is the one the subprocess left, so the destination file is not
    written by [run_cmd]. *)
Theorem C2_run_cmd_nonzero_exit h self cmd outfile_path w c f :
  spawn h (length (procs w)) cmd (Some (config_timeout (config self))) (fs w)
    = (Exited c, f) ->
  returncode c <> 0 ->
  run_cmd h self cmd outfile_path w
  = (Ok false,
     mkWorld f
       (out w ++ ["[ERROR] in " +:+ name (kind self) +:+ ": " +:+ Text.strip (stderr c)])
       (procs w ++ [(cmd, Some (config_timeout (config self)))])).
Proof.
  intros Hspawn Hrc. unfold run_cmd. unfold_monad. rewrite Hspawn. simpl.
  apply Z.eqb_neq in Hrc. by rewrite Hrc.
Qed.

(** The other side of C2: on a zero exit the captured output is written. *)
Lemma run_cmd_zero_exit h self cmd p w c f :
  spawn h (length (procs w)) cmd (Some (config_timeout (config self))) (fs w)
    = (Exited c, f) ->
  returncode c = 0 ->
  f !! p <> Some Dir -> f !! Text.dirname p = Some Dir ->
  exists w', run_cmd h self cmd p w = (Ok true, w')
             /\ fs w' = <[p := File (stdout c)]> f.
Proof.
  intros Hspawn Hrc Hp Hd. unfold run_cmd. unfold_monad. rewrite Hspawn. simpl.
  rewrite Hrc. simpl.
  destruct (f !! p) as [[?|]|] eqn:E; try done; rewrite Hd; simpl;
    rewrite lookup_insert_eq; simpl; eexists; (split; [reflexivity|]); simpl;
    by rewrite insert_insert_eq.
Qed.

(** In all, [run_cmd] leaves the file system as the subprocess left it,
    except on a zero exit, where it may add the destination file. *)
Lemma run_cmd_writes_only_on_zero_exit h self cmd p w o f :
  spawn h (length (procs w)) cmd (Some (config_timeout (config self))) (fs w) = (o, f) ->
  fs (run_cmd h self cmd p w).2 = f
  \/ exists c, o = Exited c /\ returncode c = 0
               /\ fs (run_cmd h self cmd p w).2 = <[p := File (stdout c)]> f.
Proof.
  intros Hspawn. unfold run_cmd. unfold_monad. rewrite Hspawn.
  destruct o as [c| |msg]; simpl; [|by left..].
  destruct (Z.eqb_spec (returncode c) 0) as [Hrc|Hrc]; simpl; [|by left].
  destruct (f !! p) as [[?|]|] eqn:Ep; simpl; [|by left|];
    (destruct (f !! Text.dirname p) as [[?|]|]; simpl; [by left| |by left]);
    rewrite lookup_insert_eq; simpl; right; exists c; rewrite insert_insert_eq; done.
Qed.

(** ** The profile *)

(** C6. With the configuration main builds, the port scan selects the range
    1-1000 and the timeout 60 under the fast profile, and the range 1-65535
    and the timeout 300 otherwise; when naabu is installed, the one
    subprocess the port scan starts carries that range and that timeout. *)
Theorem C6_fast_profile h args tgt odir w :
  let cfg := make_config args in
  let self := mkModule PortsModule tgt odir cfg in
  port_range cfg = (if arg_fast args then "1-1000" else "1-65535")
  /\ config_timeout cfg = (if arg_fast args then 60 else 300)
  /\ (which h "naabu" = true ->
      procs (snd (execute_ports h self w))
      = procs w ++
        [("naabu -host " +:+ tgt +:+ " -p "
          +:+ (if arg_fast args then "1-1000" else "1-65535")
          +:+ " -silent -o " +:+ joinpath odir "ports.txt",
          Some (if arg_fast args then 60 else 300))]).
Proof.
  intros cfg self. split; [|split].
  - unfold port_range, cfg. by rewrite make_config_fast.
  - apply make_config_timeout.
  - intros Hw. unfold execute_ports, check_tool. rewrite Hw.
    unfold bind at 1. unfold ret at 1. cbn [negb].
    rewrite run_cmd_procs. unfold ports_cmd, port_range. simpl.
    unfold cfg. by rewrite make_config_fast, make_config_timeout.
Qed.

(** ** The pipeline *)

(** C5. With both [--fast] and [--deep], main prints its error and returns:
    no directory is made, no module runs, no subprocess starts and no report
    is written. *)
Theorem C5_fast_and_deep_abort h args w :
  arg_fast args = true -> arg_deep args = true ->
  main h args w
  = (Ok tt, mkWorld (fs w) (out w ++ ["[ERROR] Cannot use --fast and --deep together"])
              (procs w)).
Proof. intros Hf Hd. unfold main. rewrite Hf, Hd. reflexivity. Qed.

(** C10. For each of the three report formats, the report's path is no
    match of the pattern [*.txt] that collects the sections, so the list of
    files [generate_report] embeds, scanned after the report file was
    created, never contains the report itself. *)
Theorem C10_report_not_a_section odir f :
  glob_match odir (report_path odir f) = false
  /\ forall w files w',
       glob_txt odir w = (Ok files, w') -> report_path odir f ∉ files.
Proof.
  split; [apply report_not_globbed|].
  intros w files w' Hg Hin.
  apply glob_txt_spec in Hg as (_ & _ & Hspec).
  apply Hspec in Hin as [_ Hm]. by rewrite report_not_globbed in Hm.
Qed.

(** ** Creating directories *)

Lemma grows_refl l w : grows l w w.
Proof. repeat split; auto. Qed.

Lemma grows_trans l w1 w2 w3 : grows l w1 w2 -> grows l w2 w3 -> grows l w1 w3.
Proof.
  intros (Hp1 & Ho1 & Hf1) (Hp2 & Ho2 & Hf2). repeat split; try congruence.
  intros p. destruct (Hf1 p) as [E1|(Hin & E1 & E1')], (Hf2 p) as [E2|(Hin' & E2 & E2')];
    [left|right|right|]; repeat split; congruence.
Qed.

Lemma grows_weaken l l' w w' : l ⊆ l' -> grows l w w' -> grows l' w w'.
Proof.
  intros Hsub (Hp & Ho & Hf). repeat split; try done.
  intros p. destruct (Hf p) as [E|(Hin & E1 & E2)]; [by left|right]. auto.
Qed.

Lemma mkdir_exist_ok_grows p w r w' :
  mkdir_exist_ok p w = (r, w') ->
  grows [p] w w' /\
  ((forall c, fs w !! p <> Some (File c)) -> r = Ok tt /\ fs w' !! p = Some Dir).
Proof.
  unfold mkdir_exist_ok. destruct (fs w !! p) as [[c|]|] eqn:E; intros [= <- <-].
  - split; [apply grows_refl|]. intros H. by destruct (H c).
  - split; [apply grows_refl|]. done.
  - split.
    + repeat split; simpl; try done. intros q.
      destruct (decide (p = q)) as [->|Hne].
      * right. rewrite lookup_insert_eq. repeat split; [|done]. apply list_elem_of_singleton. done.
      * left. by rewrite lookup_insert_ne.
    + intros _. simpl. by rewrite lookup_insert_eq.
Qed.

Lemma for_each_mkdir_grows l : forall w r w',
  for_each l mkdir_exist_ok w = (r, w') ->
  grows l w w' /\
  (Forall (fun q => forall c, fs w !! q <> Some (File c)) l ->
   r = Ok tt /\ Forall (fun q => fs w' !! q = Some Dir) l).
Proof.
  induction l as [|q l IH]; simpl; intros w r w'.
  - unfold ret. intros [= <- <-]. split; [apply grows_refl|]. intros _. by split.
  - unfold bind. destruct (mkdir_exist_ok q w) as [[[]|e] w1] eqn:E1.
    + apply mkdir_exist_ok_grows in E1 as [G1 T1]. intros E2.
      apply IH in E2 as [G2 T2]. split.
      { eapply grows_trans; (eapply grows_weaken; [|eassumption]); intros x Hx.
        - apply list_elem_of_singleton in Hx as ->. by left.
        - by right. }
      intros HF. apply Forall_cons in HF as [Hq Hl].
      destruct (T1 Hq) as [_ Hd].
      assert (Forall (fun q0 => forall c, fs w1 !! q0 <> Some (File c)) l) as Hl1.
      { eapply Forall_impl; [exact Hl|]. simpl. intros x Hx c.
        destruct G1 as (_ & _ & Hf). destruct (Hf x) as [->|(_ & _ & ->)]; [apply Hx|done]. }
      destruct (T2 Hl1) as [-> HD]. split; [done|]. constructor; [|done].
      destruct G2 as (_ & _ & Hf). destruct (Hf q) as [->|(_ & ? & _)]; congruence.
    + intros [= <- <-]. apply mkdir_exist_ok_grows in E1 as [G1 T1]. split.
      { eapply grows_weaken; [|eassumption]. intros x Hx.
        apply list_elem_of_singleton in Hx as ->. by left. }
      intros HF. apply Forall_cons in HF as [Hq _]. by destruct (T1 Hq).
Qed.

Lemma makedirs_grows p w r w' :
  makedirs p w = (r, w') ->
  grows (ancestors p ++ [p]) w w' /\
  (Forall (fun q => forall c, fs w !! q <> Some (File c)) (ancestors p ++ [p]) ->
   r = Ok tt /\ fs w' !! p = Some Dir).
Proof.
  unfold makedirs. intros E. apply for_each_mkdir_grows in E as [G T].
  split; [done|]. intros HF. destruct (T HF) as [-> HD]. split; [done|].
  apply Forall_app in HD as [_ HD]. by apply Forall_cons in HD as [HD _].
Qed.

Lemma append_cons x (a b : string) : String x a +:+ b = String x (a +:+ b).
Proof. reflexivity. Qed.

Lemma append_assoc (a b c : string) : (a +:+ b) +:+ c = a +:+ b +:+ c.
Proof. induction a as [|x a IH]; [done|]. by rewrite !append_cons, IH. Qed.

Lemma append_empty_r (a : string) : a +:+ EmptyString = a.
Proof. induction a as [|x a IH]; [done|]. by rewrite append_cons, IH. Qed.

Lemma snoc_append pre c p : Text.snoc pre c +:+ p = pre +:+ String c p.
Proof. unfold Text.snoc. by rewrite append_assoc. Qed.

(** Every directory [makedirs p] may create is a prefix of [p]. *)
Lemma ancestors_from_prefix p : forall pre q,
  q ∈ ancestors_from pre p -> exists s, pre +:+ p = q +:+ s.
Proof.
  induction p as [|c p IH]; simpl; intros pre q Hq; [by apply elem_of_nil in Hq|].
  assert (forall q, q ∈ ancestors_from (Text.snoc pre c) p ->
                    exists s, pre +:+ String c p = q +:+ s) as Hrec.
  { intros q' Hq'. apply IH in Hq' as [s Hs]. exists s.
    by rewrite <- Hs, snoc_append. }
  destruct (Ascii.eqb c "/"); [|by apply Hrec].
  destruct pre as [|a pre]; [by apply Hrec|].
  apply elem_of_cons in Hq as [->|Hq]; [|by apply Hrec]. by eexists.
Qed.

Lemma makedirs_chain_prefix p q :
  q ∈ ancestors p ++ [p] -> exists s, p = q +:+ s.
Proof.
  intros Hq. apply elem_of_app in Hq as [Hq|Hq].
  - apply ancestors_from_prefix in Hq as [s Hs]. by exists s.
  - apply list_elem_of_singleton in Hq as ->. exists EmptyString.
    by rewrite append_empty_r.
Qed.

(** [makedirs] on the screenshots directory leaves [httpx.txt] alone. *)
Lemma makedirs_screenshots_httpx d w r w' :
  makedirs (joinpath d "screenshots/") w = (r, w') ->
  fs w' !! joinpath d "httpx.txt" = fs w !! joinpath d "httpx.txt".
Proof.
  intros E. apply makedirs_grows in E as [(_ & _ & Hf) _].
  destruct (Hf (joinpath d "httpx.txt")) as [->|(Hin & _)]; [done|].
  apply makedirs_chain_prefix in Hin as [s Hs].
  unfold joinpath in Hs. rewrite append_assoc in Hs.
  apply append_inj_l in Hs. discriminate Hs.
Qed.

(** ** Modules that wait for an upstream file *)

Lemma path_exists_None p w : fs w !! p = None -> path_exists p w = (Ok false, w).
Proof. unfold path_exists. by intros ->. Qed.

Lemma path_exists_Some p w : is_Some (fs w !! p) -> path_exists p w = (Ok true, w).
Proof. unfold path_exists. intros H. by rewrite bool_decide_eq_true_2. Qed.

Lemma http_probe_missing_upstream h self w :
  fs w !! joinpath (output_dir self) "subs.txt" = None ->
  exists w', execute_http_probe h self w = (Ok false, w')
             /\ fs w' = fs w /\ procs w' = procs w.
Proof.
  intros Hnone. unfold execute_http_probe, check_tool.
  destruct (which h "httpx"); unfold bind at 1.
  - unfold ret at 1. cbn [negb]. unfold bind at 1.
    rewrite (path_exists_None _ _ Hnone). cbn [negb]. by eexists.
  - unfold bind at 1. by eexists.
Qed.

Lemma js_discovery_missing_upstream h self w :
  fs w !! joinpath (output_dir self) "httpx.txt" = None ->
  exists w', execute_js_discovery h self w = (Ok false, w')
             /\ fs w' = fs w /\ procs w' = procs w.
Proof.
  intros Hnone. unfold execute_js_discovery, check_tool.
  destruct (which h "curl"); unfold bind at 1.
  - unfold ret at 1. cbn [negb]. unfold bind at 1.
    rewrite (path_exists_None _ _ Hnone). cbn [negb]. by eexists.
  - unfold bind at 1. by eexists.
Qed.

Lemma screenshot_missing_upstream h self w r w' :
  kind self = ScreenshotModule ->
  fs w !! joinpath (output_dir self) "httpx.txt" = None ->
  execute_screenshot h self w = (r, w') ->
  procs w' = procs w
  /\ (forall p, fs w' !! p = fs w !! p
                \/ (p ∈ ancestors (joinpath (output_dir self) "screenshots/")
                         ++ [joinpath (output_dir self) "screenshots/"]
                    /\ fs w !! p = None /\ fs w' !! p = Some Dir))
  /\ (Forall (fun q => forall c, fs w !! q <> Some (File c))
        (ancestors (joinpath (output_dir self) "screenshots/")
         ++ [joinpath (output_dir self) "screenshots/"]) ->
      r = Ok false).
Proof.
  intros Hk Hnone. unfold execute_screenshot, check_tool. rewrite Hk.
  cbn [output_file].
  destruct (which h "gowitness"); unfold bind at 1.
  - unfold ret at 1. cbn [negb]. unfold bind at 1.
    destruct (makedirs _ w) as [[[]|e] w1] eqn:Em.
    + pose proof (makedirs_screenshots_httpx _ _ _ _ Em) as Hh.
      apply makedirs_grows in Em as [(Hp & Ho & Hf) _].
      unfold bind at 1. rewrite path_exists_None by congruence. cbn [negb].
      intros [= <- <-]. simpl. auto.
    + intros [= <- <-]. apply makedirs_grows in Em as [(Hp & Ho & Hf) T].
      repeat split; [done..|]. intros HF. by destruct (T HF).
  - unfold bind at 1. intros [= <- <-]. simpl. auto.
Qed.

(** C1, as far as it holds.  When the upstream file of a module is missing,
    [execute] starts no subprocess and leaves every regular file as it was.
    HTTP probing and JavaScript discovery return [False] and leave the whole
    file system unchanged; the screenshot module adds at most directories,
    namely its screenshots directory and missing ancestors of it, and returns
    [False] unless a regular file stands where one of them has to be made. *)
Theorem C1_missing_upstream h self w f r w' :
  upstream (kind self) = Some f ->
  fs w !! joinpath (output_dir self) f = None ->
  execute h self w = (r, w') ->
  procs w' = procs w
  /\ (forall p c, fs w' !! p = Some (File c) <-> fs w !! p = Some (File c))
  /\ (kind self <> ScreenshotModule -> r = Ok false /\ fs w' = fs w)
  /\ (kind self = ScreenshotModule ->
      (forall p, fs w' !! p = fs w !! p
                 \/ (p ∈ ancestors (joinpath (output_dir self) "screenshots/")
                          ++ [joinpath (output_dir self) "screenshots/"]
                     /\ fs w !! p = None /\ fs w' !! p = Some Dir))
      /\ (Forall (fun q => forall c, fs w !! q <> Some (File c))
            (ancestors (joinpath (output_dir self) "screenshots/")
             ++ [joinpath (output_dir self) "screenshots/"]) ->
          r = Ok false)).
Proof.
  intros Hup Hnone Hex. unfold execute in Hex.
  destruct (kind self) eqn:Hk; simpl in Hup; try discriminate;
    injection Hup as <-.
  - destruct (http_probe_missing_upstream h self w Hnone) as (w1 & E & Hf & Hp).
    rewrite E in Hex. injection Hex as <- <-. rewrite Hf.
    repeat split; try done.
  - destruct (js_discovery_missing_upstream h self w Hnone) as (w1 & E & Hf & Hp).
    rewrite E in Hex. injection Hex as <- <-. rewrite Hf.
    repeat split; try done.
  - destruct (screenshot_missing_upstream h self w r w' Hk Hnone Hex) as (Hp & Hf & Hr).
    split; [done|]. split; [|split; [done|by intros _]].
    intros p c. destruct (Hf p) as [->|(_ & E1 & E2)]; [done|]. rewrite E1, E2. split; done.
Qed.


(** C1 fails as stated for the screenshot module: with gowitness installed
    and no [httpx.txt], [execute] returns [False] but has made the
    screenshots directory before it looked for the upstream file. *)
Lemma C1_counterexample :
  ~ (forall h self w f,
       upstream (kind self) = Some f ->
       fs w !! joinpath (output_dir self) f = None ->
       exists w', execute h self w = (Ok false, w') /\ fs w' = fs w).
Proof.
  intros H.
  destruct (H (Scenario.host 0 "") (Scenario.instance ScreenshotModule) Scenario.fresh
              "httpx.txt" eq_refl eq_refl) as (w' & E & Hfs).
  vm_compute in E. injection E as <-. simpl in Hfs.
  apply (f_equal (fun m => m !! joinpath Scenario.odir "screenshots/")) in Hfs.
  vm_compute in Hfs. discriminate Hfs.
Qed.

Lemma C1_witness :
  (upstream HttpProbeModule = Some "subs.txt"
   /\ fs Scenario.fresh !! joinpath Scenario.odir "subs.txt" = None)
  /\ (execute (Scenario.host 0 "") (Scenario.instance HttpProbeModule) Scenario.fresh).1
     = Ok false
  /\ fs (execute (Scenario.host 0 "") (Scenario.instance HttpProbeModule) Scenario.fresh).2
     = fs Scenario.fresh
  /\ procs (execute (Scenario.host 0 "") (Scenario.instance HttpProbeModule)
              Scenario.fresh).2
     = procs Scenario.fresh.
Proof.
  split; [split; reflexivity|].
  destruct (C1_missing_upstream (Scenario.host 0 "") (Scenario.instance HttpProbeModule)
              Scenario.fresh "subs.txt"
              (execute (Scenario.host 0 "") (Scenario.instance HttpProbeModule)
                 Scenario.fresh).1
              (execute (Scenario.host 0 "") (Scenario.instance HttpProbeModule)
                 Scenario.fresh).2
              eq_refl eq_refl eq_refl)
    as (Hp & _ & Hr & _).
  destruct (Hr ltac:(discriminate)) as [Hr1 Hr2].
  repeat split; assumption.
Defined.

(** ** JavaScript endpoint discovery: the fetches *)

(** The loop over the URLs never raises; it starts one [curl] per URL, each
    without a timeout, prints nothing and only extends the list. *)
Lemma fetch_endpoints_spec h urls : forall acc w,
  exists found w',
    fetch_endpoints h urls acc w = (Ok (acc ++ found), w')
    /\ procs w' = procs w ++ map (fun u => ("curl -s " +:+ u, None)) urls
    /\ out w' = out w.
Proof.
  induction urls as [|u urls IH]; intros acc w; simpl.
  - exists [], w. unfold ret. by rewrite !app_nil_r.
  - unfold bind at 1. unfold try_except, bind at 1, subprocess_run.
    destruct (spawn h _ _ _ _) as [[c| |msg] f]; simpl.
    + destruct (IH (acc ++ Text.findall (stdout c))
                  (mkWorld f (out w) (procs w ++ [("curl -s " +:+ u, None)])))
        as (found & w' & E & Hp & Ho).
      exists (Text.findall (stdout c) ++ found), w'. rewrite E. simpl in *.
      rewrite Hp, <- !app_assoc. done.
    + destruct (IH acc (mkWorld f (out w) (procs w ++ [("curl -s " +:+ u, None)])))
        as (found & w' & E & Hp & Ho).
      exists found, w'. rewrite E. simpl in *. rewrite Hp, <- !app_assoc. done.
    + destruct (IH acc (mkWorld f (out w) (procs w ++ [("curl -s " +:+ u, None)])))
        as (found & w' & E & Hp & Ho).
      exists found, w'. rewrite E. simpl in *. rewrite Hp, <- !app_assoc. done.
Qed.

(** The loop collects the matches in the fetched bodies, body after body. *)
Lemma fetch_endpoints_bodies h urls : forall acc w,
  exists w',
    fetch_endpoints h urls acc w
    = (Ok (acc ++ concat (map Text.findall
                            (fetched_bodies h (length (procs w)) (fs w) urls))), w').
Proof.
  induction urls as [|u urls IH]; intros acc w; simpl.
  - exists w. unfold ret. by rewrite app_nil_r.
  - unfold bind at 1. unfold try_except, bind at 1, subprocess_run.
    destruct (spawn h _ _ _ _) as [[c| |msg] fsys]; simpl.
    + destruct (IH (acc ++ Text.findall (stdout c))
                  (mkWorld fsys (out w) (procs w ++ [("curl -s " +:+ u, None)])))
        as (w' & E).
      exists w'. rewrite E. simpl. rewrite length_app, Nat.add_1_r, <- app_assoc. done.
    + destruct (IH acc (mkWorld fsys (out w) (procs w ++ [("curl -s " +:+ u, None)])))
        as (w' & E).
      exists w'. rewrite E. simpl. rewrite length_app, Nat.add_1_r. done.
    + destruct (IH acc (mkWorld fsys (out w) (procs w ++ [("curl -s " +:+ u, None)])))
        as (w' & E).
      exists w'. rewrite E. simpl. rewrite length_app, Nat.add_1_r. done.
Qed.

(** With curl installed and [httpx.txt] readable, the subprocesses of
    JavaScript discovery are its fetches: none carries a timeout. *)
Lemma js_discovery_procs h self w text :
  which h "curl" = true ->
  fs w !! joinpath (output_dir self) "httpx.txt" = Some (File text) ->
  procs (execute_js_discovery h self w).2
  = procs w ++ map (fun u => ("curl -s " +:+ u, None)) (js_urls text).
Proof.
  intros Hw Hx. unfold execute_js_discovery, check_tool. rewrite Hw.
  unfold bind at 1. unfold ret at 1. cbn [negb]. unfold bind at 1.
  rewrite path_exists_Some by (rewrite Hx; eauto). cbn [negb].
  unfold bind at 1. unfold open_read. rewrite Hx.
  unfold bind at 1.
  destruct (fetch_endpoints_spec h (js_urls text) [] w) as (found & w1 & E & Hp & Ho).
  rewrite E. unfold_monad.
  destruct (fs w1 !! _) as [[?|]|]; simpl; try done;
    destruct (fs w1 !! Text.dirname _) as [[?|]|]; simpl; try done;
    rewrite lookup_insert_eq; done.
Qed.

(** C3 fails on the code.  Every subprocess started through [run_cmd]
    carries the configured timeout ([run_cmd_procs], [main_started]), but
    JavaScript discovery calls [subprocess.run] itself and passes none: here
    it fetches the one script of [httpx.txt] with no bound on its running
    time. *)
Theorem C3_curl_without_timeout :
  procs (execute (Scenario.host 0 "") (Scenario.instance JsDiscoveryModule)
           Scenario.one_script).2
  = [("curl -s http://a/app.js", None)].
Proof. vm_compute. reflexivity. Qed.

(** ** HTTP probing: the post-processing pass *)

(** C9. When httpx is installed, [subs.txt] exists and [run_cmd] succeeds,
    an exception in the tech extraction makes [execute] return [False]: the
    module fails as a whole, after one more error line. *)
Theorem C9_tech_extraction_failure h self w w1 e w2 :
  let outfile := joinpath (output_dir self) (output_file (kind self)) in
  let subs_file := joinpath (output_dir self) "subs.txt" in
  let tech_file := joinpath (output_dir self) "tech.txt" in
  let cmd := "httpx -l " +:+ subs_file +:+ " -silent -o " +:+ outfile +:+ " -tech-detect" in
  which h "httpx" = true ->
  is_Some (fs w !! subs_file) ->
  run_cmd h self cmd outfile w = (Ok true, w1) ->
  tech_extraction outfile tech_file w1 = (Raise e, w2) ->
  execute_http_probe h self w
  = (Ok false,
     mkWorld (fs w2) (out w2 ++ ["[ERROR] Tech extraction failed: " +:+ str_exn e])
       (procs w2)).
Proof.
  intros outfile subs_file tech_file cmd Hw Hs Hrun Htech.
  subst outfile subs_file tech_file cmd.
  unfold execute_http_probe, check_tool. rewrite Hw.
  unfold bind at 1. unfold ret at 1. cbn [negb]. unfold bind at 1.
  rewrite (path_exists_Some _ _ Hs). cbn [negb].
  unfold bind at 1. rewrite Hrun. cbn [negb].
  unfold try_except. unfold bind at 1. rewrite Htech. reflexivity.
Qed.

Lemma C9_witness :
  execute_http_probe (Scenario.host 0 "http://a [nginx]")
    (Scenario.instance HttpProbeModule) Scenario.tech_blocked
  = (Ok false,
     mkWorld
       (<[joinpath Scenario.odir "httpx.txt" := File "http://a [nginx]"]>
          (fs Scenario.tech_blocked))
       ["[SUCCESS] Completed http_probe in 0.01s. Output: output/example_com/httpx.txt";
        "[ERROR] Tech extraction failed: [Errno 21] Is a directory: 'output/example_com/tech.txt'"]
       [("httpx -l output/example_com/subs.txt -silent -o output/example_com/httpx.txt -tech-detect",
         Some 300)]).
Proof.
  rewrite (C9_tech_extraction_failure (Scenario.host 0 "http://a [nginx]")
             (Scenario.instance HttpProbeModule) Scenario.tech_blocked
             (mkWorld
                (<[joinpath Scenario.odir "httpx.txt" := File "http://a [nginx]"]>
                   (fs Scenario.tech_blocked))
                ["[SUCCESS] Completed http_probe in 0.01s. Output: output/example_com/httpx.txt"]
                [("httpx -l output/example_com/subs.txt -silent -o output/example_com/httpx.txt -tech-detect",
                  Some 300)])
             (PyError "[Errno 21] Is a directory: 'output/example_com/tech.txt'")
             (mkWorld
                (<[joinpath Scenario.odir "httpx.txt" := File "http://a [nginx]"]>
                   (fs Scenario.tech_blocked))
                ["[SUCCESS] Completed http_probe in 0.01s. Output: output/example_com/httpx.txt"]
                [("httpx -l output/example_com/subs.txt -silent -o output/example_com/httpx.txt -tech-detect",
                  Some 300)])).
  - reflexivity.
  - reflexivity.
  - vm_compute. eauto.
  - vm_compute. reflexivity.
  - vm_compute. reflexivity.
Defined.

(** ** The report *)

Lemma open_write_ok p w :
  fs w !! p <> Some Dir -> fs w !! Text.dirname p = Some Dir ->
  open_write p w = (Ok tt, set_fs (<[p := File EmptyString]> (fs w)) w).
Proof.
  intros Hp Hd. unfold open_write. rewrite Hd.
  by destruct (fs w !! p) as [[?|]|].
Qed.

Lemma report_section_spec h report file f acc c o ps :
  file <> report -> f !! file = Some (File c) ->
  report_section h report file (mkWorld (<[report := File acc]> f) o ps)
  = (Ok tt, mkWorld (<[report := File (acc +:+ section_text file c)]> f) o ps).
Proof.
  intros Hne Hf. unfold report_section, section_text. unfold_monad.
  rewrite lookup_insert_eq. simpl. rewrite insert_insert_eq.
  rewrite lookup_insert_ne by done.
  rewrite Hf. simpl. destruct (Nat.eqb (String.length c) 0); simpl.
  - rewrite lookup_insert_eq. simpl. rewrite !insert_insert_eq.
    by rewrite !append_assoc.
  - rewrite lookup_insert_ne by done. rewrite Hf. simpl.
    rewrite lookup_insert_eq. simpl. rewrite !insert_insert_eq.
    by rewrite !append_assoc.
Qed.

Lemma report_loop_spec h report f o ps files : forall acc,
  Forall (fun file => file <> report /\ exists c, f !! file = Some (File c)) files ->
  for_each files (report_section h report) (mkWorld (<[report := File acc]> f) o ps)
  = (Ok tt,
     mkWorld (<[report := File (acc +:+ foldr String.append EmptyString
                                          (map (section_of f) files))]> f) o ps).
Proof.
  induction files as [|file files IH]; intros acc HF; simpl.
  - unfold ret. by rewrite append_empty_r.
  - apply Forall_cons in HF as [[Hne [c Hc]] HF].
    unfold bind. rewrite (report_section_spec h report file f acc c o ps Hne Hc).
    rewrite (IH _ HF). unfold section_of at 2. rewrite Hc. by rewrite append_assoc.
Qed.

(** What [generate_report] writes when it meets no directory where it
    expects a file. *)
Lemma generate_report_spec h odir f w :
  fs w !! odir = Some Dir ->
  fs w !! report_path odir f <> Some Dir ->
  (forall p, glob_match odir p = true -> fs w !! p <> Some Dir) ->
  exists files,
    NoDup files
    /\ (forall p, p ∈ files <-> glob_match odir p = true /\ exists c, fs w !! p = Some (File c))
    /\ generate_report h odir f w
       = (Ok tt,
          mkWorld (<[report_path odir f := File (report_text (fs w) files)]> (fs w))
            (out w ++ ["[INFO] Report generated: " +:+ report_path odir f])
            (procs w)).
Proof.
  intros Hd Hr Hfiles.
  pose proof (report_not_globbed odir f) as Hrep.
  assert (forall p, glob_match odir p = true -> p <> report_path odir f) as Hne.
  { intros p Hm Heq. rewrite Heq in Hm. by rewrite Hrep in Hm. }
  unfold generate_report. unfold bind at 1.
  rewrite open_write_ok;
    [|done|unfold report_path; rewrite dirname_joinpath; [done|by destruct f]].
  unfold bind at 1. unfold write, set_fs. simpl.
  rewrite lookup_insert_eq. simpl. rewrite insert_insert_eq.
  unfold bind at 1.
  match goal with |- context [glob_txt odir ?w1] =>
    destruct (glob_txt odir w1) as [r wg] eqn:Eg end.
  assert (exists files, r = Ok files) as [files ->].
  { unfold glob_txt in Eg. injection Eg as <- _. eauto. }
  pose proof (glob_txt_spec _ _ _ _ Eg) as (-> & Hnd & Hspec). simpl in Hspec.
  assert (forall p, p ∈ files <->
                    glob_match odir p = true /\ exists c, fs w !! p = Some (File c)) as Hfiles'.
  { intros p. rewrite Hspec. split.
    - intros [[v Hv] Hm]. split; [done|].
      rewrite lookup_insert_ne in Hv by (intros Heq; by apply (Hne p)).
      destruct v as [c|]; [eauto|]. by destruct (Hfiles p Hm).
    - intros [Hm [c Hc]]. split; [|done].
      rewrite lookup_insert_ne by (intros Heq; by apply (Hne p)). rewrite Hc. eauto. }
  exists files. split; [done|]. split; [done|].
  unfold bind at 1. rewrite report_loop_spec.
  - unfold print, report_text. simpl. by rewrite append_assoc.
  - apply Forall_forall. intros p Hp. apply Hfiles' in Hp as [Hm Hc]. split; [|done].
    by apply Hne.
Qed.

(** ** JavaScript endpoint discovery: the result *)

(** *** What an endpoint is made of *)

Lemma all_chars_append p a b :
  all_chars p (a +:+ b) = (all_chars p a && all_chars p b)%bool.
Proof.
  induction a as [|c a IH]; [done|]. rewrite append_cons. simpl.
  by rewrite IH, andb_assoc.
Qed.

Lemma all_chars_impl (p q : ascii -> bool) s :
  (forall c, p c = true -> q c = true) -> all_chars p s = true -> all_chars q s = true.
Proof.
  intros Hpq. induction s as [|c s IH]; simpl; [done|].
  intros H. apply andb_prop in H as [Hc Hs]. by rewrite (Hpq c Hc), IH.
Qed.

Lemma span_all p s : forall a b, Text.span p s = (a, b) -> all_chars p a = true.
Proof.
  induction s as [|c s IH]; simpl; intros a b.
  - by intros [= <- <-].
  - destruct (p c) eqn:Hc.
    + destruct (Text.span p s) as [a' b'] eqn:E. intros [= <- <-]. simpl.
      by rewrite Hc, (IH a' b').
    + by intros [= <- <-].
Qed.

Lemma match_here_chars s m rest :
  Text.match_here s = Some (m, rest) ->
  m <> EmptyString /\ all_chars is_endpoint_char m = true.
Proof.
  unfold Text.match_here.
  destruct (Text.span Text.is_pathch s) as [a r1] eqn:E1.
  destruct a as [|x a]; [done|]. destruct r1 as [|q r2]; [done|].
  destruct (Ascii.eqb_spec q "?") as [->|Hq].
  2:{ destruct q as [[] [] [] [] [] [] [] []]; try done. }
  destruct (Text.span Text.is_word r2) as [k r3] eqn:E2.
  destruct k as [|y k]; [done|]. destruct r3 as [|e r4]; [done|].
  destruct (Ascii.eqb_spec e "=") as [->|He].
  2:{ destruct e as [[] [] [] [] [] [] [] []]; try done. }
  intros [= <- <-]. split; [done|].
  apply span_all in E1. apply span_all in E2.
  rewrite !all_chars_append.
  rewrite (all_chars_impl Text.is_pathch is_endpoint_char _ ltac:(
             intros c Hc; unfold is_endpoint_char; by rewrite Hc) E1).
  rewrite (all_chars_impl Text.is_word is_endpoint_char _ ltac:(
             intros c Hc; unfold is_endpoint_char, Text.is_pathch; by rewrite Hc) E2).
  reflexivity.
Qed.

Lemma findall_fuel_chars n : forall s,
  Forall (fun e => e <> EmptyString /\ all_chars is_endpoint_char e = true)
         (Text.findall_fuel n s).
Proof.
  induction n as [|n IH]; intros s; simpl; [constructor|].
  destruct s as [|c s]; [constructor|].
  destruct (Text.match_here (String c s)) as [[m rest]|] eqn:E; [|apply IH].
  constructor; [by eapply match_here_chars|apply IH].
Qed.

Lemma endpoint_char_not_newline c : is_endpoint_char c = true -> not_newline c = true.
Proof.
  unfold not_newline. destruct (Ascii.eqb_spec c "010") as [->|]; [|done].
  by vm_compute.
Qed.

(** Whatever the fetch loop collects beyond what it was given is a match of
    the regular expression: not empty, and free of newlines. *)
Lemma fetch_endpoints_chars h urls : forall acc w r w',
  fetch_endpoints h urls acc w = (r, w') ->
  Forall (fun e => e <> EmptyString /\ all_chars not_newline e = true) acc ->
  forall endpoints, r = Ok endpoints ->
  Forall (fun e => e <> EmptyString /\ all_chars not_newline e = true) endpoints.
Proof.
  induction urls as [|u urls IH]; intros acc w r w'; simpl.
  - intros [= <- <-] Hacc endpoints [= <-]. done.
  - unfold bind at 1. unfold try_except, bind at 1, subprocess_run.
    destruct (spawn h _ _ _ _) as [[c| |msg] fsys]; simpl; intros E Hacc;
      (eapply IH; [exact E|]); try done.
    apply Forall_app. split; [done|].
    eapply Forall_impl; [apply findall_fuel_chars|].
    intros e [Hne Hch]. split; [done|].
    by apply (all_chars_impl is_endpoint_char not_newline e endpoint_char_not_newline).
Qed.

(** *** The lines of a joined list *)

Lemma lines_from_append e : forall cur rest,
  all_chars not_newline e = true ->
  Text.lines_from cur (e +:+ rest) = Text.lines_from (cur +:+ e) rest.
Proof.
  induction e as [|c e IH]; intros cur rest He.
  - by rewrite append_empty_r.
  - simpl in He. apply andb_prop in He as [Hc He].
    rewrite append_cons. simpl. unfold not_newline in Hc.
    destruct (Ascii.eqb c "010"); [done|].
    by rewrite (IH _ _ He), snoc_append.
Qed.

Lemma chomp_no_newline e : all_chars not_newline e = true -> chomp e = e.
Proof.
  induction e as [|c e IH]; [done|]. simpl. intros H.
  apply andb_prop in H as [Hc He]. unfold not_newline in Hc.
  destruct e as [|c' e'].
  - by destruct (Ascii.eqb c "010").
  - by rewrite (IH He).
Qed.

Lemma chomp_newline e : all_chars not_newline e = true -> chomp (e +:+ Text.nl) = e.
Proof.
  induction e as [|c e IH]; intros H; [reflexivity|].
  simpl in H. apply andb_prop in H as [Hc He].
  destruct e as [|c' e']; [reflexivity|].
  transitivity (String c (chomp (String c' e' +:+ Text.nl))); [reflexivity|].
  by rewrite (IH He).
Qed.

Lemma file_lines_join l :
  Forall (fun e => e <> EmptyString /\ all_chars not_newline e = true) l ->
  file_lines (Text.join Text.nl l) = l.
Proof.
  unfold file_lines, Text.lines, Text.join.
  induction 1 as [|e l [Hne He] Hl IH]; [done|].
  simpl. destruct l as [|e' l'].
  - rewrite <- (append_empty_r e) at 1. rewrite lines_from_append by done.
    simpl. change (EmptyString +:+ e) with e.
    destruct e as [|c e]; [done|]. cbn [map].
    by rewrite (chomp_no_newline (String c e)).
  - rewrite lines_from_append by done.
    change (Text.nl +:+ String.concat Text.nl (e' :: l'))
      with (String "010" (String.concat Text.nl (e' :: l'))).
    cbn [Text.lines_from]. rewrite Ascii.eqb_refl. cbn [map].
    rewrite IH. f_equal. change (EmptyString +:+ e) with e. unfold Text.snoc.
    change (String "010" EmptyString) with Text.nl.
    by rewrite chomp_newline.
Qed.

(** What [execute_js_discovery] returns and writes, whenever it returns. *)
Lemma js_discovery_result h self w b w' :
  execute_js_discovery h self w = (Ok b, w') ->
  (b = true <-> extracted h self w <> [])
  /\ (which h "curl" = true ->
      is_Some (fs w !! joinpath (output_dir self) "httpx.txt") ->
      exists l,
        fs w' !! joinpath (output_dir self) (output_file (kind self))
          = Some (File (Text.join Text.nl l))
        /\ file_lines (Text.join Text.nl l) = l
        /\ NoDup l
        /\ forall x, x ∈ l <-> x ∈ extracted h self w).
Proof.
  unfold execute_js_discovery, extracted, check_tool.
  destruct (which h "curl"); unfold bind at 1.
  2:{ unfold bind at 1. unfold print, ret. intros [= <- <-]. split; [|done].
      split; [discriminate|done]. }
  unfold ret at 1. cbn [negb]. unfold bind at 1. unfold path_exists at 1.
  destruct (fs w !! joinpath (output_dir self) "httpx.txt") as [[text|]|] eqn:Ex.
  - rewrite bool_decide_eq_true_2 by eauto. cbn [negb].
    unfold bind at 1. unfold open_read. rewrite Ex. unfold bind at 1.
    destruct (fetch_endpoints_bodies h (js_urls text) [] w) as (w1 & E).
    pose proof (fetch_endpoints_chars h _ _ _ _ _ E (Forall_nil_2 _) _ eq_refl) as Hch.
    rewrite E. simpl in Hch. rewrite app_nil_l.
    set (found := concat (map Text.findall
                            (fetched_bodies h (length (procs w)) (fs w) (js_urls text))))
      in *.
    unfold bind at 1.
    destruct (open_write _ w1) as [[[]|e] w2] eqn:Eo; [|discriminate].
    unfold open_write in Eo.
    assert (w2 = set_fs (<[joinpath (output_dir self) (output_file (kind self))
                            := File EmptyString]> (fs w1)) w1) as ->.
    { destruct (fs w1 !! joinpath (output_dir self) (output_file (kind self))) as [[?|]|];
        try discriminate;
        destruct (fs w1 !! Text.dirname
                    (joinpath (output_dir self) (output_file (kind self)))) as [[?|]|];
        congruence. }
    unfold_monad. rewrite lookup_insert_eq. simpl.
    intros [= <- <-]. simpl. split.
    + destruct found; simpl; split; done.
    + intros _ _. exists (elements (list_to_set found : gset string)).
      rewrite lookup_insert_eq. split; [done|]. split; [|split; [apply NoDup_elements|]].
      * apply file_lines_join, Forall_forall. intros x Hx.
        apply elem_of_elements, elem_of_list_to_set in Hx.
        by apply (proj1 (Forall_forall _ _) Hch).
      * intros x. by rewrite elem_of_elements, elem_of_list_to_set.
  - rewrite bool_decide_eq_true_2 by eauto. cbn [negb].
    unfold bind at 1. unfold open_read. rewrite Ex. discriminate.
  - rewrite bool_decide_eq_false_2 by (intros [? ?]; discriminate). cbn [negb].
    unfold bind at 1. unfold print, ret. intros [= <- <-]. split.
    + split; [discriminate|done].
    + intros _ [? ?]. discriminate.
Qed.


(** ** Effects that compose *)

Section Frame.

(** A relation that is reflexive and transitive composes along the monad. *)
Variable R : World -> World -> Prop.
Hypothesis R_refl : forall w, R w w.
Hypothesis R_trans : forall w1 w2 w3, R w1 w2 -> R w2 w3 -> R w1 w3.

Lemma keeps_ret {A} (a : A) : keeps R (ret a).
Proof. intros w r w' [= <- <-]. apply R_refl. Qed.

Lemma keeps_raise {A} (e : exn) : keeps R (@raise A e).
Proof. intros w r w' [= <- <-]. apply R_refl. Qed.

Lemma keeps_bind {A B} (c : M A) (k : A -> M B) :
  keeps R c -> (forall a, keeps R (k a)) -> keeps R (bind c k).
Proof.
  intros Hc Hk w r w'. unfold bind.
  destruct (c w) as [[a|e] w1] eqn:E; intros E2.
  - eapply R_trans; [by eapply Hc|by eapply Hk].
  - injection E2 as <- <-. by eapply Hc.
Qed.

Lemma keeps_try_except {A} (c : M A) (handler : exn -> M A) :
  keeps R c -> (forall e, keeps R (handler e)) -> keeps R (try_except c handler).
Proof.
  intros Hc Hh w r w'. unfold try_except.
  destruct (c w) as [[a|e] w1] eqn:E; intros E2.
  - injection E2 as <- <-. by eapply Hc.
  - eapply R_trans; [by eapply Hc|by eapply Hh].
Qed.

Lemma keeps_for_each {A} (l : list A) (body : A -> M unit) :
  (forall x, keeps R (body x)) -> keeps R (for_each l body).
Proof.
  intros Hb. induction l as [|x l IH]; simpl.
  - apply keeps_ret.
  - apply keeps_bind; [apply Hb|by intros _].
Qed.

End Frame.

(** ** What the modules print *)

Lemma quiet_refl w : quiet w w.
Proof. exists []. by rewrite app_nil_r. Qed.

Lemma quiet_trans w1 w2 w3 : quiet w1 w2 -> quiet w2 w3 -> quiet w1 w3.
Proof.
  intros (l1 & E1 & F1) (l2 & E2 & F2). exists (l1 ++ l2).
  rewrite E2, E1, app_assoc. split; [done|]. by apply Forall_app.
Qed.

(** A computation that prints nothing is quiet. *)
Lemma silent_quiet {A} (c : M A) :
  (forall w, out (c w).2 = out w) -> keeps quiet c.
Proof.
  intros H w r w' E. exists []. rewrite app_nil_r. split; [|done].
  specialize (H w). by rewrite E in H.
Qed.

Lemma print_quiet line : is_notice line = false -> keeps quiet (print line).
Proof. intros H w r w' [= <- <-]. exists [line]. split; [done|]. by constructor. Qed.

Lemma path_exists_quiet p : keeps quiet (path_exists p).
Proof. by apply silent_quiet. Qed.

Lemma open_read_quiet p : keeps quiet (open_read p).
Proof. apply silent_quiet. intros w. unfold open_read. by destruct (fs w !! p) as [[?|]|]. Qed.

Lemma open_write_quiet p : keeps quiet (open_write p).
Proof.
  apply silent_quiet. intros w. unfold open_write.
  destruct (fs w !! p) as [[?|]|]; try done;
    by destruct (fs w !! Text.dirname p) as [[?|]|].
Qed.

Lemma write_quiet p s : keeps quiet (write p s).
Proof. apply silent_quiet. intros w. unfold write. by destruct (fs w !! p) as [[?|]|]. Qed.

Lemma getsize_quiet h p : keeps quiet (getsize h p).
Proof. apply silent_quiet. intros w. unfold getsize. by destruct (fs w !! p) as [[?|]|]. Qed.

Lemma glob_txt_quiet d : keeps quiet (glob_txt d).
Proof. by apply silent_quiet. Qed.

Lemma elapsed_text_quiet h : keeps quiet (elapsed_text h).
Proof. by apply silent_quiet. Qed.

Lemma subprocess_run_quiet h cmd t : keeps quiet (subprocess_run h cmd t).
Proof.
  apply silent_quiet. intros w. unfold subprocess_run.
  by destruct (spawn h _ _ _ _) as [[?| |?] ?].
Qed.

Lemma mkdir_exist_ok_quiet p : keeps quiet (mkdir_exist_ok p).
Proof.
  apply silent_quiet. intros w. unfold mkdir_exist_ok.
  by destruct (fs w !! p) as [[?|]|].
Qed.

Lemma makedirs_quiet p : keeps quiet (makedirs p).
Proof.
  apply keeps_for_each; [apply quiet_refl|apply quiet_trans|].
  intros q. apply mkdir_exist_ok_quiet.
Qed.

Create HintDb quiet.
#[local] Hint Resolve print_quiet path_exists_quiet open_read_quiet open_write_quiet
  write_quiet getsize_quiet glob_txt_quiet elapsed_text_quiet subprocess_run_quiet
  makedirs_quiet mkdir_exist_ok_quiet quiet_refl : quiet.

(** Splits a computation along its binds, handlers, loops and branches and
    closes the leaves with the hints. *)
Ltac quiet_steps :=
  repeat first
    [ apply (keeps_bind quiet quiet_trans); [|intros ?]
    | apply (keeps_try_except quiet quiet_trans); [|intros ?]
    | apply (keeps_for_each quiet quiet_refl quiet_trans); intros ?
    | apply (keeps_ret quiet quiet_refl)
    | match goal with
      | |- keeps _ (if ?b then _ else _) => destruct b
      | |- keeps _ (match ?e with _ => _ end) => destruct e
      end
    | progress cbv zeta ];
  auto with quiet.

Lemma check_tool_quiet h tool : keeps quiet (check_tool h tool).
Proof. unfold check_tool. quiet_steps. Qed.

Lemma run_cmd_quiet h self cmd p : keeps quiet (run_cmd h self cmd p).
Proof. unfold run_cmd. quiet_steps; apply print_quiet; by destruct (kind self). Qed.

Lemma fetch_endpoints_quiet h urls : forall acc, keeps quiet (fetch_endpoints h urls acc).
Proof. induction urls as [|u urls IH]; intros acc; simpl; quiet_steps. Qed.

Lemma execute_quiet h self : keeps quiet (execute h self).
Proof.
  pose proof (check_tool_quiet h). pose proof (run_cmd_quiet h self).
  pose proof (fetch_endpoints_quiet h).
  unfold execute. destruct (kind self);
    unfold execute_subdomain, execute_ports, execute_http_probe, execute_js_discovery,
      execute_dir_bruteforce, execute_param_discovery, execute_screenshot, tech_extraction;
    quiet_steps.
Qed.

Lemma generate_report_quiet h odir f : keeps quiet (generate_report h odir f).
Proof. unfold generate_report, report_section. quiet_steps. Qed.

Lemma construct_spec kinds tgt odir cfg : forall w r w',
  construct kinds tgt odir cfg w = (r, w') ->
  out w' = out w /\ procs w' = procs w
  /\ forall ms, r = Ok ms -> ms = map (fun k => mkModule k tgt odir cfg) kinds.
Proof.
  induction kinds as [|k kinds IH]; simpl; intros w r w'.
  - intros [= <- <-]. repeat split. by intros ms [= <-].
  - unfold bind at 1. unfold new_module. unfold bind at 1.
    destruct (makedirs odir w) as [[[]|e] w1] eqn:Em;
      apply makedirs_grows in Em as [(Hp & Ho & _) _].
    + unfold ret at 1. unfold bind at 1.
      destruct (construct kinds tgt odir cfg w1) as [[ms|e] w2] eqn:Ec;
        apply IH in Ec as (Ho2 & Hp2 & Hms); intros [= <- <-].
      * repeat split; [congruence..|]. intros ms' [= <-]. by rewrite (Hms ms).
      * repeat split; [congruence..|]. discriminate.
    + intros [= <- <-]. repeat split; [done..|]. discriminate.
Qed.


(** The loop prints the start notice of every module of its list, in the
    order of the list, when no [execute] raises. *)
Lemma run_modules_notices h modules : forall w w',
  run_modules h modules w = (Ok tt, w') ->
  exists lines,
    out w' = out w ++ lines
    /\ filter (fun s => is_notice s = true) lines = map notice modules.
Proof.
  induction modules as [|m ms IH]; intros w w'; unfold run_modules; simpl.
  - intros [= <-]. exists []. by rewrite app_nil_r.
  - unfold bind at 1. unfold bind at 1. unfold print at 1. unfold bind at 1.
    destruct (execute h m _) as [[b|e] w1] eqn:Ex; [|discriminate].
    unfold ret at 1. intros Hrest. apply IH in Hrest as (lines & Ho & Hn).
    apply execute_quiet in Ex as (l1 & Ho1 & Hq1). simpl in Ho1.
    exists (notice m :: l1 ++ lines). split.
    + rewrite Ho, Ho1, <- !app_assoc. done.
    + rewrite filter_cons_True by reflexivity.
      rewrite filter_app, Hn. simpl. f_equal.
      assert (filter (fun s => is_notice s = true) l1 = []) as ->; [|done].
      clear -Hq1. induction Hq1 as [|s l Hs _ IHl]; [done|].
      rewrite filter_cons_False by (by rewrite Hs). done.
Qed.


(** ** Runs that meet no structural fault *)

Lemma rsplit_slash_None p b :
  Text.rsplit_slash p = (None, b) -> b = p.
Proof.
  revert b. induction p as [|c p IH]; simpl; intros b.
  - by intros [= <-].
  - destruct (Text.rsplit_slash p) as [[d|] b'] eqn:E; [done|].
    destruct (Ascii.eqb c "/"); [done|]. intros [= <-]. by rewrite (IH b').
Qed.

Lemma rsplit_slash_Some p d b :
  Text.rsplit_slash p = (Some d, b) -> p = d +:+ String "/" b.
Proof.
  revert d b. induction p as [|c p IH]; simpl; intros d b; [done|].
  destruct (Text.rsplit_slash p) as [[d'|] b'] eqn:E.
  - intros [= <- <-]. by rewrite (IH d' b').
  - destruct (Ascii.eqb_spec c "/") as [->|]; [|done].
    intros [= <- <-]. by rewrite (rsplit_slash_None _ _ E).
Qed.

Lemma glob_match_inv d p :
  glob_match d p = true ->
  exists b, p = d +:+ String "/" b /\ Text.endswith b ".txt" = true.
Proof.
  unfold glob_match. destruct (Text.rsplit_slash p) as [[d'|] b] eqn:E; [|done].
  intros H. apply andb_prop in H as [Hd Hb]. apply String.eqb_eq in Hd as ->.
  exists b. split; [by apply rsplit_slash_Some|done].
Qed.

Lemma startswith_append a : forall s b, a +:+ s = b -> Text.startswith b a = true.
Proof.
  induction a as [|c a IH]; intros s b; [done|].
  rewrite append_cons. intros <-. simpl. by rewrite Ascii.eqb_refl, (IH s).
Qed.

(** A name is on the way to the screenshots directory only if it is the
    beginning of its name. *)
Lemma joinpath_chain d name q :
  q ∈ chain (joinpath d "screenshots/") -> q = joinpath d name ->
  Text.startswith "screenshots" (trim_sep name) = true.
Proof.
  intros Hin ->. apply makedirs_chain_prefix in Hin as [s Hs].
  unfold joinpath in Hs. rewrite append_assoc in Hs. apply append_inj_l in Hs.
  change (trim_sep "screenshots/") with "screenshots" in Hs.
  rewrite append_cons, append_assoc in Hs. injection Hs as Hs.
  by apply (startswith_append _ s).
Qed.

Lemma screenshots_prefix_not_txt b :
  Text.startswith "screenshots" b = true -> Text.endswith b ".txt" = false.
Proof.
  intros H.
  do 11 (destruct b as [|? b]; [reflexivity|];
         simpl in H; apply andb_prop in H as [Hc H]; apply Ascii.eqb_eq in Hc as ->).
  destruct b; [reflexivity|discriminate H].
Qed.

Lemma chain_screenshots_not_globbed d q :
  q ∈ chain (joinpath d "screenshots/") -> glob_match d q = false.
Proof.
  intros Hin. destruct (glob_match d q) eqn:Hm; [|done].
  apply glob_match_inv in Hm as (b & -> & Hb).
  assert (Text.startswith "screenshots" b = true) as Hs.
  { apply makedirs_chain_prefix in Hin as [s Hs].
    unfold joinpath in Hs. rewrite append_assoc in Hs. apply append_inj_l in Hs.
    change (trim_sep "screenshots/") with "screenshots" in Hs.
    rewrite !append_cons in Hs. injection Hs as Hs. by apply (startswith_append _ s). }
  by rewrite (screenshots_prefix_not_txt b Hs) in Hb.
Qed.

Lemma chain_screenshots_not_report d f q :
  q ∈ chain (joinpath d "screenshots/") -> q <> report_path d f.
Proof.
  intros Hin ->. unfold report_path in Hin.
  pose proof (joinpath_chain d _ _ Hin eq_refl) as H. by destruct f.
Qed.



Section Tidy.

Variable h : Host.
Variable odir : string.
Variable f : ReportFormat.
Hypothesis host_tidy : tidy_host h odir f.

Abbreviation sdir := (joinpath odir "screenshots/").
Abbreviation Tidy := (stays_tidy odir f).

Lemma stays_tidy_refl w : Tidy w w.
Proof. by intros H. Qed.

Lemma stays_tidy_trans w1 w2 w3 : Tidy w1 w2 -> Tidy w2 w3 -> Tidy w1 w3.
Proof. intros H1 H2 H. auto. Qed.

(** A computation that leaves the file system alone keeps it tidy. *)
Lemma same_fs_tidy {A} (c : M A) : (forall w, fs (c w).2 = fs w) -> keeps Tidy c.
Proof. intros H w r w' E Ht. specialize (H w). rewrite E in H. simpl in H. by rewrite H. Qed.

(** Putting a regular file at [p] keeps the file system tidy, unless [p]
    is where a directory has to be. *)
Lemma tidy_insert_file p c fsys :
  p ∉ chain sdir -> p <> odir -> tidy odir f fsys -> tidy odir f (<[p := File c]> fsys).
Proof.
  intros Hp Hne (Hd & Hc & Hdirs). split; [|split].
  - by rewrite lookup_insert_ne.
  - apply Forall_forall. intros q Hq c'. rewrite lookup_insert_ne by (by intros ->).
    by apply (proj1 (Forall_forall _ _) Hc).
  - intros q Hq. apply Hdirs. destruct (decide (p = q)) as [->|Hpq].
    + by rewrite lookup_insert_eq in Hq.
    + by rewrite lookup_insert_ne in Hq.
Qed.

(** Adding directories on the way to [p] keeps the file system tidy when
    none of them is named like an output or like the report. *)
Lemma tidy_grows p w w' :
  (forall q, q ∈ chain p -> glob_match odir q = false /\ q <> report_path odir f) ->
  grows (chain p) w w' -> tidy odir f (fs w) -> tidy odir f (fs w').
Proof.
  intros Hnew (_ & _ & Hf) (Hd & Hc & Hdirs). split; [|split].
  - destruct (Hf odir) as [->|(_ & E & _)]; congruence.
  - apply Forall_forall. intros q Hq c.
    destruct (Hf q) as [->|(_ & _ & ->)]; [|done].
    by apply (proj1 (Forall_forall _ _) Hc).
  - intros q Hq. destruct (Hf q) as [E|(Hin & _ & _)]; [|by apply Hnew].
    apply Hdirs. by rewrite <- E.
Qed.

Lemma print_tidy line : keeps Tidy (print line).
Proof. by apply same_fs_tidy. Qed.

Lemma path_exists_tidy p : keeps Tidy (path_exists p).
Proof. by apply same_fs_tidy. Qed.

Lemma open_read_tidy p : keeps Tidy (open_read p).
Proof. apply same_fs_tidy. intros w. unfold open_read. by destruct (fs w !! p) as [[?|]|]. Qed.

Lemma getsize_tidy p : keeps Tidy (getsize h p).
Proof. apply same_fs_tidy. intros w. unfold getsize. by destruct (fs w !! p) as [[?|]|]. Qed.

Lemma glob_txt_tidy d : keeps Tidy (glob_txt d).
Proof. by apply same_fs_tidy. Qed.

Lemma elapsed_text_tidy : keeps Tidy (elapsed_text h).
Proof. by apply same_fs_tidy. Qed.

Lemma subprocess_run_tidy cmd t : keeps Tidy (subprocess_run h cmd t).
Proof.
  intros w r w' E Ht. unfold subprocess_run in E.
  pose proof (host_tidy (length (procs w)) cmd t (fs w) Ht) as H.
  destruct (spawn h _ _ _ _) as [[?| |?] fsys]; injection E as <- <-; exact H.
Qed.

Lemma open_write_tidy p : p ∉ chain sdir -> keeps Tidy (open_write p).
Proof.
  intros Hp w r w' E Ht. unfold open_write in E.
  assert (fs w !! p <> Some Dir -> p <> odir) as Hne.
  { intros H ->. by destruct Ht as [Hd _]. }
  destruct (fs w !! p) as [[c|]|] eqn:Ep;
    [|by injection E as <- <-|];
    (destruct (fs w !! Text.dirname p) as [[?|]|];
     injection E as <- <-; [done| |done]);
    simpl; (apply tidy_insert_file; [done|by apply Hne|done]).
Qed.

Lemma write_tidy p s : keeps Tidy (write p s).
Proof.
  intros w r w' E Ht. unfold write in E.
  destruct (fs w !! p) as [[c|]|] eqn:Ep; injection E as <- <-; try done.
  simpl. apply tidy_insert_file; [| |done].
  - intros Hin. destruct Ht as (_ & Hc & _).
    by apply (proj1 (Forall_forall _ _) Hc p Hin c).
  - intros ->. destruct Ht as [Hd _]. congruence.
Qed.

Lemma makedirs_tidy p :
  (forall q, q ∈ chain p -> glob_match odir q = false /\ q <> report_path odir f) ->
  keeps Tidy (makedirs p).
Proof.
  intros Hnew w r w' E Ht. apply makedirs_grows in E as [G _].
  by apply (tidy_grows p w w').
Qed.

Lemma makedirs_sdir_tidy : keeps Tidy (makedirs sdir).
Proof.
  apply makedirs_tidy. intros q Hq. split.
  - by apply chain_screenshots_not_globbed.
  - by apply chain_screenshots_not_report.
Qed.

(** The files the modules write are none of the directories on the way to
    the screenshots. *)
Lemma output_not_in_chain name :
  Text.startswith "screenshots" (trim_sep name) = false -> joinpath odir name ∉ chain sdir.
Proof.
  intros H Hin. by rewrite (joinpath_chain odir name _ Hin eq_refl) in H.
Qed.

Lemma gowitness_report_not_in_chain : sdir +:+ "/report.html" ∉ chain sdir.
Proof.
  intros Hin. apply makedirs_chain_prefix in Hin as [s Hs].
  rewrite append_assoc in Hs. symmetry in Hs. by apply append_ne_self in Hs.
Qed.

End Tidy.

(** Splits a computation like [quiet_steps], for any relation with its
    reflexivity and transitivity, and closes the leaves with [tac]. *)
Ltac keeps_steps refl trans tac :=
  repeat first
    [ solve [tac]
    | apply (keeps_bind _ trans); [|intros ?]
    | apply (keeps_try_except _ trans); [|intros ?]
    | apply (keeps_for_each _ refl trans); intros ?
    | apply (keeps_ret _ refl)
    | match goal with
      | |- keeps _ (if ?b then _ else _) => destruct b
      | |- keeps _ (match ?e with _ => _ end) => destruct e
      end
    | progress cbv zeta ];
  tac.

Section TidyModules.

Variable h : Host.
Variable odir : string.
Variable f : ReportFormat.
Hypothesis host_tidy : tidy_host h odir f.

Abbreviation sdir := (joinpath odir "screenshots/").
Abbreviation Tidy := (stays_tidy odir f).

Create HintDb tidy.
#[local] Hint Resolve print_tidy path_exists_tidy open_read_tidy getsize_tidy glob_txt_tidy
  elapsed_text_tidy subprocess_run_tidy open_write_tidy write_tidy makedirs_sdir_tidy
  output_not_in_chain gowitness_report_not_in_chain : tidy.

Ltac tidy_steps :=
  keeps_steps (stays_tidy_refl odir f) (stays_tidy_trans odir f) ltac:(auto with tidy).



Lemma fetch_endpoints_tidy urls : forall acc, keeps Tidy (fetch_endpoints h urls acc).
Proof. induction urls as [|u urls IH]; intros acc; simpl; tidy_steps. Qed.


Lemma generate_report_tidy : keeps Tidy (generate_report h odir f).
Proof.
  unfold generate_report, report_section. tidy_steps.
  apply open_write_tidy. unfold report_path. apply output_not_in_chain. by destruct f.
Qed.

End TidyModules.

(** ** Runs that come to their end *)

Lemma ancestors_from_no_slash b : forall pre,
  Text.has_slash b = false -> ancestors_from pre b = [].
Proof.
  induction b as [|c b IH]; intros pre; simpl; [done|].
  destruct (Ascii.eqb c "/"); simpl; [done|]. apply IH.
Qed.

Lemma ancestors_from_join d b : forall pre,
  Text.has_slash b = false ->
  ancestors_from pre (d +:+ String "/" b)
  = ancestors_from pre d ++ match pre +:+ d with EmptyString => [] | x => [x] end.
Proof.
  induction d as [|c d IH]; intros pre Hb.
  - change (EmptyString +:+ String "/" b) with (String "/" b). simpl.
    rewrite append_empty_r, (ancestors_from_no_slash b _ Hb). by destruct pre.
  - rewrite append_cons. simpl. rewrite (IH (Text.snoc pre c) Hb), snoc_append.
    destruct (Ascii.eqb c "/"); [|done]. by destruct pre.
Qed.


Lemma glob_match_output d name :
  Text.has_slash (trim_sep name) = false ->
  glob_match d (joinpath d name) = Text.endswith (trim_sep name) ".txt".
Proof.
  intros H. unfold glob_match. rewrite rsplit_slash_joinpath by done.
  by rewrite String.eqb_refl.
Qed.

Lemma tidy_output_not_dir d f fsys name :
  tidy d f fsys ->
  Text.has_slash (trim_sep name) = false -> Text.endswith (trim_sep name) ".txt" = true ->
  fsys !! joinpath d name <> Some Dir.
Proof.
  intros (_ & _ & Hdirs) Hs He Hp. apply Hdirs in Hp as [Hm _].
  rewrite glob_match_output in Hm by done. congruence.
Qed.


Section Returns.

Variable h : Host.
Variable odir : string.
Variable f : ReportFormat.
Hypothesis host_tidy : tidy_host h odir f.

Lemma check_tool_returns tool w :
  exists b w', check_tool h tool w = (Ok b, w') /\ fs w' = fs w.
Proof. unfold check_tool. destruct (which h tool); by eexists _, _. Qed.

Lemma run_cmd_ok self cmd p w : exists b w', run_cmd h self cmd p w = (Ok b, w').
Proof.
  destruct (run_cmd_returns h self cmd p w) as [b Hb].
  destruct (run_cmd h self cmd p w) as [r w']. simpl in Hb. subst r. eauto.
Qed.

Lemma execute_returns self w :
  output_dir self = odir -> tidy odir f (fs w) ->
  exists b w', execute h self w = (Ok b, w').
Proof.
  destruct self as [k tgt od cfg]. simpl. intros -> Ht.
  unfold execute. destruct k; simpl.
  - unfold execute_subdomain. unfold bind at 1.
    destruct (check_tool_returns "subfinder" w) as ([] & w1 & -> & _); simpl;
      [apply run_cmd_ok|by eexists _, _].
  - unfold execute_ports. unfold bind at 1.
    destruct (check_tool_returns "naabu" w) as ([] & w1 & -> & _); simpl;
      [apply run_cmd_ok|by eexists _, _].
  - unfold execute_http_probe. unfold bind at 1.
    destruct (check_tool_returns "httpx" w) as ([] & w1 & -> & _); simpl;
      [|by eexists _, _].
    unfold bind at 1. unfold path_exists at 1.
    destruct (bool_decide _); simpl; [|by eexists _, _].
    unfold bind at 1.
    destruct (run_cmd_ok (mkModule HttpProbeModule tgt odir cfg)
                ("httpx -l " +:+ joinpath odir "subs.txt" +:+ " -silent -o "
                 +:+ joinpath odir "httpx.txt" +:+ " -tech-detect")
                (joinpath odir "httpx.txt") w1) as ([] & w2 & ->); simpl;
      [|by eexists _, _].
    unfold try_except. unfold bind at 1.
    destruct (tech_extraction _ _ w2) as [[[]|e] w3]; by eexists _, _.
  - unfold execute_js_discovery. unfold bind at 1.
    destruct (check_tool_returns "curl" w) as ([] & w1 & -> & Hfs); simpl;
      [|by eexists _, _].
    unfold bind at 1. unfold path_exists at 1.
    destruct (fs w1 !! joinpath odir "httpx.txt") as [[text|]|] eqn:Ex.
    + rewrite bool_decide_eq_true_2 by eauto. simpl.
      unfold bind at 1. unfold open_read. rewrite Ex. unfold bind at 1.
      destruct (fetch_endpoints_spec h (js_urls text) [] w1) as (found & w2 & E & _ & _).
      rewrite E. simpl.
      assert (tidy odir f (fs w2)) as Ht2.
      { eapply (fetch_endpoints_tidy h odir f host_tidy); [exact E|]. by rewrite Hfs. }
      unfold bind at 1. rewrite open_write_ok.
      * unfold bind at 1. unfold write, set_fs. simpl. rewrite lookup_insert_eq.
        by eexists _, _.
      * by apply (tidy_output_not_dir odir f).
      * rewrite dirname_joinpath by reflexivity. by destruct Ht2.
    + exfalso. rewrite Hfs in Ex. by apply (tidy_output_not_dir odir f (fs w) "httpx.txt").
    + rewrite bool_decide_eq_false_2 by (intros [? ?]; discriminate). simpl.
      by eexists _, _.
  - unfold execute_dir_bruteforce. unfold bind at 1.
    destruct (check_tool_returns "ffuf" w) as ([] & w1 & -> & _); simpl;
      [|by eexists _, _].
    destruct (host_exists h wordlist); simpl; [apply run_cmd_ok|by eexists _, _].
  - unfold execute_param_discovery. unfold bind at 1.
    destruct (check_tool_returns "arjun" w) as ([] & w1 & -> & _); simpl;
      [apply run_cmd_ok|by eexists _, _].
  - unfold execute_screenshot. unfold bind at 1.
    destruct (check_tool_returns "gowitness" w) as ([] & w1 & -> & Hfs); simpl;
      [|by eexists _, _].
    unfold bind at 1.
    destruct (makedirs (joinpath odir "screenshots/") w1) as [r w2] eqn:Em.
    apply makedirs_grows in Em as [_ Hok].
    destruct Hok as [-> _]; [rewrite Hfs; by destruct Ht as (_ & Hc & _)|].
    unfold bind at 1. unfold path_exists at 1.
    destruct (bool_decide _); simpl; [apply run_cmd_ok|by eexists _, _].
Qed.


End Returns.



Lemma select_Forall {A} (P : A -> Prop) (g : A -> Kind) args l :
  Forall P l -> Forall P (select g args l).
Proof.
  intros H. apply Forall_forall. intros x Hx.
  apply (proj1 (Forall_forall _ _) H). revert Hx. unfold select.
  destruct (arg_only_subdomains args), (arg_no_dirs args), (arg_no_screenshots args);
    intros Hx; repeat (apply list_elem_of_filter in Hx as [_ Hx]); done.
Qed.


(** C8. For the JavaScript discovery module: whenever [execute] returns, it
    returns [True] exactly when at least one endpoint was extracted, and when
    it got as far as writing its output file, the lines of that file are the
    extracted endpoints, each endpoint once; and [execute] does return
    whenever the file system is tidy and the host keeps it so. *)
Theorem C8_js_discovery_result h self w :
  kind self = JsDiscoveryModule ->
  (forall b w',
      execute h self w = (Ok b, w') ->
      (b = true <-> extracted h self w <> [])
      /\ (which h "curl" = true ->
          is_Some (fs w !! joinpath (output_dir self) "httpx.txt") ->
          exists l,
            fs w' !! joinpath (output_dir self) "endpoints.txt"
              = Some (File (Text.join Text.nl l))
            /\ file_lines (Text.join Text.nl l) = l
            /\ NoDup l
            /\ forall x, x ∈ l <-> x ∈ extracted h self w))
  /\ (forall f,
        tidy_host h (output_dir self) f -> tidy (output_dir self) f (fs w) ->
        exists b w', execute h self w = (Ok b, w')).
Proof.
  intros Hk. split.
  - intros b w' E. unfold execute in E. rewrite Hk in E.
    apply js_discovery_result in E. by rewrite Hk in E.
  - intros f Hh Ht. by apply (execute_returns h (output_dir self) f).
Qed.

(** *** The report in the words of the specification *)

Lemma append_inj_r (a b t : string) : a +:+ t = b +:+ t -> a = b.
Proof.
  revert b. induction a as [|x a IH]; intros [|y b] H.
  - done.
  - apply (f_equal String.length) in H. rewrite !append_length in H. simpl in H. lia.
  - apply (f_equal String.length) in H. rewrite !append_length in H. simpl in H. lia.
  - rewrite !append_cons in H. injection H as -> H. by rewrite (IH b H).
Qed.

Lemma txt_path_inj d s s' : txt_path d s = txt_path d s' -> s = s'.
Proof.
  unfold txt_path. intros H. apply append_inj_l in H.
  apply (append_inj_l "/") in H. by apply append_inj_r in H.
Qed.

Lemma has_slash_append a b :
  Text.has_slash (a +:+ b) = (Text.has_slash a || Text.has_slash b)%bool.
Proof.
  induction a as [|c a IH]; [done|]. rewrite append_cons. simpl. rewrite IH.
  by rewrite orb_assoc.
Qed.

Lemma rsplit_slash_name p : forall d b,
  Text.rsplit_slash p = (d, b) -> Text.has_slash b = false.
Proof.
  induction p as [|c p IH]; simpl; intros d b.
  - by intros [= <- <-].
  - destruct (Text.rsplit_slash p) as [[d'|] b'] eqn:E.
    + intros [= <- <-]. by eapply IH.
    + destruct (Ascii.eqb c "/") eqn:Ec; intros [= <- <-].
      * by eapply IH.
      * simpl. rewrite Ec. by eapply IH.
Qed.

Lemma endswith_cons c s t :
  Text.endswith (String c s) t = (String.eqb (String c s) t || Text.endswith s t)%bool.
Proof. reflexivity. Qed.

Lemma endswith_append s t : Text.endswith (s +:+ t) t = true.
Proof.
  induction s as [|c s IH].
  - change (EmptyString +:+ t) with t. destruct t as [|c t]; [done|].
    by rewrite endswith_cons, String.eqb_refl.
  - by rewrite append_cons, endswith_cons, IH, orb_true_r.
Qed.

Lemma endswith_inv b t : Text.endswith b t = true -> exists s, b = s +:+ t.
Proof.
  induction b as [|c b IH]; intros H.
  - destruct t; [by exists EmptyString|discriminate H].
  - rewrite endswith_cons in H. apply orb_true_iff in H as [H|H].
    + apply String.eqb_eq in H as <-. by exists EmptyString.
    + destruct (IH H) as [s ->]. by exists (String c s).
Qed.

(** The entries the scan of [generate_report] matches are the paths
    [d/s.txt] with a name [s.txt] that holds no separator. *)
Lemma glob_match_words d p :
  glob_match d p = true <-> exists s, Text.has_slash s = false /\ p = txt_path d s.
Proof.
  split.
  - intros Hm. unfold glob_match in Hm.
    destruct (Text.rsplit_slash p) as [[d'|] b] eqn:E; [|done].
    apply andb_true_iff in Hm as [Hd Hb]. apply String.eqb_eq in Hd as ->.
    pose proof (rsplit_slash_name _ _ _ E) as Hs.
    apply rsplit_slash_Some in E as ->.
    apply endswith_inv in Hb as [s ->]. exists s. split; [|done].
    rewrite has_slash_append in Hs. by apply orb_false_iff in Hs as [Hs _].
  - intros (s & Hs & ->). unfold glob_match, txt_path.
    change (d +:+ "/" +:+ s +:+ ".txt") with (d +:+ String "/" (s +:+ ".txt")).
    rewrite rsplit_slash_join by (by rewrite has_slash_append, Hs).
    by rewrite String.eqb_refl, endswith_append.
Qed.

Lemma rfind_dot_txt s : Text.rfind_dot (s +:+ ".txt") = Some (String.length s).
Proof.
  induction s as [|c s IH]; [done|]. rewrite append_cons. simpl. by rewrite IH.
Qed.

Lemma substring_append s t : String.substring 0 (String.length s) (s +:+ t) = s.
Proof.
  induction s as [|c s IH].
  - change (EmptyString +:+ t) with t. simpl. by destruct t.
  - rewrite append_cons. simpl. by rewrite IH.
Qed.

(** The stem of the name [s.txt]. *)
Lemma stem_txt s :
  Text.stem (s +:+ ".txt") = match s with EmptyString => ".txt" | _ => s end.
Proof.
  unfold Text.stem. rewrite rfind_dot_txt. destruct s as [|c s]; [done|].
  rewrite append_length. cbn [String.length].
  match goal with |- (if ?b then _ else _) = _ => replace b with true end.
  - apply (substring_append (String c s)).
  - symmetry. apply Nat.ltb_lt. simpl. lia.
Qed.

Lemma section_text_words d s c :
  Text.has_slash s = false -> section_text (txt_path d s) c = section_words (s, c).
Proof.
  intros Hs. unfold section_text, section_words, Text.basename, txt_path. simpl.
  change (d +:+ "/" +:+ s +:+ ".txt") with (d +:+ String "/" (s +:+ ".txt")).
  rewrite rsplit_slash_join by (by rewrite has_slash_append, Hs). simpl.
  rewrite stem_txt. by destruct s, c.
Qed.

Lemma report_path_words d f : report_path d f = d +:+ "/" +:+ report_name f.
Proof. by destruct f. Qed.

(** For a target without a separator the join that makes the output
    directory is the concatenation. *)
Lemma replace_no_slash s :
  Text.has_slash s = false -> Text.has_slash (Text.replace "." "_" s) = false.
Proof.
  induction s as [|c s IH]; [done|]. simpl. intros H.
  apply orb_false_iff in H as [Hc Hs]. rewrite (IH Hs), orb_false_r.
  destruct (Ascii.eqb c "."); [done|exact Hc].
Qed.

Lemma trim_sep_no_slash s : Text.has_slash s = false -> trim_sep s = s.
Proof.
  intros Hs. unfold trim_sep. destruct (Text.endswith s "/") eqn:E; [|done].
  apply endswith_inv in E as [a ->]. rewrite has_slash_append in Hs.
  by apply orb_false_iff in Hs as [_ Hs].
Qed.

Lemma plain_join out tgt :
  plain_name tgt = true ->
  out +:+ "/" +:+ Text.replace "." "_" tgt = joinpath out (Text.replace "." "_" tgt).
Proof.
  intros Ht. unfold plain_name in Ht.
  apply andb_true_iff in Ht as [Ht _]. apply andb_true_iff in Ht as [_ Ht].
  apply negb_true_iff in Ht. unfold joinpath.
  by rewrite trim_sep_no_slash by (by apply replace_no_slash).
Qed.

(** C7, as far as it holds.  When [generate_report] runs in an output
    directory that exists, where every entry named [*.txt] is a regular file
    and no directory stands at the path of the report, it returns, and the
    report holds the title and then one section for every regular file
    [s.txt] of the directory, each file once and no other section: the
    header [## s] (for the name [.txt], the whole name), followed by
    [Empty - Module Failed or Skipped] when the file is empty and by the whole
    content of the file otherwise. *)
Theorem C7_report_sections h odir f w :
  fs w !! odir = Some Dir ->
  fs w !! (odir +:+ "/" +:+ report_name f) <> Some Dir ->
  (forall s, Text.has_slash s = false -> fs w !! txt_path odir s <> Some Dir) ->
  exists entries,
    NoDup (map fst entries)
    /\ (forall s c,
           (s, c) ∈ entries
           <-> Text.has_slash s = false /\ fs w !! txt_path odir s = Some (File c))
    /\ generate_report h odir f w
       = (Ok tt,
          mkWorld (<[odir +:+ "/" +:+ report_name f := File (report_words entries)]> (fs w))
            (out w ++ ["[INFO] Report generated: " +:+ odir +:+ "/" +:+ report_name f])
            (procs w)).
Proof.
  intros Hd Hr Hdirs. rewrite <- !report_path_words in *.
  destruct (generate_report_spec h odir f w Hd Hr) as (files & Hnd & Hmem & E).
  { intros p Hm. apply glob_match_words in Hm as (s & Hs & ->). by apply Hdirs. }
  assert (exists entries,
             files = map (fun e => txt_path odir e.1) entries
             /\ Forall (fun e => Text.has_slash e.1 = false
                                 /\ fs w !! txt_path odir e.1 = Some (File e.2)) entries)
    as (entries & Hfiles & Hent).
  { assert (Forall (fun p => glob_match odir p = true
                             /\ exists c, fs w !! p = Some (File c)) files) as HF.
    { apply Forall_forall. intros p Hp. by apply Hmem. }
    clear -HF. induction HF as [|p files [Hm [c Hc]] _ (entries & -> & Hent)].
    - by exists [].
    - apply glob_match_words in Hm as (s & Hs & ->).
      exists ((s, c) :: entries). split; [done|]. by constructor. }
  exists entries. split; [|split].
  - rewrite Hfiles in Hnd.
    rewrite <- (map_map fst (txt_path odir)) in Hnd. by apply NoDup_fmap_1 in Hnd.
  - intros s c. split.
    + intros Hin. apply (proj1 (Forall_forall _ _) Hent) in Hin. done.
    + intros [Hs Hc].
      assert (txt_path odir s ∈ files) as Hin.
      { apply Hmem. split; [|eauto]. apply glob_match_words. eauto. }
      rewrite Hfiles in Hin. apply list_elem_of_fmap in Hin as ([s' c'] & Heq & Hin).
      simpl in Heq. apply txt_path_inj in Heq as <-.
      pose proof (proj1 (Forall_forall _ _) Hent _ Hin) as [_ Hc']. simpl in Hc'.
      congruence.
  - rewrite E.
    assert (report_text (fs w) files = report_words entries) as ->; [|done].
    unfold report_text, report_words. rewrite !append_assoc. do 3 f_equal.
    rewrite Hfiles. clear -Hent.
    induction Hent as [|[s c] entries [Hs Hc] _ IH]; [done|].
    simpl in *. rewrite IH. f_equal. unfold section_of. rewrite Hc.
    by apply section_text_words.
Qed.

Lemma report_words_length entries e :
  e ∈ entries ->
  (String.length (section_words e) + 20 <= String.length (report_words entries))%nat.
Proof.
  intros Hin.
  assert (String.length (section_words e)
          <= String.length (foldr String.append EmptyString (map section_words entries)))%nat
    as Hle.
  { induction entries as [|x entries IH]; [by apply elem_of_nil in Hin|].
    cbn [map foldr]. rewrite append_length.
    apply elem_of_cons in Hin as [->|Hin]; [lia|]. specialize (IH Hin). lia. }
  unfold report_words. rewrite !append_length.
  change (String.length "# AutoScope Report") with 18%nat.
  change (String.length Text.nl) with 1%nat. lia.
Qed.

(** C7 fails as stated where a directory bears a name ending in [.txt]:
    beside two regular outputs, [generate_report] gives the directory a
    header, reads it as a file and raises; what it leaves as the report has
    a header for the directory and no section for either file. *)
Lemma C7_counterexample :
  ~ (forall h odir f w,
       fs w !! odir = Some Dir ->
       exists entries,
         (forall s c,
             (s, c) ∈ entries
             <-> Text.has_slash s = false /\ fs w !! txt_path odir s = Some (File c))
         /\ fs (generate_report h odir f w).2 !! (odir +:+ "/" +:+ report_name f)
            = Some (File (report_words entries))).
Proof.
  intros H.
  destruct (H (Scenario.host 0 "") Scenario.odir md Cases.mixed_outputs)
    as (entries & Hmem & E).
  - vm_compute. reflexivity.
  - assert (("subs", "a.example.com" +:+ Text.nl) ∈ entries) as Hin.
    { apply Hmem. split; [reflexivity|]. vm_compute. reflexivity. }
    apply report_words_length in Hin.
    assert (fs (generate_report (Scenario.host 0 "") Scenario.odir md
                  Cases.mixed_outputs).2 !! (Scenario.odir +:+ "/" +:+ report_name md)
            = Some (File ("# AutoScope Report" +:+ Text.nl +:+ Text.nl
                          +:+ "## old" +:+ Text.nl))) as Ec
      by (vm_compute; reflexivity).
    assert (report_words entries
            = "# AutoScope Report" +:+ Text.nl +:+ Text.nl +:+ "## old" +:+ Text.nl)
      as Er by congruence.
    rewrite Er in Hin. vm_compute in Hin. lia.
Qed.

(** ** What a run prints, however it ends *)



Lemma silent_modest {A} (c : M A) :
  (forall w, out (c w).2 = out w) -> keeps modest c.
Proof.
  intros H w r w' E. exists []. rewrite app_nil_r. split; [|done].
  specialize (H w). by rewrite E in H.
Qed.


Lemma path_exists_modest p : keeps modest (path_exists p).
Proof. by apply silent_modest. Qed.

Lemma open_read_modest p : keeps modest (open_read p).
Proof. apply silent_modest. intros w. unfold open_read. by destruct (fs w !! p) as [[?|]|]. Qed.

Lemma open_write_modest p : keeps modest (open_write p).
Proof.
  apply silent_modest. intros w. unfold open_write.
  destruct (fs w !! p) as [[?|]|]; try done;
    by destruct (fs w !! Text.dirname p) as [[?|]|].
Qed.

Lemma write_modest p s : keeps modest (write p s).
Proof. apply silent_modest. intros w. unfold write. by destruct (fs w !! p) as [[?|]|]. Qed.

Lemma getsize_modest h p : keeps modest (getsize h p).
Proof. apply silent_modest. intros w. unfold getsize. by destruct (fs w !! p) as [[?|]|]. Qed.

Lemma glob_txt_modest d : keeps modest (glob_txt d).
Proof. by apply silent_modest. Qed.

Lemma elapsed_text_modest h : keeps modest (elapsed_text h).
Proof. by apply silent_modest. Qed.

Lemma subprocess_run_modest h cmd t : keeps modest (subprocess_run h cmd t).
Proof.
  apply silent_modest. intros w. unfold subprocess_run.
  by destruct (spawn h _ _ _ _) as [[?| |?] ?].
Qed.

Lemma makedirs_modest p : keeps modest (makedirs p).
Proof.
  intros w r w' E. apply makedirs_grows in E as [(_ & Ho & _) _].
  exists []. by rewrite app_nil_r.
Qed.

Create HintDb modest.
#[local] Hint Resolve path_exists_modest open_read_modest open_write_modest
  write_modest getsize_modest glob_txt_modest elapsed_text_modest subprocess_run_modest
  makedirs_modest : modest.













(** ** Which subprocesses carry the timeout *)

Lemma started_within_refl t w : started_within t w w.
Proof. exists []. by rewrite app_nil_r. Qed.

Lemma started_within_trans t w1 w2 w3 :
  started_within t w1 w2 -> started_within t w2 w3 -> started_within t w1 w3.
Proof.
  intros (l1 & E1 & F1) (l2 & E2 & F2). exists (l1 ++ l2).
  rewrite E2, E1, app_assoc. split; [done|]. by apply Forall_app.
Qed.

Lemma same_procs_started {A} t (c : M A) :
  (forall w, procs (c w).2 = procs w) -> keeps (started_within t) c.
Proof.
  intros H w r w' E. exists []. rewrite app_nil_r. split; [|done].
  specialize (H w). by rewrite E in H.
Qed.

Lemma keeps_for_each_Forall R {A} (l : list A) (body : A -> M unit) :
  (forall w, R w w) -> (forall w1 w2 w3, R w1 w2 -> R w2 w3 -> R w1 w3) ->
  Forall (fun x => keeps R (body x)) l -> keeps R (for_each l body).
Proof.
  intros Hrefl Htrans. induction 1 as [|x l Hx _ IH]; simpl.
  - by apply keeps_ret.
  - apply keeps_bind; [done..|by intros _].
Qed.

Section Started.

Variable h : Host.
Variable t : Z.

Abbreviation Within := (started_within t).

Lemma print_started line : keeps Within (print line).
Proof. by apply same_procs_started. Qed.

Lemma path_exists_started p : keeps Within (path_exists p).
Proof. by apply same_procs_started. Qed.

Lemma open_read_started p : keeps Within (open_read p).
Proof.
  apply same_procs_started. intros w. unfold open_read. by destruct (fs w !! p) as [[?|]|].
Qed.

Lemma open_write_started p : keeps Within (open_write p).
Proof.
  apply same_procs_started. intros w. unfold open_write.
  destruct (fs w !! p) as [[?|]|]; try done;
    by destruct (fs w !! Text.dirname p) as [[?|]|].
Qed.

Lemma write_started p s : keeps Within (write p s).
Proof. apply same_procs_started. intros w. unfold write. by destruct (fs w !! p) as [[?|]|]. Qed.

Lemma getsize_started p : keeps Within (getsize h p).
Proof.
  apply same_procs_started. intros w. unfold getsize. by destruct (fs w !! p) as [[?|]|].
Qed.

Lemma glob_txt_started d : keeps Within (glob_txt d).
Proof. by apply same_procs_started. Qed.

Lemma elapsed_text_started : keeps Within (elapsed_text h).
Proof. by apply same_procs_started. Qed.

Lemma makedirs_started p : keeps Within (makedirs p).
Proof.
  intros w r w' E. apply makedirs_grows in E as [(Hp & _) _].
  exists []. by rewrite app_nil_r.
Qed.

Lemma subprocess_run_started cmd o :
  o = Some t \/ (o = None /\ Text.startswith cmd "curl -s " = true) ->
  keeps Within (subprocess_run h cmd o).
Proof.
  intros Ho w r w' E. unfold subprocess_run in E.
  exists [(cmd, o)]. split; [|by constructor].
  destruct (spawn h _ _ _ _) as [[?| |?] fsys]; by injection E as <- <-.
Qed.

Create HintDb started.
#[local] Hint Resolve print_started path_exists_started open_read_started open_write_started
  write_started getsize_started glob_txt_started elapsed_text_started makedirs_started
  subprocess_run_started : started.

Ltac started_steps :=
  keeps_steps (started_within_refl t) (started_within_trans t) ltac:(auto with started).

Lemma check_tool_started tool : keeps Within (check_tool h tool).
Proof. unfold check_tool. started_steps. Qed.

Lemma run_cmd_started self cmd p :
  config_timeout (config self) = t -> keeps Within (run_cmd h self cmd p).
Proof. intros Ht. unfold run_cmd. rewrite Ht. started_steps. Qed.

Lemma fetch_endpoints_started urls : forall acc, keeps Within (fetch_endpoints h urls acc).
Proof. induction urls as [|u urls IH]; intros acc; simpl; started_steps. Qed.

Lemma execute_started self :
  config_timeout (config self) = t -> keeps Within (execute h self).
Proof.
  intros Ht. pose proof check_tool_started. pose proof (run_cmd_started self).
  pose proof fetch_endpoints_started.
  unfold execute. destruct (kind self);
    unfold execute_subdomain, execute_ports, execute_http_probe, execute_js_discovery,
      execute_dir_bruteforce, execute_param_discovery, execute_screenshot, tech_extraction;
    started_steps.
Qed.

Lemma generate_report_started odir f : keeps Within (generate_report h odir f).
Proof. unfold generate_report, report_section. started_steps. Qed.

End Started.

(** Every subprocess a run of [main] starts carries the timeout of the
    profile, 60 or 300 seconds, except the [curl] fetches of JavaScript
    discovery, which carry none. *)
Lemma main_started h args :
  keeps (started_within (if arg_fast args then 60 else 300)) (main h args).
Proof.
  set (t := if arg_fast args then 60 else 300).
  intros w r w'. unfold main.
  destruct (arg_fast args && arg_deep args)%bool.
  { intros [= <- <-]. exists []. by rewrite app_nil_r. }
  unfold bind at 1.
  destruct (construct _ _ _ _ w) as [[ms|e] w1] eqn:Ec.
  2:{ intros [= <- <-]. apply construct_spec in Ec as (_ & Hp & _).
      exists []. by rewrite app_nil_r. }
  pose proof (construct_spec _ _ _ _ _ _ _ Ec) as (_ & Hp & Hms).
  specialize (Hms ms eq_refl). intros E.
  apply (started_within_trans t w w1 w'); [exists []; by rewrite app_nil_r|].
  revert E. apply (keeps_bind _ (started_within_trans t)).
  - apply keeps_for_each_Forall;
      [apply started_within_refl|apply started_within_trans|].
    apply select_Forall. rewrite Hms. apply Forall_forall.
    intros m Hm. apply list_elem_of_fmap in Hm as (k & -> & _).
    apply (keeps_bind _ (started_within_trans t)); [apply print_started|intros _].
    apply (keeps_bind _ (started_within_trans t)).
    + apply execute_started. apply make_config_timeout.
    + intros _. apply keeps_ret, started_within_refl.
  - intros _. apply (keeps_bind _ (started_within_trans t)).
    + apply generate_report_started.
    + intros _. apply print_started.
Qed.

(** ** Instances *)

Lemma C2_witness :
  run_cmd (Scenario.host 1 "") (Scenario.instance PortsModule) "naabu -host example.com"
    (joinpath Scenario.odir "ports.txt") Scenario.fresh
  = (Ok false,
     mkWorld (fs Scenario.fresh) ["[ERROR] in ports: failed"]
       [("naabu -host example.com", Some 300)]).
Proof.
  apply (C2_run_cmd_nonzero_exit (Scenario.host 1 "") (Scenario.instance PortsModule)
           "naabu -host example.com" (joinpath Scenario.odir "ports.txt") Scenario.fresh
           (mkCompleted 1 "" "  failed  ") (fs Scenario.fresh)).
  - reflexivity.
  - discriminate.
Defined.


Lemma C5_witness :
  main (Scenario.host 0 "") Scenario.both_profiles (mkWorld ∅ [] [])
  = (Ok tt, mkWorld ∅ ["[ERROR] Cannot use --fast and --deep together"] []).
Proof.
  apply (C5_fast_and_deep_abort (Scenario.host 0 "") Scenario.both_profiles (mkWorld ∅ [] []));
    reflexivity.
Defined.

Lemma C6_witness :
  procs (execute_ports (Scenario.host 0 "")
           (mkModule PortsModule "example.com" Scenario.odir
              (make_config Scenario.plain_args)) Scenario.fresh).2
  = [("naabu -host example.com -p 1-65535 -silent -o output/example_com/ports.txt",
      Some 300)].
Proof.
  destruct (C6_fast_profile (Scenario.host 0 "") Scenario.plain_args "example.com"
              Scenario.odir Scenario.fresh) as (_ & _ & H).
  exact (H eq_refl).
Defined.

Lemma C7_witness :
  exists entries,
    entries ≡ₚ [("subs", "a.example.com" +:+ Text.nl); ("ports", EmptyString)]
    /\ generate_report (Scenario.host 0 "") Scenario.odir md Scenario.two_outputs
       = (Ok tt,
          mkWorld (<[Scenario.odir +:+ "/report.md" := File (report_words entries)]>
                     (fs Scenario.two_outputs))
            ["[INFO] Report generated: " +:+ Scenario.odir +:+ "/report.md"] []).
Proof.
  destruct (C7_report_sections (Scenario.host 0 "") Scenario.odir md Scenario.two_outputs)
    as (entries & Hnd & Hmem & E).
  - reflexivity.
  - vm_compute. discriminate.
  - intros s Hs Hp. simpl in Hp.
    repeat (apply lookup_insert_Some in Hp as [[Hk Hp]|[_ Hp]];
            [first [discriminate Hp | vm_compute in Hk; discriminate Hk]|]).
    by rewrite lookup_empty in Hp.
  - exists entries. split; [|exact E].
    apply NoDup_Permutation.
    + by apply NoDup_fmap_1 in Hnd.
    + apply NoDup_cons. split; [|apply NoDup_singleton].
      intros Hin. apply list_elem_of_singleton in Hin. discriminate Hin.
    + intros [s c]. rewrite Hmem. split.
      * intros [_ Hp]. simpl in Hp.
        apply lookup_insert_Some in Hp as [[Hk [= <-]]|[_ Hp]].
        { apply (txt_path_inj Scenario.odir "subs" s) in Hk as <-. by left. }
        apply lookup_insert_Some in Hp as [[Hk [= <-]]|[_ Hp]].
        { apply (txt_path_inj Scenario.odir "ports" s) in Hk as <-. right. by left. }
        repeat (apply lookup_insert_Some in Hp as [[_ Hp]|[_ Hp]]; [discriminate Hp|]).
        by rewrite lookup_empty in Hp.
      * intros Hin. apply elem_of_cons in Hin as [[= -> ->]|Hin];
          [split; reflexivity|].
        apply list_elem_of_singleton in Hin as [= -> ->]. split; reflexivity.
Defined.

Lemma C8_witness :
  (execute (Scenario.host 0 Scenario.script)
     (Scenario.instance JsDiscoveryModule) Scenario.one_script).1 = Ok true
  /\ (exists l,
        fs (execute (Scenario.host 0 Scenario.script)
              (Scenario.instance JsDiscoveryModule) Scenario.one_script).2
          !! joinpath Scenario.odir "endpoints.txt"
        = Some (File (Text.join Text.nl l))
        /\ file_lines (Text.join Text.nl l) = l
        /\ NoDup l
        /\ forall x, x ∈ l <-> x ∈ ["/api?id="; "/v2/items?page="; "/api?id="])
  /\ exists b w', execute (Scenario.host 0 Scenario.script)
                    (Scenario.instance JsDiscoveryModule) Scenario.one_script = (Ok b, w').
Proof.
  destruct (C8_js_discovery_result (Scenario.host 0 Scenario.script)
              (Scenario.instance JsDiscoveryModule) Scenario.one_script eq_refl)
    as [H1 H2].
  split; [vm_compute; reflexivity|]. split.
  - destruct (H1 true
                (execute (Scenario.host 0 Scenario.script)
                   (Scenario.instance JsDiscoveryModule) Scenario.one_script).2)
      as [_ H]; [vm_compute; reflexivity|].
    apply H; [reflexivity|]. vm_compute. eauto.
  - apply (H2 md).
    + intros n cmd t fsys Ht. exact Ht.
    + split; [reflexivity|]. split.
      * match goal with |- Forall _ ?l =>
          let l' := eval vm_compute in l in change l with l' end.
        apply Forall_forall. intros q Hq c Hc.
        repeat (apply elem_of_cons in Hq as [->|Hq];
                [vm_compute in Hc; discriminate Hc|]).
        by apply elem_of_nil in Hq.
      * intros p Hp. simpl in Hp.
        repeat (apply lookup_insert_Some in Hp as [[<- Hp]|[_ Hp]];
                [first [discriminate Hp | split; [reflexivity|discriminate]]|]).
        by rewrite lookup_empty in Hp.
Defined.

Lemma C10_witness :
  report_path Scenario.odir md
  ∉ filter (fun p => glob_match Scenario.odir p = true)
      (map fst (map_to_list
                  (<[report_path Scenario.odir md := File EmptyString]>
                     (fs Scenario.two_outputs)))).
Proof.
  destruct (C10_report_not_a_section Scenario.odir md) as [_ H].
  apply (H (mkWorld (<[report_path Scenario.odir md := File EmptyString]>
                       (fs Scenario.two_outputs)) [] [])
           _ (mkWorld (<[report_path Scenario.odir md := File EmptyString]>
                         (fs Scenario.two_outputs)) [] [])).
  reflexivity.
Defined.


(** * Further properties of the program *)

(** ** [run_cmd]: every way it can end *)

(** X1. [run_cmd] never raises: whatever the subprocess does, it returns a
    boolean, has started exactly one subprocess, with the configured
    timeout, and has printed exactly one line. *)
Theorem X1_run_cmd_always_returns h self cmd outfile_path w :
  exists b line f,
    run_cmd h self cmd outfile_path w
    = (Ok b,
       mkWorld f (out w ++ [line]) (procs w ++ [(cmd, Some (config_timeout (config self)))])).
Proof.
  unfold run_cmd. unfold_monad.
  destruct (spawn h _ _ _ _) as [[c| |msg] f]; simpl; [|by eexists _, _, _..].
  destruct (negb _); simpl; [by eexists _, _, _|].
  destruct (f !! outfile_path) as [[?|]|]; simpl; [|by eexists _, _, _|];
    (destruct (f !! Text.dirname outfile_path) as [[?|]|]; simpl;
     [by eexists _, _, _| |by eexists _, _, _]);
    rewrite lookup_insert_eq; simpl; by eexists _, _, _.
Qed.

(** X2. A subprocess that exceeds its timeout is reported as a timeout, in
    a line of its own form; [run_cmd] returns [False] and writes nothing. *)
Theorem X2_run_cmd_timeout h self cmd outfile_path w f :
  spawn h (length (procs w)) cmd (Some (config_timeout (config self))) (fs w)
    = (TimedOut, f) ->
  run_cmd h self cmd outfile_path w
  = (Ok false,
     mkWorld f (out w ++ ["[ERROR] Timeout in " +:+ name (kind self)])
       (procs w ++ [(cmd, Some (config_timeout (config self)))])).
Proof. intros Hs. unfold run_cmd. unfold_monad. by rewrite Hs. Qed.

(** X3. [run_cmd] returns [True] exactly when the subprocess exits with
    status zero and the destination can be opened for writing; the
    destination then holds the captured standard output and nothing else,
    whatever the subprocess had left there. *)
Theorem X3_run_cmd_success h self cmd outfile_path w o f :
  spawn h (length (procs w)) cmd (Some (config_timeout (config self))) (fs w) = (o, f) ->
  ((run_cmd h self cmd outfile_path w).1 = Ok true <->
   exists c, o = Exited c /\ returncode c = 0
             /\ f !! outfile_path <> Some Dir
             /\ f !! Text.dirname outfile_path = Some Dir)
  /\ ((run_cmd h self cmd outfile_path w).1 = Ok true ->
      exists c, o = Exited c
                /\ fs (run_cmd h self cmd outfile_path w).2
                   = <[outfile_path := File (stdout c)]> f).
Proof.
  intros Hs. unfold run_cmd. unfold_monad. rewrite Hs.
  destruct o as [c| |msg]; simpl.
  2,3: split; [split; [discriminate|by intros (c & ? & _)]|discriminate].
  destruct (Z.eqb_spec (returncode c) 0) as [Hrc|Hrc]; simpl.
  2:{ split; [split; [discriminate|]|discriminate].
      intros (c' & [= <-] & Hz & _). done. }
  destruct (f !! outfile_path) as [[old|]|] eqn:Ep; simpl.
  2:{ split; [split; [discriminate|]|discriminate].
      intros (c' & _ & _ & Hd & _). done. }
  all: destruct (f !! Text.dirname outfile_path) as [[?|]|] eqn:Ed; simpl;
    [split; [split; [discriminate|by intros (c' & _ & _ & _ & ?)]|discriminate]
    | |split; [split; [discriminate|by intros (c' & _ & _ & _ & ?)]|discriminate]];
    rewrite lookup_insert_eq; simpl; split;
    [split; [intros _; exists c; repeat split; done|done]
    |intros _; exists c; split; [done|]; by rewrite insert_insert_eq].
Qed.

(** X4. An exit status of zero is not enough: when a directory stands at
    the destination, the exception of [open] is caught, reported as a
    failure of the module, and [run_cmd] returns [False]; likewise when the
    subprocess cannot be started. *)
Theorem X4_run_cmd_other_failures h self cmd outfile_path w o f :
  spawn h (length (procs w)) cmd (Some (config_timeout (config self))) (fs w) = (o, f) ->
  (exists msg, o = Faulted msg)
  \/ (exists c, o = Exited c /\ returncode c = 0 /\ f !! outfile_path = Some Dir) ->
  exists msg,
    run_cmd h self cmd outfile_path w
    = (Ok false,
       mkWorld f (out w ++ ["[ERROR] Failure in " +:+ name (kind self) +:+ ": " +:+ msg])
         (procs w ++ [(cmd, Some (config_timeout (config self)))])).
Proof.
  intros Hs Ho. unfold run_cmd. unfold_monad. rewrite Hs.
  destruct Ho as [[msg ->]|(c & -> & Hrc & Hp)]; simpl; [by eexists|].
  rewrite Hrc. simpl. rewrite Hp. simpl. by eexists.
Qed.

(** X5. A configuration without a ["timeout"] entry gives the subprocess
    of [run_cmd] the default bound of 300 seconds. *)
Theorem X5_run_cmd_default_timeout h self cmd outfile_path w :
  config self !! "timeout" = None ->
  procs (run_cmd h self cmd outfile_path w).2 = procs w ++ [(cmd, Some 300)].
Proof.
  intros Hc. rewrite run_cmd_procs. unfold config_timeout. by rewrite Hc.
Qed.

(** ** The gates of the modules *)

(** X6. Every module first asks for its tool: when it is not installed,
    [execute] returns [False] after the line of [check_tool] and one line of
    advice, has started no subprocess and has left the file system as it
    was. *)
Theorem X6_tool_missing h self w :
  which h (tool_of (kind self)) = false ->
  exists advice,
    execute h self w
    = (Ok false,
       mkWorld (fs w)
         (out w ++ ["[ERROR] " +:+ tool_of (kind self)
                    +:+ " not found. Please install it and add to PATH."; advice])
         (procs w)).
Proof.
  intros Hw. unfold execute.
  destruct (kind self); simpl in Hw;
    unfold execute_subdomain, execute_ports, execute_http_probe, execute_js_discovery,
      execute_dir_bruteforce, execute_param_discovery, execute_screenshot, check_tool;
    rewrite Hw; unfold_monad; rewrite <- app_assoc; by eexists.
Qed.

(** X7. With subfinder installed and the configuration main builds, the
    subdomain module starts one subprocess: subfinder on the target, writing
    to [subs.txt], with [-all] appended exactly under the deep profile, and
    bounded by the timeout of the profile. *)
Theorem X7_subdomain_command h args tgt odir w :
  which h "subfinder" = true ->
  procs (execute h (mkModule SubdomainModule tgt odir (make_config args)) w).2
  = procs w ++
    [(("subfinder -d " +:+ tgt +:+ " -silent -o " +:+ joinpath odir "subs.txt")
      +:+ (if arg_deep args then " -all" else ""),
      Some (if arg_fast args then 60 else 300))].
Proof.
  intros Hw. unfold execute. simpl. unfold execute_subdomain, check_tool. rewrite Hw.
  unfold bind at 1. unfold ret at 1. cbn [negb].
  rewrite run_cmd_procs. simpl. rewrite make_config_deep, make_config_timeout.
  destruct (arg_deep args); [done|]. by rewrite append_empty_r.
Qed.

(** X8. With ffuf installed, directory brute-forcing starts its subprocess
    exactly when the word list exists; without the word list it returns
    [False] and leaves the file system as it was. *)
Theorem X8_wordlist_gate h self w :
  which h "ffuf" = true ->
  let outfile := joinpath (output_dir self) (output_file (kind self)) in
  let cmd := "ffuf -u https://" +:+ target self +:+ "/FUZZ -w " +:+ wordlist
             +:+ " -mc 200,301 -o " +:+ outfile +:+ " -of csv" in
  procs (execute_dir_bruteforce h self w).2
  = procs w ++ (if host_exists h wordlist
                then [(cmd, Some (config_timeout (config self)))] else [])
  /\ (host_exists h wordlist = false ->
      (execute_dir_bruteforce h self w).1 = Ok false
      /\ fs (execute_dir_bruteforce h self w).2 = fs w).
Proof.
  intros Hw outfile cmd. subst outfile cmd.
  unfold execute_dir_bruteforce, check_tool. rewrite Hw.
  unfold bind at 1 3 5. unfold ret at 1 3 5. cbn [negb].
  destruct (host_exists h wordlist); cbn [negb].
  - rewrite run_cmd_procs. split; [done|discriminate].
  - unfold_monad. rewrite app_nil_r. done.
Qed.

(** ** HTTP probing: what ends up in [tech.txt] *)

Lemma write_loop {A} p (g : A -> string) f o ps (ls : list A) : forall acc,
  for_each ls (fun x => write p (g x)) (mkWorld (<[p := File acc]> f) o ps)
  = (Ok tt,
     mkWorld (<[p := File (acc +:+ foldr String.append EmptyString (map g ls))]> f) o ps).
Proof.
  induction ls as [|x ls IH]; intros acc; simpl.
  - unfold ret. by rewrite append_empty_r.
  - unfold bind. unfold write at 1. simpl. rewrite lookup_insert_eq.
    unfold set_fs. simpl. rewrite insert_insert_eq, IH. by rewrite append_assoc.
Qed.

Lemma all_chars_snoc p s c :
  all_chars p (Text.snoc s c) = (all_chars p s && p c)%bool.
Proof. unfold Text.snoc. rewrite all_chars_append. simpl. by rewrite andb_true_r. Qed.

(** The fields [split] gives hold no whitespace. *)
Lemma split_from_chars s : forall tok,
  all_chars not_space (default EmptyString tok) = true ->
  Forall (fun t => all_chars not_space t = true) (Text.split_from tok s).
Proof.
  induction s as [|c s IH]; intros tok Htok; simpl.
  - destruct tok; [by constructor|constructor].
  - destruct (Text.isspace c) eqn:Hc.
    + destruct tok; [constructor; [done|]|]; by apply IH.
    + apply IH. simpl. rewrite all_chars_snoc, Htok. unfold not_space. by rewrite Hc.
Qed.

Lemma second_field_chars line t :
  second_field line = Some t -> all_chars not_newline t = true.
Proof.
  unfold second_field, Text.split.
  pose proof (split_from_chars line None eq_refl) as HF.
  destruct (Text.split_from None line) as [|a [|b l]]; try done.
  intros [= <-]. apply Forall_cons in HF as [_ HF]. apply Forall_cons in HF as [Hb _].
  apply (all_chars_impl not_space not_newline); [|done].
  intros c Hc. unfold not_newline, not_space in *.
  destruct (Ascii.eqb_spec c "010") as [->|]; [by vm_compute in Hc|done].
Qed.

Lemma tech_of_line_second_field line :
  tech_of_line line = match second_field line with
                      | Some t => t +:+ Text.nl
                      | None => EmptyString
                      end.
Proof.
  unfold tech_of_line, second_field. by destruct (Text.split line) as [|a [|b l]].
Qed.

Lemma lines_from_terminated t rest :
  all_chars not_newline t = true ->
  Text.lines_from EmptyString ((t +:+ Text.nl) +:+ rest)
  = (t +:+ Text.nl) :: Text.lines_from EmptyString rest.
Proof.
  intros Ht. rewrite append_assoc, lines_from_append by done.
  change (Text.nl +:+ rest) with (String "010" rest). cbn [Text.lines_from].
  rewrite Ascii.eqb_refl. done.
Qed.

(** The lines of what the tech extraction writes are the second fields. *)
Lemma tech_lines text :
  file_lines (foldr String.append EmptyString (map tech_of_line (Text.lines text)))
  = second_fields text.
Proof.
  unfold second_fields, file_lines. generalize (Text.lines text). intros ls.
  induction ls as [|line ls IH]; [done|]. simpl.
  rewrite tech_of_line_second_field.
  destruct (second_field line) as [t|] eqn:Et; [|exact IH].
  pose proof (second_field_chars line t Et) as Ht.
  unfold Text.lines. rewrite lines_from_terminated by done. cbn [map].
  rewrite chomp_newline by done. f_equal. exact IH.
Qed.

Lemma tech_extraction_spec outfile tech_file text w :
  outfile <> tech_file ->
  fs w !! outfile = Some (File text) ->
  fs w !! tech_file <> Some Dir ->
  fs w !! Text.dirname tech_file = Some Dir ->
  tech_extraction outfile tech_file w
  = (Ok tt,
     mkWorld (<[tech_file := File (foldr String.append EmptyString
                                     (map tech_of_line (Text.lines text)))]> (fs w))
       (out w) (procs w)).
Proof.
  intros Hne Ho Ht Hd. unfold tech_extraction. unfold bind at 1. unfold open_read.
  rewrite Ho. unfold bind at 1. rewrite open_write_ok by done. unfold set_fs.
  by rewrite write_loop.
Qed.

(** X9. The good path of HTTP probing: with httpx installed, [subs.txt]
    present, a zero exit, and no directory in the way of [httpx.txt] and
    [tech.txt], [execute] returns [True]; [httpx.txt] holds the captured
    output, and [tech.txt] has one line for each line of it with at least
    two whitespace-separated fields, namely its second field. *)
Theorem X9_http_probe_success h self w c f :
  let odir := output_dir self in
  let cmd := "httpx -l " +:+ joinpath odir "subs.txt" +:+ " -silent -o "
             +:+ joinpath odir "httpx.txt" +:+ " -tech-detect" in
  kind self = HttpProbeModule ->
  which h "httpx" = true ->
  is_Some (fs w !! joinpath odir "subs.txt") ->
  spawn h (length (procs w)) cmd (Some (config_timeout (config self))) (fs w)
    = (Exited c, f) ->
  returncode c = 0 ->
  f !! odir = Some Dir ->
  f !! joinpath odir "httpx.txt" <> Some Dir ->
  f !! joinpath odir "tech.txt" <> Some Dir ->
  exists tech,
    (execute h self w).1 = Ok true
    /\ fs (execute h self w).2
       = <[joinpath odir "tech.txt" := File tech]>
           (<[joinpath odir "httpx.txt" := File (stdout c)]> f)
    /\ file_lines tech = second_fields (stdout c).
Proof.
  intros odir cmd Hk Hw Hs Hsp Hrc Hd Hx Ht. subst odir cmd.
  exists (foldr String.append EmptyString (map tech_of_line (Text.lines (stdout c)))).
  destruct (run_cmd_zero_exit h self _ (joinpath (output_dir self) "httpx.txt") w c f
              Hsp Hrc Hx) as (w1 & E & Hf1).
  { by rewrite dirname_joinpath. }
  assert (execute h self w
          = (Ok true,
             mkWorld
               (<[joinpath (output_dir self) "tech.txt"
                  := File (foldr String.append EmptyString
                             (map tech_of_line (Text.lines (stdout c))))]> (fs w1))
               (out w1 ++ ["[SUCCESS] Tech detection saved to "
                           +:+ joinpath (output_dir self) "tech.txt"])
               (procs w1))) as ->.
  { unfold execute. rewrite Hk. unfold execute_http_probe, check_tool. rewrite Hw, Hk.
    cbn [output_file].
    unfold bind at 1. unfold ret at 1. cbn [negb].
    unfold bind at 1. rewrite (path_exists_Some _ _ Hs). cbn [negb].
    unfold bind at 1. rewrite E. cbn [negb]. unfold try_except.
    unfold bind at 1.
    rewrite (tech_extraction_spec _ _ (stdout c) w1); [done| | | |].
    - apply append_ne_l. discriminate.
    - rewrite Hf1. apply lookup_insert_eq.
    - rewrite Hf1. rewrite lookup_insert_ne; [done|]. apply append_ne_l. discriminate.
    - rewrite Hf1, dirname_joinpath by reflexivity. rewrite lookup_insert_ne; [done|].
      apply append_ne_self. }
  simpl. rewrite Hf1. split; [done|]. split; [done|]. apply tech_lines.
Qed.

(** ** JavaScript discovery: the fetches and the count *)

(** X10. The fetch loop never raises and prints nothing: it starts one
    [curl] per URL, in the order of the list and whatever the earlier
    fetches did, and it collects the matches in the bodies of the fetches
    that came back, whatever their exit status; a fetch that raises or runs
    out of time adds nothing. *)
Theorem X10_fetch_loop h urls acc w :
  exists w',
    fetch_endpoints h urls acc w
    = (Ok (acc ++ concat (map Text.findall
                            (fetched_bodies h (length (procs w)) (fs w) urls))), w')
    /\ procs w' = procs w ++ map (fun u => ("curl -s " +:+ u, None)) urls
    /\ out w' = out w.
Proof.
  destruct (fetch_endpoints_bodies h urls acc w) as (w' & E).
  destruct (fetch_endpoints_spec h urls acc w) as (found & w'' & E' & Hp & Ho).
  rewrite E in E'. injection E' as _ <-. by exists w'.
Qed.

(** The world JavaScript discovery leaves when it gets to its end. *)
Lemma js_discovery_world h self w text b w' :
  which h "curl" = true ->
  fs w !! joinpath (output_dir self) "httpx.txt" = Some (File text) ->
  execute_js_discovery h self w = (Ok b, w') ->
  exists w1,
    fetch_endpoints h (js_urls text) [] w = (Ok (extracted h self w), w1)
    /\ b = negb (bool_decide (extracted h self w = []))
    /\ w' = mkWorld
              (<[joinpath (output_dir self) (output_file (kind self))
                 := File (Text.join Text.nl
                            (elements (list_to_set (extracted h self w) : gset string)))]>
                 (fs w1))
              (out w1 ++ ["[SUCCESS] Found " +:+ pretty (length (extracted h self w))
                          +:+ " potential endpoints"])
              (procs w1).
Proof.
  intros Hw Hx. unfold execute_js_discovery, extracted, check_tool. rewrite Hw, Hx.
  unfold bind at 1. unfold ret at 1. cbn [negb]. unfold bind at 1.
  rewrite path_exists_Some by (rewrite Hx; eauto). cbn [negb].
  unfold bind at 1. unfold open_read. rewrite Hx. unfold bind at 1.
  destruct (fetch_endpoints_bodies h (js_urls text) [] w) as (w1 & E).
  rewrite E. rewrite app_nil_l.
  set (found := concat (map Text.findall
                          (fetched_bodies h (length (procs w)) (fs w) (js_urls text)))).
  unfold bind at 1.
  destruct (open_write _ w1) as [[[]|e] w2] eqn:Eo; [|discriminate].
  unfold open_write in Eo.
  assert (w2 = set_fs (<[joinpath (output_dir self) (output_file (kind self))
                          := File EmptyString]> (fs w1)) w1) as ->.
  { destruct (fs w1 !! joinpath (output_dir self) (output_file (kind self))) as [[?|]|];
      try discriminate;
      destruct (fs w1 !! Text.dirname
                  (joinpath (output_dir self) (output_file (kind self)))) as [[?|]|];
      congruence. }
  unfold_monad. rewrite lookup_insert_eq. simpl. rewrite insert_insert_eq.
  intros [= <- <-]. exists w1. done.
Qed.

(** X11. The count JavaScript discovery prints is the number of matches
    with their repetitions, while its output file holds every endpoint once:
    the file never has more lines than the count says. *)
Theorem X11_count_with_repetitions h self w text b w' :
  which h "curl" = true ->
  fs w !! joinpath (output_dir self) "httpx.txt" = Some (File text) ->
  execute_js_discovery h self w = (Ok b, w') ->
  exists content,
    fs w' !! joinpath (output_dir self) (output_file (kind self)) = Some (File content)
    /\ last (out w')
       = Some ("[SUCCESS] Found " +:+ pretty (length (extracted h self w))
               +:+ " potential endpoints")
    /\ (length (file_lines content) <= length (extracted h self w))%nat.
Proof.
  intros Hw Hx E.
  destruct (js_discovery_world h self w text b w' Hw Hx E) as (w1 & Ef & _ & ->).
  eexists. simpl. rewrite lookup_insert_eq. split; [done|]. split.
  { by rewrite last_snoc. }
  pose proof (fetch_endpoints_chars h _ _ _ _ _ Ef (Forall_nil_2 _) _ eq_refl) as Hch.
  rewrite file_lines_join.
  - apply submseteq_length, NoDup_submseteq; [apply NoDup_elements|].
    intros x Hx'. by apply elem_of_elements, elem_of_list_to_set in Hx'.
  - apply Forall_forall. intros x Hx'.
    apply elem_of_elements, elem_of_list_to_set in Hx'.
    by apply (proj1 (Forall_forall _ _) Hch).
Qed.

(** X12. A [httpx.txt] without any line ending in [.js] makes JavaScript
    discovery start no subprocess and return [False], but not without
    effect: it announces zero endpoints as a success and leaves an empty
    [endpoints.txt], replacing what was there. *)
Theorem X12_no_script_urls h self w text :
  which h "curl" = true ->
  fs w !! joinpath (output_dir self) "httpx.txt" = Some (File text) ->
  js_urls text = [] ->
  fs w !! joinpath (output_dir self) (output_file (kind self)) <> Some Dir ->
  fs w !! Text.dirname (joinpath (output_dir self) (output_file (kind self))) = Some Dir ->
  execute_js_discovery h self w
  = (Ok false,
     mkWorld (<[joinpath (output_dir self) (output_file (kind self))
                := File EmptyString]> (fs w))
       (out w ++ ["[SUCCESS] Found 0 potential endpoints"]) (procs w)).
Proof.
  intros Hw Hx Hu Ho Hd. unfold execute_js_discovery, check_tool. rewrite Hw.
  unfold bind at 1. unfold ret at 1. cbn [negb]. unfold bind at 1.
  rewrite path_exists_Some by (rewrite Hx; eauto). cbn [negb].
  unfold bind at 1. unfold open_read. rewrite Hx. unfold bind at 1. rewrite Hu.
  cbn [fetch_endpoints]. unfold ret at 1. unfold bind at 1.
  rewrite open_write_ok by done.
  unfold_monad. rewrite lookup_insert_eq. simpl. by rewrite insert_insert_eq.
Qed.

(** ** Which modules run *)

(** X14. The three option filters of main compose to one test: a module
    stays exactly when it is a subdomain module or [--only-subdomains] is
    absent, it is no directory brute-force module or [--no-dirs] is absent,
    and it is no screenshot module or [--no-screenshots] is absent; the
    modules that stay keep their order, and with [--only-subdomains] the
    other two options change nothing. *)
Theorem X14_selection {A} (g : A -> Kind) args (l : list A) :
  (forall m,
      m ∈ select g args l
      <-> m ∈ l
          /\ (arg_only_subdomains args = true -> g m = SubdomainModule)
          /\ (arg_no_dirs args = true -> g m <> DirBruteforceModule)
          /\ (arg_no_screenshots args = true -> g m <> ScreenshotModule))
  /\ select g args l `sublist_of` l
  /\ (arg_only_subdomains args = true ->
      select g args l = filter (fun m => g m = SubdomainModule) l).
Proof.
  split; [|split].
  - intros m. unfold select.
    destruct (arg_only_subdomains args), (arg_no_dirs args), (arg_no_screenshots args);
      rewrite ?list_elem_of_filter;
      (split; [intros H; repeat split; try tauto; intros; try discriminate; tauto
              |intros (Hm & H1 & H2 & H3); repeat split; auto]).
  - unfold select.
    destruct (arg_only_subdomains args), (arg_no_dirs args), (arg_no_screenshots args);
      repeat (etrans; [apply sublist_filter|]); done.
  - intros Hs. unfold select. rewrite Hs.
    assert (forall l' : list A,
               filter (fun m => g m <> DirBruteforceModule)
                 (filter (fun m => g m = SubdomainModule) l')
               = filter (fun m => g m = SubdomainModule) l') as H1.
    { intros l'. induction l' as [|x l' IH]; [done|].
      rewrite !filter_cons. case_decide as Hx; [|done].
      rewrite filter_cons, decide_True by (by rewrite Hx). by rewrite IH. }
    assert (forall l' : list A,
               filter (fun m => g m <> ScreenshotModule)
                 (filter (fun m => g m = SubdomainModule) l')
               = filter (fun m => g m = SubdomainModule) l') as H2.
    { intros l'. induction l' as [|x l' IH]; [done|].
      rewrite !filter_cons. case_decide as Hx; [|done].
      rewrite filter_cons, decide_True by (by rewrite Hx). by rewrite IH. }
    destruct (arg_no_dirs args), (arg_no_screenshots args); by rewrite ?H1, ?H2.
Qed.

(** ** The constructors *)

Lemma for_each_mkdir_done l : forall w w',
  for_each l mkdir_exist_ok w = (Ok tt, w') -> Forall (fun q => fs w' !! q = Some Dir) l.
Proof.
  induction l as [|q l IH]; simpl; intros w w'; [constructor|].
  unfold bind. destruct (mkdir_exist_ok q w) as [[[]|e] w1] eqn:E1; [|discriminate].
  intros E2. constructor; [|by eapply IH].
  assert (fs w1 !! q = Some Dir) as Hq.
  { unfold mkdir_exist_ok in E1. destruct (fs w !! q) as [[c|]|] eqn:Eq;
      [discriminate| |]; injection E1 as <-; [done|]. simpl. by rewrite lookup_insert_eq. }
  apply for_each_mkdir_grows in E2 as [(_ & _ & Hf) _].
  destruct (Hf q) as [->|(_ & ? & _)]; congruence.
Qed.

Lemma for_each_mkdir_again l : forall w,
  Forall (fun q => fs w !! q = Some Dir) l -> for_each l mkdir_exist_ok w = (Ok tt, w).
Proof.
  induction l as [|q l IH]; simpl; intros w HF; [done|].
  apply Forall_cons in HF as [Hq HF]. unfold bind, mkdir_exist_ok. rewrite Hq. by apply IH.
Qed.

(** Making the directories a second time changes nothing. *)
Lemma makedirs_again p w w' :
  makedirs p w = (Ok tt, w') -> makedirs p w' = (Ok tt, w').
Proof. unfold makedirs. intros E. by apply for_each_mkdir_again, (for_each_mkdir_done _ w). Qed.

Lemma construct_again kinds tgt odir cfg w :
  makedirs odir w = (Ok tt, w) ->
  construct kinds tgt odir cfg w = (Ok (map (fun k => mkModule k tgt odir cfg) kinds), w).
Proof.
  intros Em. induction kinds as [|k kinds IH]; [done|].
  simpl. unfold bind at 1. unfold new_module. unfold bind at 1. rewrite Em.
  unfold ret at 1. unfold bind at 1. by rewrite IH.
Qed.

(** X15. Every module constructor makes the output directory, but only the
    first call can have an effect: building any number of modules for one
    directory leaves the world that one [makedirs] leaves, with all the
    instances when it succeeded, and with its exception, raised by the first
    constructor, when it failed. *)
Theorem X15_constructors k kinds tgt odir cfg w :
  construct (k :: kinds) tgt odir cfg w
  = match makedirs odir w with
    | (Ok _, w') => (Ok (map (fun k => mkModule k tgt odir cfg) (k :: kinds)), w')
    | (Raise e, w') => (Raise e, w')
    end.
Proof.
  simpl. unfold bind at 1. unfold new_module. unfold bind at 1.
  destruct (makedirs odir w) as [[[]|e] w1] eqn:Em; [|done].
  unfold ret at 1. unfold bind at 1.
  by rewrite (construct_again kinds tgt odir cfg w1 (makedirs_again _ _ _ Em)).
Qed.

(** ** What the report touches *)

Lemma only_at_refl q w : only_at q w w.
Proof. by repeat split. Qed.

Lemma only_at_trans q w1 w2 w3 : only_at q w1 w2 -> only_at q w2 w3 -> only_at q w1 w3.
Proof.
  intros (Hp1 & Ho1 & Hf1) (Hp2 & Ho2 & Hf2). repeat split; try congruence.
  intros p Hp. by rewrite Hf2, Hf1.
Qed.

Lemma same_world_only_at {A} q (c : M A) : (forall w, (c w).2 = w) -> keeps (only_at q) c.
Proof. intros H w r w' E. specialize (H w). rewrite E in H. simpl in H. subst w'. apply only_at_refl. Qed.

Lemma write_only_at q s : keeps (only_at q) (write q s).
Proof.
  intros w r w'. unfold write. destruct (fs w !! q) as [[c|]|]; intros [= <- <-];
    try apply only_at_refl.
  repeat split. intros p Hp. simpl. by rewrite lookup_insert_ne.
Qed.

Lemma open_write_only_at q : keeps (only_at q) (open_write q).
Proof.
  intros w r w'. unfold open_write.
  destruct (fs w !! q) as [[c|]|]; destruct (fs w !! Text.dirname q) as [[d|]|];
    intros [= <- <-]; try apply only_at_refl;
    (repeat split; intros p Hp; simpl; by rewrite lookup_insert_ne).
Qed.

Lemma getsize_only_at h q p : keeps (only_at q) (getsize h p).
Proof. apply same_world_only_at. intros w. unfold getsize. by destruct (fs w !! p) as [[?|]|]. Qed.

Lemma open_read_only_at q p : keeps (only_at q) (open_read p).
Proof. apply same_world_only_at. intros w. unfold open_read. by destruct (fs w !! p) as [[?|]|]. Qed.

Lemma glob_txt_only_at q d : keeps (only_at q) (glob_txt d).
Proof. by apply same_world_only_at. Qed.

Lemma report_section_only_at h report file :
  keeps (only_at report) (report_section h report file).
Proof.
  unfold report_section.
  keeps_steps (only_at_refl report) (only_at_trans report)
    ltac:(auto using write_only_at, getsize_only_at, open_read_only_at).
Qed.

(** What [generate_report] does to the world, however it ends. *)
Lemma generate_report_effect h odir f w r w' :
  generate_report h odir f w = (r, w') ->
  procs w' = procs w
  /\ (forall p, p <> report_path odir f -> fs w' !! p = fs w !! p)
  /\ out w' = out w ++ match r with
                       | Ok _ => ["[INFO] Report generated: " +:+ report_path odir f]
                       | Raise _ => []
                       end.
Proof.
  unfold generate_report. cbv zeta.
  unfold bind at 1.
  destruct (open_write _ w) as [[[]|e] w1] eqn:E1;
    apply open_write_only_at in E1 as (Hp1 & Ho1 & Hf1).
  2:{ intros [= <- <-]. by rewrite app_nil_r. }
  unfold bind at 1.
  destruct (write _ _ w1) as [[[]|e] w2] eqn:E2;
    apply write_only_at in E2 as (Hp2 & Ho2 & Hf2).
  2:{ intros [= <- <-]. rewrite app_nil_r. repeat split; try congruence.
      intros p Hp. by rewrite Hf2, Hf1. }
  unfold bind at 1.
  destruct (glob_txt odir w2) as [[files|e] w3] eqn:E3;
    apply (glob_txt_only_at (report_path odir f)) in E3 as (Hp3 & Ho3 & Hf3).
  2:{ intros [= <- <-]. rewrite app_nil_r. repeat split; try congruence.
      intros p Hp. by rewrite Hf3, Hf2, Hf1. }
  unfold bind at 1.
  assert (keeps (only_at (report_path odir f))
            (for_each files (report_section h (report_path odir f)))) as Hloop.
  { apply (keeps_for_each _ (only_at_refl _) (only_at_trans _)).
    intros file. apply report_section_only_at. }
  destruct (for_each files _ w3) as [[[]|e] w4] eqn:E4;
    apply Hloop in E4 as (Hp4 & Ho4 & Hf4).
  - unfold print. intros [= <- <-]. simpl. repeat split; try congruence.
    intros p Hp. by rewrite Hf4, Hf3, Hf2, Hf1.
  - intros [= <- <-]. rewrite app_nil_r. repeat split; try congruence.
    intros p Hp. by rewrite Hf4, Hf3, Hf2, Hf1.
Qed.

(** X16. However [generate_report] ends, it starts no subprocess and
    changes the file system at the report file only: no output of a module
    is touched.  It prints its one line exactly when it returns. *)
Theorem X16_report_footprint h odir f w r w' :
  generate_report h odir f w = (r, w') ->
  procs w' = procs w
  /\ (forall p, p <> report_path odir f -> fs w' !! p = fs w !! p)
  /\ out w' = out w ++ match r with
                       | Ok _ => ["[INFO] Report generated: " +:+ report_path odir f]
                       | Raise _ => []
                       end.
Proof. apply generate_report_effect. Qed.

Lemma report_section_dir h report file w :
  dir_size h <> 0%nat -> file <> report -> fs w !! file = Some Dir ->
  exists e w', report_section h report file w = (Raise e, w') /\ only_at report w w'.
Proof.
  intros Hsz Hne Hd.
  destruct (report_section h report file w) as [r w'] eqn:E.
  pose proof (report_section_only_at _ _ _ _ _ _ E) as Hat.
  exists (match r with Raise e => e | Ok _ => TimeoutExpired end), w'. split; [|done].
  f_equal. revert E. unfold report_section. unfold bind at 1.
  destruct (write report _ w) as [[[]|e] w1] eqn:E1.
  2:{ by intros [= <- <-]. }
  apply write_only_at in E1 as (_ & _ & Hf1).
  unfold bind at 1. unfold getsize. rewrite (Hf1 file Hne), Hd.
  destruct (dir_size h) as [|n]; [done|]. simpl.
  unfold bind at 1. unfold open_read. rewrite (Hf1 file Hne), Hd. by intros [= <- <-].
Qed.

Lemma report_loop_raises h report files : forall w,
  dir_size h <> 0%nat -> report ∉ files ->
  (exists p, p ∈ files /\ fs w !! p = Some Dir) ->
  exists e w', for_each files (report_section h report) w = (Raise e, w')
               /\ only_at report w w'.
Proof.
  induction files as [|x files IH]; intros w Hsz Hnot (p & Hp & Hd).
  - by apply elem_of_nil in Hp.
  - apply not_elem_of_cons in Hnot as [Hx Hnot]. simpl. unfold bind at 1.
    destruct (report_section h report x w) as [[[]|e] w1] eqn:E1.
    + pose proof (report_section_only_at _ _ _ _ _ _ E1) as Hat.
      assert (p <> x) as Hpx.
      { intros ->. destruct (report_section_dir h report x w Hsz) as (e & w2 & E2 & _);
          [done..|]. congruence. }
      apply elem_of_cons in Hp as [?|Hp]; [done|].
      destruct (IH w1 Hsz Hnot) as (e & w2 & E2 & Hat2).
      { exists p. split; [done|]. destruct Hat as (_ & _ & Hf). rewrite Hf; [done|].
        intros ->. done. }
      exists e, w2. split; [done|]. by eapply only_at_trans.
    + exists e, w1. split; [done|]. by eapply report_section_only_at.
Qed.

(** X17. A directory whose name ends in [.txt], directly in the output
    directory, makes [generate_report] fail when the host gives directories
    a size other than zero: the loop reads it as a file, the exception
    leaves [generate_report], and the line that announces the report is not
    printed. *)
Theorem X17_report_meets_directory h odir f w p :
  fs w !! odir = Some Dir ->
  fs w !! report_path odir f <> Some Dir ->
  glob_match odir p = true ->
  fs w !! p = Some Dir ->
  dir_size h <> 0%nat ->
  exists e w',
    generate_report h odir f w = (Raise e, w')
    /\ out w' = out w /\ procs w' = procs w.
Proof.
  intros Hd Hr Hm Hp Hsz.
  pose proof (report_not_globbed odir f) as Hrep.
  assert (p <> report_path odir f) as Hne by (intros ->; congruence).
  destruct (generate_report h odir f w) as [r w'] eqn:E.
  pose proof (generate_report_effect _ _ _ _ _ _ E) as (Hpr & _ & Ho).
  enough (exists e, r = Raise e) as [e ->].
  { exists e, w'. rewrite app_nil_r in Ho. done. }
  revert E. unfold generate_report. cbv zeta. unfold bind at 1.
  rewrite open_write_ok;
    [|done|unfold report_path; rewrite dirname_joinpath; [done|by destruct f]].
  unfold bind at 1. unfold write, set_fs. simpl.
  rewrite lookup_insert_eq. simpl. rewrite insert_insert_eq.
  unfold bind at 1.
  match goal with |- context [glob_txt odir ?w1] =>
    destruct (glob_txt odir w1) as [rg wg] eqn:Eg end.
  assert (exists files, rg = Ok files) as [files ->].
  { unfold glob_txt in Eg. injection Eg as <- _. eauto. }
  pose proof (glob_txt_spec _ _ _ _ Eg) as (-> & Hnd & Hspec). simpl in Hspec.
  unfold bind at 1.
  match goal with |- context [for_each files ?b ?w1] =>
    destruct (report_loop_raises h (report_path odir f) files w1 Hsz) as (e & w2 & El & _)
  end.
  - intros Hin. apply Hspec in Hin as [_ Hin]. congruence.
  - exists p. simpl. rewrite lookup_insert_ne by done. split; [|done].
    apply Hspec. rewrite lookup_insert_ne by done. rewrite Hp. eauto.
  - rewrite El. intros [= <- _]. eauto.
Qed.

(** ** Runs of the whole pipeline *)

(** X18. With [--only-subdomains] a run starts at most one subprocess,
    whatever the other options are and however the run ends: the
    [subfinder] command for the target, with the timeout of the profile. *)
Theorem X18_only_subdomains_run h args w r w' :
  let odir := joinpath (arg_output args) (Text.replace "." "_" (arg_target args)) in
  let cmd := ("subfinder -d " +:+ arg_target args +:+ " -silent -o "
              +:+ joinpath odir "subs.txt")
             +:+ (if arg_deep args then " -all" else EmptyString) in
  arg_only_subdomains args = true ->
  main h args w = (r, w') ->
  procs w' = procs w
  \/ procs w' = procs w ++ [(cmd, Some (if arg_fast args then 60 else 300))].
Proof.
  intros odir cmd Hs. unfold main.
  destruct (arg_fast args && arg_deep args)%bool.
  { intros [= <- <-]. by left. }
  fold odir. unfold bind at 1.
  destruct (construct _ _ _ _ w) as [[ms|e] w1] eqn:Ec;
    pose proof (construct_spec _ _ _ _ _ _ _ Ec) as (_ & Hp1 & Hms).
  2:{ intros [= <- <-]. by left. }
  rewrite (Hms ms eq_refl).
  assert (select kind args
            (map (fun k => mkModule k (arg_target args) odir (make_config args)) all_kinds)
          = [mkModule SubdomainModule (arg_target args) odir (make_config args)]) as ->.
  { unfold select. rewrite Hs.
    destruct (arg_no_dirs args), (arg_no_screenshots args); reflexivity. }
  set (m := mkModule SubdomainModule (arg_target args) odir (make_config args)).
  assert (forall w0 r2 w2,
             run_modules h [m] w0 = (r2, w2) ->
             procs w2 = procs w0
             \/ procs w2 = procs w0 ++ [(cmd, Some (if arg_fast args then 60 else 300))])
    as Hrun.
  { intros w0 r2 w2. unfold run_modules. simpl.
    unfold bind at 1. unfold bind at 1. unfold print at 1. unfold bind at 1.
    unfold execute. simpl. unfold execute_subdomain, check_tool.
    destruct (which h "subfinder").
    - unfold bind at 1. unfold ret at 1. cbn [negb].
      change (config m) with (make_config args). rewrite make_config_deep.
      match goal with |- context [run_cmd h m ?c ?p ?w3] =>
        pose proof (run_cmd_procs h m c p w3) as Hpr;
        destruct (run_cmd_returns h m c p w3) as [b Hb];
        destruct (run_cmd h m c p w3) as [rr w4]
      end.
      simpl in Hpr, Hb. subst rr. unfold ret. intros [= <- <-]. right.
      rewrite Hpr, make_config_timeout. unfold cmd.
      destruct (arg_deep args); [done|]. by rewrite append_empty_r.
    - unfold_monad. intros [= <- <-]. by left. }
  unfold bind at 1.
  destruct (run_modules h [m] w1) as [[[]|e] w2] eqn:Er; apply Hrun in Er.
  2:{ intros [= <- <-]. rewrite Hp1 in Er. done. }
  unfold bind at 1.
  destruct (generate_report h odir (arg_report args) w2) as [[[]|e] w3] eqn:Eg;
    apply generate_report_effect in Eg as (Hp3 & _).
  - unfold print. intros [= <- <-]. simpl. rewrite Hp3. by rewrite Hp1 in Er.
  - intros [= <- <-]. rewrite Hp3. by rewrite Hp1 in Er.
Qed.

(** X19. Every subprocess a run of main starts, however the run ends,
    carries the timeout of the profile, 60 seconds with [--fast] and 300
    without, except the [curl] fetches of JavaScript discovery, which carry
    none. *)
Theorem X19_timeouts_of_a_run h args w r w' :
  main h args w = (r, w') ->
  exists l,
    procs w' = procs w ++ l
    /\ Forall (fun p => p.2 = Some (if arg_fast args then 60 else 300)
                        \/ (p.2 = None /\ Text.startswith p.1 "curl -s " = true)) l.
Proof. apply main_started. Qed.

(** X20. A missing [subs.txt] is passed on: HTTP probing, JavaScript
    discovery and the screenshot module, run in that order where neither
    [subs.txt] nor [httpx.txt] exists, start no subprocess between them and
    leave every regular file as it was; [httpx.txt] is still missing
    afterwards. *)
Theorem X20_skips_follow h tgt odir cfg w r w' :
  fs w !! joinpath odir "subs.txt" = None ->
  fs w !! joinpath odir "httpx.txt" = None ->
  run_modules h
    (map (fun k => mkModule k tgt odir cfg)
       [HttpProbeModule; JsDiscoveryModule; ScreenshotModule]) w = (r, w') ->
  procs w' = procs w
  /\ fs w' !! joinpath odir "httpx.txt" = None
  /\ forall p c, fs w' !! p = Some (File c) <-> fs w !! p = Some (File c).
Proof.
  intros Hsubs Hhttpx. unfold run_modules. simpl.
  unfold bind at 1. unfold bind at 1. unfold print at 1. unfold bind at 1.
  unfold execute at 1. simpl.
  match goal with |- context [execute_http_probe h ?m ?w0] =>
    destruct (http_probe_missing_upstream h m w0 Hsubs) as (w1 & -> & Hf1 & Hp1)
  end.
  simpl in Hf1, Hp1. unfold ret at 1.
  unfold bind at 1. unfold bind at 1. unfold print at 1. unfold bind at 1.
  unfold execute at 1. simpl.
  match goal with |- context [execute_js_discovery h ?m ?w0] =>
    destruct (js_discovery_missing_upstream h m w0) as (w2 & -> & Hf2 & Hp2)
  end.
  { simpl. by rewrite Hf1. }
  simpl in Hf2, Hp2. unfold ret at 1.
  unfold bind at 1. unfold bind at 1. unfold print at 1. unfold bind at 1.
  unfold execute at 1. simpl.
  match goal with |- context [execute_screenshot h ?m ?w0] =>
    destruct (execute_screenshot h m w0) as [r3 w3] eqn:E3;
    apply (screenshot_missing_upstream h m w0 r3 w3 eq_refl) in E3 as (Hp3 & Hf3 & _)
  end.
  2:{ simpl. by rewrite Hf2, Hf1. }
  simpl in Hp3, Hf3. rewrite Hf2, Hf1 in Hf3.
  assert (procs w' = procs w3 -> fs w' = fs w3 ->
          procs w' = procs w
          /\ fs w' !! joinpath odir "httpx.txt" = None
          /\ forall p c, fs w' !! p = Some (File c) <-> fs w !! p = Some (File c)) as Hend.
  { intros -> ->. split; [congruence|]. split.
    - destruct (Hf3 (joinpath odir "httpx.txt")) as [->|(Hin & _)]; [done|].
      apply makedirs_chain_prefix in Hin as [s Hs].
      unfold joinpath in Hs. rewrite append_assoc in Hs.
      apply append_inj_l in Hs. discriminate Hs.
    - intros p c. destruct (Hf3 p) as [->|(_ & E1 & E2)]; [done|].
      rewrite E1, E2. split; done. }
  destruct r3 as [b|e]; unfold_monad; intros [= <- <-]; by apply Hend.
Qed.

(** ** Screenshots *)

(** X21. When gowitness exits with status zero, the screenshot module
    writes what gowitness printed to [report.html] in the screenshots
    directory, in place of whatever gowitness itself had put there, and
    returns [True]; the directory was made before gowitness was started. *)
Theorem X21_screenshot_report h self w w1 c f :
  let sdir := joinpath (output_dir self) "screenshots/" in
  let httpx_file := joinpath (output_dir self) "httpx.txt" in
  let cmd := "gowitness file -f " +:+ httpx_file +:+ " -P " +:+ sdir +:+ " --headless" in
  kind self = ScreenshotModule ->
  which h "gowitness" = true ->
  makedirs sdir w = (Ok tt, w1) ->
  is_Some (fs w !! httpx_file) ->
  spawn h (length (procs w)) cmd (Some (config_timeout (config self))) (fs w1)
    = (Exited c, f) ->
  returncode c = 0 ->
  f !! sdir = Some Dir ->
  f !! (sdir +:+ "/report.html") <> Some Dir ->
  (execute h self w).1 = Ok true
  /\ fs (execute h self w).2 = <[sdir +:+ "/report.html" := File (stdout c)]> f
  /\ procs (execute h self w).2 = procs w ++ [(cmd, Some (config_timeout (config self)))].
Proof.
  intros sdir httpx_file cmd Hk Hw Em Hx Hs Hrc Hd Hr.
  pose proof (makedirs_screenshots_httpx _ _ _ _ Em) as Hh.
  pose proof (makedirs_grows _ _ _ _ Em) as [(Hp & Ho & _) _].
  assert (execute h self w
          = run_cmd h self cmd (sdir +:+ "/report.html") w1) as ->.
  { unfold execute. rewrite Hk. unfold execute_screenshot, check_tool. rewrite Hw, Hk.
    cbn [output_file]. fold sdir httpx_file.
    unfold bind at 1. unfold ret at 1. cbn [negb]. unfold bind at 1. rewrite Em.
    unfold bind at 1. rewrite path_exists_Some by (unfold httpx_file; by rewrite Hh).
    done. }
  rewrite <- Hp in Hs.
  rewrite run_cmd_procs, Hp.
  assert (Text.dirname (sdir +:+ "/report.html") = sdir) as Hdn.
  { unfold Text.dirname. by rewrite rsplit_slash_join. }
  destruct (run_cmd_zero_exit h self cmd (sdir +:+ "/report.html") w1 c f Hs Hrc Hr)
    as (w2 & -> & Hf2); [by rewrite Hdn|].
  done.
Qed.

(** ** An exception no handler catches *)

(** X22. JavaScript discovery reads [httpx.txt] outside any handler: when a
    directory stands at that path, the exception leaves [execute], and the
    loop of main ends there, after the start notice of the module; the
    modules after it are not run. *)
Theorem X22_unreadable_upstream h self ms w :
  kind self = JsDiscoveryModule ->
  which h "curl" = true ->
  fs w !! joinpath (output_dir self) "httpx.txt" = Some Dir ->
  exists msg,
    run_modules h (self :: ms) w
    = (Raise (PyError msg), mkWorld (fs w) (out w ++ [notice self]) (procs w)).
Proof.
  intros Hk Hw Hd.
  assert (forall w0, fs w0 = fs w ->
            execute h self w0
            = (Raise (PyError ("[Errno 21] Is a directory: '"
                               +:+ joinpath (output_dir self) "httpx.txt" +:+ "'")), w0))
    as Hex.
  { intros w0 Hf. unfold execute. rewrite Hk. unfold execute_js_discovery, check_tool.
    rewrite Hw. unfold bind at 1. unfold ret at 1. cbn [negb]. unfold bind at 1.
    rewrite path_exists_Some by (rewrite Hf, Hd; eauto). cbn [negb].
    unfold bind at 1. unfold open_read. by rewrite Hf, Hd. }
  eexists. unfold run_modules. simpl.
  unfold bind at 1. unfold bind at 1. unfold print at 1. unfold bind at 1.
  by rewrite Hex.
Qed.

(** ** Where the program writes *)

Section Footprint.

(** A relation between file systems that holds across the three kinds of
    change the program and its tools make: a regular file written below the
    output directory where no directory stands, a directory made at a path
    that was free, at the output directory, above it or below it, and
    whatever a subprocess does. *)
Variable h : Host.
Variable odir : string.
Variable P : gmap string node -> gmap string node -> Prop.
Hypothesis P_refl : forall f, P f f.
Hypothesis P_trans : forall f1 f2 f3, P f1 f2 -> P f2 f3 -> P f1 f3.
Hypothesis P_file :
  forall f p c, under odir p = true -> f !! p <> Some Dir -> P f (<[p := File c]> f).
Hypothesis P_dir :
  forall f p, p ∈ chain odir \/ under odir p = true -> f !! p = None -> P f (<[p := Dir]> f).
Hypothesis P_host : forall n cmd t f, P f (spawn h n cmd t f).2.

Lemma on_fs_refl w : on_fs P w w.
Proof. apply P_refl. Qed.

Lemma on_fs_trans w1 w2 w3 : on_fs P w1 w2 -> on_fs P w2 w3 -> on_fs P w1 w3.
Proof. apply P_trans. Qed.

Lemma same_fs_on {A} (c : M A) : (forall w, fs (c w).2 = fs w) -> keeps (on_fs P) c.
Proof.
  intros H w r w' E. specialize (H w). rewrite E in H. simpl in H.
  unfold on_fs. rewrite H. apply P_refl.
Qed.

Lemma print_on line : keeps (on_fs P) (print line).
Proof. by apply same_fs_on. Qed.

Lemma path_exists_on p : keeps (on_fs P) (path_exists p).
Proof. by apply same_fs_on. Qed.

Lemma open_read_on p : keeps (on_fs P) (open_read p).
Proof. apply same_fs_on. intros w. unfold open_read. by destruct (fs w !! p) as [[?|]|]. Qed.

Lemma getsize_on p : keeps (on_fs P) (getsize h p).
Proof. apply same_fs_on. intros w. unfold getsize. by destruct (fs w !! p) as [[?|]|]. Qed.

Lemma glob_txt_on d : keeps (on_fs P) (glob_txt d).
Proof. by apply same_fs_on. Qed.

Lemma elapsed_text_on : keeps (on_fs P) (elapsed_text h).
Proof. by apply same_fs_on. Qed.

Lemma open_write_on p : under odir p = true -> keeps (on_fs P) (open_write p).
Proof.
  intros Hu w r w'. unfold open_write, on_fs.
  destruct (fs w !! p) as [[c|]|] eqn:Ep;
    destruct (fs w !! Text.dirname p) as [[d|]|];
    intros [= <- <-]; simpl; try apply P_refl; apply P_file; congruence.
Qed.

Lemma write_on p s : under odir p = true -> keeps (on_fs P) (write p s).
Proof.
  intros Hu w r w'. unfold write, on_fs.
  destruct (fs w !! p) as [[c|]|] eqn:Ep; intros [= <- <-]; simpl; try apply P_refl.
  apply P_file; congruence.
Qed.

Lemma mkdir_exist_ok_on p :
  p ∈ chain odir \/ under odir p = true -> keeps (on_fs P) (mkdir_exist_ok p).
Proof.
  intros Hp w r w'. unfold mkdir_exist_ok, on_fs.
  destruct (fs w !! p) as [[c|]|] eqn:Ep; intros [= <- <-]; simpl; try apply P_refl.
  by apply P_dir.
Qed.

Lemma makedirs_on p :
  (forall q, q ∈ chain p -> q ∈ chain odir \/ under odir q = true) ->
  keeps (on_fs P) (makedirs p).
Proof.
  intros Hq. unfold makedirs.
  apply keeps_for_each_Forall; [apply on_fs_refl|apply on_fs_trans|].
  apply Forall_forall. intros q Hin. apply mkdir_exist_ok_on. by apply Hq.
Qed.

Lemma subprocess_run_on cmd t : keeps (on_fs P) (subprocess_run h cmd t).
Proof.
  intros w r w'. unfold subprocess_run, on_fs.
  pose proof (P_host (length (procs w)) cmd t (fs w)) as Hh.
  destruct (spawn h _ _ _ _) as [[?| |?] fsys]; intros [= <- <-]; exact Hh.
Qed.

Lemma under_joinpath name : under odir (joinpath odir name) = true.
Proof.
  unfold under, joinpath. apply (startswith_append _ (trim_sep name)).
  by rewrite append_assoc.
Qed.

Lemma under_gowitness_report :
  under odir (joinpath odir "screenshots/" +:+ "/report.html") = true.
Proof.
  unfold under, joinpath.
  apply (startswith_append _ (trim_sep "screenshots/" +:+ "/report.html")).
  by rewrite !append_assoc.
Qed.

Lemma makedirs_odir_on : keeps (on_fs P) (makedirs odir).
Proof. apply makedirs_on. intros q Hq. by left. Qed.

Lemma chain_screenshots q :
  q ∈ chain (joinpath odir "screenshots/") ->
  q ∈ chain odir \/ q = joinpath odir "screenshots/".
Proof.
  unfold chain at 1. intros Hq. apply elem_of_app in Hq as [Hq|Hq].
  - left. revert Hq. unfold joinpath, ancestors.
    change (odir +:+ "/" +:+ trim_sep "screenshots/") with (odir +:+ String "/" "screenshots").
    rewrite ancestors_from_join by reflexivity.
    change (EmptyString +:+ odir) with odir. unfold chain, ancestors.
    intros Hq. apply elem_of_app in Hq as [Hq|Hq]; apply elem_of_app; [by left|].
    destruct odir; [by apply elem_of_nil in Hq|by right].
  - right. by apply list_elem_of_singleton in Hq.
Qed.

Lemma makedirs_screenshots_on : keeps (on_fs P) (makedirs (joinpath odir "screenshots/")).
Proof.
  apply makedirs_on. intros q Hq. apply chain_screenshots in Hq as [Hq| ->]; [by left|].
  right. apply under_joinpath.
Qed.

Create HintDb footprint.
#[local] Hint Resolve print_on path_exists_on open_read_on getsize_on glob_txt_on
  elapsed_text_on subprocess_run_on open_write_on write_on makedirs_odir_on
  makedirs_screenshots_on under_joinpath under_gowitness_report : footprint.

Ltac footprint_steps :=
  keeps_steps on_fs_refl on_fs_trans ltac:(auto with footprint).

Lemma check_tool_on tool : keeps (on_fs P) (check_tool h tool).
Proof. unfold check_tool. footprint_steps. Qed.

Lemma run_cmd_on self cmd p : under odir p = true -> keeps (on_fs P) (run_cmd h self cmd p).
Proof. intros Hp. unfold run_cmd. footprint_steps. Qed.

Lemma fetch_endpoints_on urls : forall acc, keeps (on_fs P) (fetch_endpoints h urls acc).
Proof. induction urls as [|u urls IH]; intros acc; simpl; footprint_steps. Qed.

Lemma execute_on self : output_dir self = odir -> keeps (on_fs P) (execute h self).
Proof.
  pose proof check_tool_on. pose proof (run_cmd_on self).
  pose proof fetch_endpoints_on.
  destruct self as [k tgt od cfg]. simpl. intros ->.
  unfold execute. destruct k; simpl;
    unfold execute_subdomain, execute_ports, execute_http_probe, execute_js_discovery,
      execute_dir_bruteforce, execute_param_discovery, execute_screenshot, tech_extraction;
    simpl; footprint_steps.
Qed.

Lemma generate_report_on f : keeps (on_fs P) (generate_report h odir f).
Proof.
  unfold generate_report, report_section, report_path. footprint_steps.
Qed.

Lemma construct_on kinds tgt cfg : keeps (on_fs P) (construct kinds tgt odir cfg).
Proof.
  induction kinds as [|k kinds IH]; simpl; unfold new_module; footprint_steps.
Qed.

Lemma main_on args :
  odir = joinpath (arg_output args) (Text.replace "." "_" (arg_target args)) ->
  keeps (on_fs P) (main h args).
Proof.
  intros Hodir w r w'. unfold main.
  destruct (arg_fast args && arg_deep args)%bool.
  { unfold print. intros [= <- <-]. apply P_refl. }
  rewrite <- Hodir. unfold bind at 1.
  destruct (construct _ _ _ _ w) as [[ms|e] w1] eqn:Ec;
    pose proof (construct_on _ _ _ _ _ _ Ec) as H1.
  2:{ by intros [= <- <-]. }
  pose proof (construct_spec _ _ _ _ _ _ _ Ec) as (_ & _ & Hms).
  specialize (Hms ms eq_refl). intros E.
  apply (on_fs_trans w w1 w'); [done|].
  revert E. apply (keeps_bind _ on_fs_trans).
  - apply keeps_for_each_Forall; [apply on_fs_refl|apply on_fs_trans|].
    apply select_Forall. rewrite Hms. apply Forall_forall.
    intros m Hm. apply list_elem_of_fmap in Hm as (k & -> & _).
    apply (keeps_bind _ on_fs_trans); [apply print_on|intros _].
    apply (keeps_bind _ on_fs_trans).
    + by apply execute_on.
    + intros _. apply keeps_ret, on_fs_refl.
  - intros _. apply (keeps_bind _ on_fs_trans).
    + apply generate_report_on.
    + intros _. apply print_on.
Qed.

End Footprint.

Lemma entries_kept_refl f : entries_kept f f.
Proof. intros p. split; [done|]. intros c Hc. by exists c. Qed.

Lemma entries_kept_trans f1 f2 f3 :
  entries_kept f1 f2 -> entries_kept f2 f3 -> entries_kept f1 f3.
Proof.
  intros H1 H2 p. destruct (H1 p) as [Hd1 Hf1], (H2 p) as [Hd2 Hf2]. split; [auto|].
  intros c Hc. destruct (Hf1 c Hc) as [c' Hc']. eauto.
Qed.

Lemma entries_kept_insert_file f p c :
  f !! p <> Some Dir -> entries_kept f (<[p := File c]> f).
Proof.
  intros Hp q. destruct (decide (p = q)) as [<-|Hne].
  - rewrite lookup_insert_eq. split; [done|]. eauto.
  - rewrite lookup_insert_ne by done. apply entries_kept_refl.
Qed.

Lemma entries_kept_insert_dir f p :
  f !! p = None -> entries_kept f (<[p := Dir]> f).
Proof.
  intros Hp q. destruct (decide (p = q)) as [<-|Hne].
  - rewrite lookup_insert_eq, Hp. split; [done|]. discriminate.
  - rewrite lookup_insert_ne by done. apply entries_kept_refl.
Qed.

(** X23. The program removes nothing: when the tools it starts keep every
    entry of the file system, as a directory or as a regular file, so does
    a whole run, however it ends; no directory is replaced by a file and no
    file by a directory. *)
Theorem X23_nothing_is_removed h args w r w' :
  (forall n cmd t f, entries_kept f (spawn h n cmd t f).2) ->
  main h args w = (r, w') ->
  entries_kept (fs w) (fs w').
Proof.
  intros Hh E.
  apply (main_on h (joinpath (arg_output args) (Text.replace "." "_" (arg_target args)))
           entries_kept entries_kept_refl entries_kept_trans) in E; try done.
  - intros f p c _. apply entries_kept_insert_file.
  - intros f p _. apply entries_kept_insert_dir.
Qed.

Lemma touched_within_refl d f : touched_within d f f.
Proof. intros p. by left. Qed.

Lemma touched_within_trans d f1 f2 f3 :
  touched_within d f1 f2 -> touched_within d f2 f3 -> touched_within d f1 f3.
Proof.
  intros H1 H2 p. destruct (H2 p) as [E2|?]; [|by right].
  destruct (H1 p) as [E1|?]; [|by right]. left. congruence.
Qed.

Lemma touched_within_insert d f p x :
  p ∈ chain d \/ under d p = true -> touched_within d f (<[p := x]> f).
Proof.
  intros Hp q. destruct (decide (p = q)) as [<-|Hne]; [by right|].
  left. by rewrite lookup_insert_ne.
Qed.

(** X24. The program writes only into its output directory.  Where the
    output base and the target are single path components, so that the
    output directory is the base, a separator and the target with its dots
    replaced: when the tools the program starts change nothing outside that
    directory and the directories above it, neither does a whole run,
    however it ends; what the run changes lies below the output directory,
    or is that directory or one above it, made because it was missing. *)
Theorem X24_confined_to_output h args w r w' :
  let odir := arg_output args +:+ "/" +:+ Text.replace "." "_" (arg_target args) in
  plain_name (arg_output args) = true ->
  plain_name (arg_target args) = true ->
  (forall n cmd t f, touched_within odir f (spawn h n cmd t f).2) ->
  main h args w = (r, w') ->
  touched_within odir (fs w) (fs w').
Proof.
  intros odir Ho Ht Hh E.
  assert (odir = joinpath (arg_output args) (Text.replace "." "_" (arg_target args)))
    as Hodir by (by apply plain_join).
  apply (main_on h odir (touched_within odir)
           (touched_within_refl odir) (touched_within_trans odir)) in E; try done.
  - intros f p c Hu _. apply touched_within_insert. by right.
  - intros f p Hp _. by apply touched_within_insert.
Qed.

(** ** Instances of the further properties *)

Lemma X2_witness :
  run_cmd Cases.slow_host (Scenario.instance PortsModule) "naabu -host example.com"
    (joinpath Scenario.odir "ports.txt") Scenario.fresh
  = (Ok false,
     mkWorld (fs Scenario.fresh) ["[ERROR] Timeout in ports"]
       [("naabu -host example.com", Some 300)]).
Proof.
  apply (X2_run_cmd_timeout Cases.slow_host (Scenario.instance PortsModule)
           "naabu -host example.com" (joinpath Scenario.odir "ports.txt") Scenario.fresh
           (fs Scenario.fresh)).
  reflexivity.
Defined.

Lemma X3_witness :
  ((run_cmd (Scenario.host 0 "22") (Scenario.instance PortsModule) "naabu -host example.com"
      (joinpath Scenario.odir "ports.txt") Scenario.fresh).1 = Ok true
   <-> exists c, Exited (mkCompleted 0 "22" "  failed  ") = Exited c /\ returncode c = 0
                 /\ fs Scenario.fresh !! joinpath Scenario.odir "ports.txt" <> Some Dir
                 /\ fs Scenario.fresh !! Text.dirname (joinpath Scenario.odir "ports.txt")
                    = Some Dir)
  /\ ((run_cmd (Scenario.host 0 "22") (Scenario.instance PortsModule)
         "naabu -host example.com" (joinpath Scenario.odir "ports.txt") Scenario.fresh).1
      = Ok true ->
      exists c, Exited (mkCompleted 0 "22" "  failed  ") = Exited c
                /\ fs (run_cmd (Scenario.host 0 "22") (Scenario.instance PortsModule)
                         "naabu -host example.com" (joinpath Scenario.odir "ports.txt")
                         Scenario.fresh).2
                   = <[joinpath Scenario.odir "ports.txt" := File (stdout c)]>
                       (fs Scenario.fresh)).
Proof.
  apply (X3_run_cmd_success (Scenario.host 0 "22") (Scenario.instance PortsModule)
           "naabu -host example.com" (joinpath Scenario.odir "ports.txt") Scenario.fresh
           (Exited (mkCompleted 0 "22" "  failed  ")) (fs Scenario.fresh)).
  reflexivity.
Defined.

Lemma X4_witness :
  exists msg,
    run_cmd Cases.broken_host (Scenario.instance PortsModule) "naabu -host example.com"
      (joinpath Scenario.odir "ports.txt") Scenario.fresh
    = (Ok false,
       mkWorld (fs Scenario.fresh) ["[ERROR] Failure in ports: " +:+ msg]
         [("naabu -host example.com", Some 300)]).
Proof.
  apply (X4_run_cmd_other_failures Cases.broken_host (Scenario.instance PortsModule)
           "naabu -host example.com" (joinpath Scenario.odir "ports.txt") Scenario.fresh
           (Faulted "[Errno 12] Cannot allocate memory") (fs Scenario.fresh)).
  - reflexivity.
  - left. eexists. reflexivity.
Defined.

Lemma X5_witness :
  procs (run_cmd (Scenario.host 0 "22") Cases.unconfigured "naabu -host example.com"
           (joinpath Scenario.odir "ports.txt") Scenario.fresh).2
  = [("naabu -host example.com", Some 300)].
Proof.
  apply (X5_run_cmd_default_timeout (Scenario.host 0 "22") Cases.unconfigured
           "naabu -host example.com" (joinpath Scenario.odir "ports.txt") Scenario.fresh).
  reflexivity.
Defined.

Lemma X6_witness :
  exists advice,
    execute Scenario.bare_host (Scenario.instance ParamDiscoveryModule) Scenario.fresh
    = (Ok false,
       mkWorld (fs Scenario.fresh)
         ["[ERROR] arjun not found. Please install it and add to PATH."; advice] []).
Proof.
  apply (X6_tool_missing Scenario.bare_host (Scenario.instance ParamDiscoveryModule)
           Scenario.fresh).
  reflexivity.
Defined.

Lemma X7_witness :
  procs (execute (Scenario.host 0 "a.example.com")
           (mkModule SubdomainModule "example.com" Scenario.odir
              (make_config Cases.only_subdomains)) Scenario.fresh).2
  = [("subfinder -d example.com -silent -o output/example_com/subs.txt -all", Some 300)].
Proof.
  apply (X7_subdomain_command (Scenario.host 0 "a.example.com") Cases.only_subdomains
           "example.com" Scenario.odir Scenario.fresh).
  reflexivity.
Defined.

Lemma X8_witness :
  procs (execute_dir_bruteforce Cases.no_wordlist_host
           (Scenario.instance DirBruteforceModule) Scenario.fresh).2 = []
  /\ (execute_dir_bruteforce Cases.no_wordlist_host
        (Scenario.instance DirBruteforceModule) Scenario.fresh).1 = Ok false
  /\ fs (execute_dir_bruteforce Cases.no_wordlist_host
           (Scenario.instance DirBruteforceModule) Scenario.fresh).2
     = fs Scenario.fresh.
Proof.
  pose proof (X8_wordlist_gate Cases.no_wordlist_host
                (Scenario.instance DirBruteforceModule) Scenario.fresh eq_refl) as H.
  cbv zeta in H. destruct H as [H1 H2]. split; [exact H1|]. apply H2. reflexivity.
Defined.

Lemma X9_witness :
  exists tech,
    (execute (Scenario.host 0 Cases.probed) (Scenario.instance HttpProbeModule)
       Cases.with_subs).1 = Ok true
    /\ fs (execute (Scenario.host 0 Cases.probed) (Scenario.instance HttpProbeModule)
             Cases.with_subs).2 !! joinpath Scenario.odir "tech.txt"
       = Some (File tech)
    /\ file_lines tech = ["[nginx]"].
Proof.
  destruct (X9_http_probe_success (Scenario.host 0 Cases.probed)
              (Scenario.instance HttpProbeModule) Cases.with_subs
              (mkCompleted 0 Cases.probed "  failed  ") (fs Cases.with_subs))
    as (tech & H1 & H2 & H3).
  - reflexivity.
  - reflexivity.
  - vm_compute. eauto.
  - reflexivity.
  - reflexivity.
  - vm_compute. reflexivity.
  - vm_compute. discriminate.
  - vm_compute. discriminate.
  - exists tech. split; [exact H1|]. split.
    + rewrite H2. apply lookup_insert_eq.
    + rewrite H3. reflexivity.
Defined.

Lemma X11_witness :
  exists content,
    fs (execute_js_discovery (Scenario.host 0 Scenario.script)
          (Scenario.instance JsDiscoveryModule) Scenario.one_script).2
      !! joinpath Scenario.odir "endpoints.txt"
    = Some (File content)
    /\ last (out (execute_js_discovery (Scenario.host 0 Scenario.script)
                    (Scenario.instance JsDiscoveryModule) Scenario.one_script).2)
       = Some "[SUCCESS] Found 3 potential endpoints"
    /\ (length (file_lines content) <= 3)%nat.
Proof.
  exact (X11_count_with_repetitions (Scenario.host 0 Scenario.script)
           (Scenario.instance JsDiscoveryModule) Scenario.one_script
           ("http://a/app.js" +:+ Text.nl) true
           (execute_js_discovery (Scenario.host 0 Scenario.script)
              (Scenario.instance JsDiscoveryModule) Scenario.one_script).2
           eq_refl eq_refl eq_refl).
Defined.

Lemma X12_witness :
  execute_js_discovery (Scenario.host 0 "") (Scenario.instance JsDiscoveryModule)
    Cases.no_script
  = (Ok false,
     mkWorld (<[joinpath Scenario.odir "endpoints.txt" := File EmptyString]>
                (fs Cases.no_script))
       ["[SUCCESS] Found 0 potential endpoints"] []).
Proof.
  apply (X12_no_script_urls (Scenario.host 0 "") (Scenario.instance JsDiscoveryModule)
           Cases.no_script Cases.probed).
  - reflexivity.
  - reflexivity.
  - reflexivity.
  - vm_compute. discriminate.
  - vm_compute. reflexivity.
Defined.

Lemma X16_witness :
  procs (generate_report (Scenario.host 0 "") Scenario.odir md Scenario.two_outputs).2
  = procs Scenario.two_outputs
  /\ (forall p, p <> report_path Scenario.odir md ->
                fs (generate_report (Scenario.host 0 "") Scenario.odir md
                      Scenario.two_outputs).2 !! p
                = fs Scenario.two_outputs !! p)
  /\ out (generate_report (Scenario.host 0 "") Scenario.odir md Scenario.two_outputs).2
     = out Scenario.two_outputs
       ++ ["[INFO] Report generated: " +:+ report_path Scenario.odir md].
Proof.
  apply (X16_report_footprint (Scenario.host 0 "") Scenario.odir md Scenario.two_outputs
           (Ok tt)).
  vm_compute. reflexivity.
Defined.

Lemma X17_witness :
  exists e w',
    generate_report (Scenario.host 0 "") Scenario.odir md Cases.txt_directory = (Raise e, w')
    /\ out w' = [] /\ procs w' = [].
Proof.
  apply (X17_report_meets_directory (Scenario.host 0 "") Scenario.odir md
           Cases.txt_directory (joinpath Scenario.odir "old.txt")).
  - vm_compute. reflexivity.
  - vm_compute. discriminate.
  - reflexivity.
  - vm_compute. reflexivity.
  - discriminate.
Defined.

Lemma X18_witness :
  procs (main (Scenario.host 0 "a.example.com") Cases.only_subdomains (mkWorld ∅ [] [])).2
  = []
  \/ procs (main (Scenario.host 0 "a.example.com") Cases.only_subdomains
              (mkWorld ∅ [] [])).2
     = [] ++ [("subfinder -d example.com -silent -o output/example_com/subs.txt -all",
               Some 300)].
Proof.
  apply (X18_only_subdomains_run (Scenario.host 0 "a.example.com") Cases.only_subdomains
           (mkWorld ∅ [] [])
           (main (Scenario.host 0 "a.example.com") Cases.only_subdomains
              (mkWorld ∅ [] [])).1).
  - reflexivity.
  - vm_compute. reflexivity.
Defined.

Lemma X19_witness :
  exists l,
    procs (main (Scenario.host 0 "") Scenario.plain_args (mkWorld ∅ [] [])).2 = [] ++ l
    /\ Forall (fun p => p.2 = Some 300
                        \/ (p.2 = None /\ Text.startswith p.1 "curl -s " = true)) l.
Proof.
  apply (X19_timeouts_of_a_run (Scenario.host 0 "") Scenario.plain_args (mkWorld ∅ [] [])
           (main (Scenario.host 0 "") Scenario.plain_args (mkWorld ∅ [] [])).1).
  vm_compute. reflexivity.
Defined.

Lemma X20_witness :
  procs (run_modules (Scenario.host 0 "")
           (map Scenario.instance [HttpProbeModule; JsDiscoveryModule; ScreenshotModule])
           Scenario.fresh).2 = []
  /\ fs (run_modules (Scenario.host 0 "")
           (map Scenario.instance [HttpProbeModule; JsDiscoveryModule; ScreenshotModule])
           Scenario.fresh).2 !! joinpath Scenario.odir "httpx.txt" = None
  /\ forall p c,
       fs (run_modules (Scenario.host 0 "")
             (map Scenario.instance [HttpProbeModule; JsDiscoveryModule; ScreenshotModule])
             Scenario.fresh).2 !! p = Some (File c)
       <-> fs Scenario.fresh !! p = Some (File c).
Proof.
  apply (X20_skips_follow (Scenario.host 0 "") "example.com" Scenario.odir
           (<["timeout" := 300]> ∅) Scenario.fresh
           (run_modules (Scenario.host 0 "")
              (map Scenario.instance [HttpProbeModule; JsDiscoveryModule; ScreenshotModule])
              Scenario.fresh).1).
  - reflexivity.
  - reflexivity.
  - vm_compute. reflexivity.
Defined.

Lemma X21_witness :
  (execute (Scenario.host 0 "shots") (Scenario.instance ScreenshotModule)
     Cases.no_script).1 = Ok true
  /\ fs (execute (Scenario.host 0 "shots") (Scenario.instance ScreenshotModule)
           Cases.no_script).2
     = <[joinpath Scenario.odir "screenshots/" +:+ "/report.html" := File "shots"]>
         (<[joinpath Scenario.odir "screenshots/" := Dir]> (fs Cases.no_script))
  /\ procs (execute (Scenario.host 0 "shots") (Scenario.instance ScreenshotModule)
              Cases.no_script).2
     = [] ++ [("gowitness file -f output/example_com/httpx.txt"
               +:+ " -P output/example_com/screenshots --headless", Some 300)].
Proof.
  apply (X21_screenshot_report (Scenario.host 0 "shots")
           (Scenario.instance ScreenshotModule) Cases.no_script
           (mkWorld (<[joinpath Scenario.odir "screenshots/" := Dir]> (fs Cases.no_script))
              [] [])
           (mkCompleted 0 "shots" "  failed  ")
           (<[joinpath Scenario.odir "screenshots/" := Dir]> (fs Cases.no_script))).
  - reflexivity.
  - reflexivity.
  - vm_compute. reflexivity.
  - vm_compute. eauto.
  - reflexivity.
  - reflexivity.
  - vm_compute. reflexivity.
  - vm_compute. discriminate.
Defined.

Lemma X22_witness :
  exists msg,
    run_modules (Scenario.host 0 "")
      [Scenario.instance JsDiscoveryModule; Scenario.instance ScreenshotModule]
      Cases.httpx_is_directory
    = (Raise (PyError msg),
       mkWorld (fs Cases.httpx_is_directory) ["[INFO] Executing module: js_discovery"] []).
Proof.
  apply (X22_unreadable_upstream (Scenario.host 0 "") (Scenario.instance JsDiscoveryModule)
           [Scenario.instance ScreenshotModule] Cases.httpx_is_directory).
  - reflexivity.
  - reflexivity.
  - vm_compute. reflexivity.
Defined.

Lemma X23_witness :
  entries_kept (fs Scenario.two_outputs)
    (fs (main (Scenario.host 0 "") Scenario.plain_args Scenario.two_outputs).2).
Proof.
  apply (X23_nothing_is_removed (Scenario.host 0 "") Scenario.plain_args
           Scenario.two_outputs
           (main (Scenario.host 0 "") Scenario.plain_args Scenario.two_outputs).1).
  - intros n cmd t f p. simpl. split; [intros H; exact H|]. intros c H. exists c. exact H.
  - vm_compute. reflexivity.
Defined.

Lemma X24_witness :
  touched_within "output/example_com"
    (fs Scenario.two_outputs)
    (fs (main (Scenario.host 0 "") Scenario.plain_args Scenario.two_outputs).2).
Proof.
  apply (X24_confined_to_output (Scenario.host 0 "") Scenario.plain_args
           Scenario.two_outputs
           (main (Scenario.host 0 "") Scenario.plain_args Scenario.two_outputs).1).
  - reflexivity.
  - reflexivity.
  - intros n cmd t f p. left. reflexivity.
  - vm_compute. reflexivity.
Defined.
